(** * documark: conversion orchestration, shallow embedding

    A model of [documark/core/patterns.py], [documark/core/metadata.py],
    [documark/core/converter.py] and [documark/core/async_converter.py].

    Python strings are lists of characters, [pathlib] paths are a root and a
    list of components, the file system and the metadata directory are finite
    maps, and every function that can raise or that touches the outside world
    runs in a state-and-exception monad over the [world]. *)

From Stdlib Require Import Ascii String List ZArith QArith Lia Bool.
From Stdlib Require Import DecimalString.
From stdpp Require Import base decidable option list gmap strings fin_maps.

Set Default Proof Using "Type".
Set Warnings "-register-all".
Local Open Scope bool_scope.
Local Open Scope list_scope.

(** ** Strings *)

(** A Python [str]: its characters, in order. *)
Abbreviation str := (list ascii).

(** A string literal. *)
Definition py (s : string) : str := list_ascii_of_string s.

Definition chr_lbrace : ascii := "{"%char.
Definition chr_rbrace : ascii := "}"%char.
Definition chr_dot : ascii := "."%char.
Definition chr_slash : ascii := "/"%char.

(** [s.startswith(prefix)] *)
Fixpoint startswith (s prefix : str) {struct prefix} : bool :=
  match prefix with
  | [] => true
  | p :: prefix' =>
      match s with
      | [] => false
      | c :: s' => Ascii.eqb c p && startswith s' prefix'
      end
  end.

(** [s.endswith(suffix)] *)
Definition endswith (s suffix : str) : bool :=
  startswith (rev s) (rev suffix).

(** [sub in s] *)
Fixpoint contains (s sub : str) : bool :=
  startswith s sub ||
  match s with
  | [] => false
  | _ :: s' => contains s' sub
  end.

(** [sep.join(items)] *)
Fixpoint join (sep : str) (items : list str) : str :=
  match items with
  | [] => []
  | [x] => x
  | x :: rest => x ++ sep ++ join sep rest
  end.

(** The scan of [str.replace(old, new)] for a non-empty [old]: left to
    right, a match is replaced and the scan resumes after it ([skip] counts
    the characters of the current match that are still to be passed). *)
Fixpoint replace_from (skip : nat) (old new s : str) : str :=
  match s with
  | [] => []
  | c :: s' =>
      match skip with
      | S k => replace_from k old new s'
      | O =>
          if startswith s old
          then new ++ replace_from (length old - 1) old new s'
          else c :: replace_from 0 old new s'
      end
  end.

(** [s.replace(old, new)]; with an empty [old], Python inserts [new] before
    every character and at the end. *)
Definition replace (s old new : str) : str :=
  match old with
  | [] => new ++ concat (map (fun c => c :: new) s)
  | _ :: _ => replace_from 0 old new s
  end.

(** [s.lstrip(chars)] for a single character. *)
Fixpoint lstrip_chr (c : ascii) (s : str) : str :=
  match s with
  | [] => []
  | x :: s' => if Ascii.eqb x c then lstrip_chr c s' else s
  end.

(** [str.isspace] on one ASCII character: TAB, LF, VT, FF, CR, the four
    separators 0x1c..0x1f and the space. *)
Definition isspace (c : ascii) : bool :=
  let n := nat_of_ascii c in
  ((9 <=? n) && (n <=? 13)) || ((28 <=? n) && (n <=? 32)).

Fixpoint lstrip (s : str) : str :=
  match s with
  | [] => []
  | x :: s' => if isspace x then lstrip s' else s
  end.

(** [s.strip()] *)
Definition strip (s : str) : str := rev (lstrip (rev (lstrip s))).

(** [s.split(sep)] for a one-character separator. *)
Fixpoint split (sep : ascii) (s : str) : list str :=
  match s with
  | [] => [[]]
  | c :: s' =>
      if Ascii.eqb c sep then [] :: split sep s'
      else match split sep s' with
           | [] => [[c]]
           | w :: ws => (c :: w) :: ws
           end
  end.

(** [s.rfind(c)], as an option instead of -1. *)
Fixpoint rfind (c : ascii) (s : str) : option nat :=
  match s with
  | [] => None
  | x :: s' =>
      match rfind c s' with
      | Some i => Some (S i)
      | None => if Ascii.eqb x c then Some 0 else None
      end
  end.

(** [\w] of the [re] module, on ASCII: letters, digits and the underscore. *)
Definition is_word (c : ascii) : bool :=
  let n := nat_of_ascii c in
  ((48 <=? n) && (n <=? 57)) || ((65 <=? n) && (n <=? 90))
  || ((97 <=? n) && (n <=? 122)) || (n =? 95).

(** The longest run of word characters at the head of [s], and what follows. *)
Fixpoint span_word (s : str) : str * str :=
  match s with
  | [] => ([], [])
  | c :: s' =>
      if is_word c then let '(w, r) := span_word s' in (c :: w, r)
      else ([], s)
  end.

(** A match of the regular expression [\{(\w+)\}] anchored at the head of
    [s]: the captured group. [\w+] is greedy and cannot give back a
    character, because what it gives back is never a closing brace. *)
Definition match_placeholder (s : str) : option str :=
  match s with
  | c :: s' =>
      if Ascii.eqb c chr_lbrace then
        match span_word s' with
        | ((_ :: _) as w, r :: _) => if Ascii.eqb r chr_rbrace then Some w else None
        | _ => None
        end
      else None
  | [] => None
  end.

(** [re.findall(r"\{(\w+)\}", s)]: the groups of the non-overlapping
    matches, leftmost first; after a match the scan resumes behind it. *)
Fixpoint findall_from (skip : nat) (s : str) : list str :=
  match s with
  | [] => []
  | _ :: s' =>
      match skip with
      | S k => findall_from k s'
      | O =>
          match match_placeholder s with
          | Some w => w :: findall_from (S (length w)) s'
          | None => findall_from 0 s'
          end
      end
  end.

Definition findall_placeholders (s : str) : list str := findall_from 0 s.

(** ** Exceptions and results *)

(** The exception classes the modelled code raises or catches. [OSError]
    stands for itself and its subclasses ([FileNotFoundError],
    [IsADirectoryError], ...); [JSONDecodeError] is a subclass of
    [ValueError]; [ExternalError] is an [Exception] raised by a collaborator
    (a processor, the image encoder, the completion call). *)
Inductive exn : Type :=
  | ValueError (msg : str)
  | JSONDecodeError
  | KeyError (key : str)
  | TypeError (msg : str)
  | AttributeError (msg : str)
  | OSError (msg : str)
  | ExternalError (msg : str).

(** [isinstance(e, ValueError)] *)
Definition is_ValueError (e : exn) : bool :=
  match e with ValueError _ | JSONDecodeError => true | _ => false end.

Definition is_OSError (e : exn) : bool :=
  match e with OSError _ => true | _ => false end.

Definition is_JSONDecodeError (e : exn) : bool :=
  match e with JSONDecodeError => true | _ => false end.

Definition is_KeyError (e : exn) : bool :=
  match e with KeyError _ => true | _ => false end.

(** [str(e)] *)
Definition exn_str (e : exn) : str :=
  match e with
  | ValueError m | TypeError m | AttributeError m | OSError m
  | ExternalError m => m
  | JSONDecodeError => py "Expecting value"
  | KeyError k => py "'" ++ k ++ py "'"
  end.

Inductive result (A : Type) : Type :=
  | Ok (a : A)
  | Raise (e : exn).
Arguments Ok {A} a.
Arguments Raise {A} e.

(** ** Paths ([pathlib.PurePosixPath]) *)

(** A parsed path: the root ([""], ["/"] or ["//"]) and the components
    after it. *)
Record Path : Type := mkPath { root : str; parts : list str }.

Global Instance Path_eq_dec : EqDecision Path.
Proof. solve_decision. Defined.

(** Number of leading separators. *)
Fixpoint leading_slashes (s : str) : nat :=
  match s with
  | c :: s' => if Ascii.eqb c chr_slash then S (leading_slashes s') else 0
  | [] => 0
  end.

Definition is_component (p : str) : bool :=
  negb (bool_decide (p = [])) && negb (bool_decide (p = [chr_dot])).

(** [Path(s)]: exactly two leading slashes are kept as the root ["//"], any
    other positive number is the root ["/"]; empty components and ["."] are
    dropped. *)
Definition parse_path (s : str) : Path :=
  let n := leading_slashes s in
  let r := match n with
           | 0 => []
           | 2 => [chr_slash; chr_slash]
           | _ => [chr_slash]
           end in
  mkPath r (List.filter is_component (split chr_slash (drop n s))).

(** [str(p)] *)
Definition path_str (p : Path) : str :=
  match root p, parts p with
  | [], [] => [chr_dot]
  | r, ps => r ++ join [chr_slash] ps
  end.

(** [p.name] *)
Definition path_name (p : Path) : str := List.last (parts p) [].

(** [p.suffix]: the part of the name from its last dot, unless that dot is
    the first or the last character of the name. *)
Definition path_suffix (p : Path) : str :=
  let name := path_name p in
  match rfind chr_dot name with
  | Some i => if (0 <? i) && (i <? length name - 1) then drop i name else []
  | None => []
  end.

(** [p.stem] *)
Definition path_stem (p : Path) : str :=
  let name := path_name p in
  match rfind chr_dot name with
  | Some i => if (0 <? i) && (i <? length name - 1) then take i name else name
  | None => name
  end.

(** [p.parent] *)
Definition path_parent (p : Path) : Path :=
  match parts p with
  | [] => p
  | _ :: _ => mkPath (root p) (removelast (parts p))
  end.

(** [p.is_absolute()] *)
Definition is_absolute (p : Path) : bool := negb (bool_decide (root p = [])).

(** [a / b] for a path [b] *)
Definition joinpath (a b : Path) : Path :=
  if is_absolute b then b else mkPath (root a) (parts a ++ parts b).

(** [a / s] for a string [s] *)
Definition joinpath_str (a : Path) (s : str) : Path := joinpath a (parse_path s).

(** [p.relative_to(base)]; [None] is the [ValueError] of a path that is not
    below [base]. *)
Definition relative_to (p base : Path) : option Path :=
  if bool_decide (root p = root base)
     && bool_decide (take (length (parts base)) (parts p) = parts base)
  then Some (mkPath [] (drop (length (parts base)) (parts p)))
  else None.

(** ** Dates ([datetime.datetime]) *)

Record datetime : Type := mkDatetime {
  year : nat; month : nat; day : nat;
  hour : nat; minute : nat; second : nat; microsecond : nat;
  tz_aware : bool
}.

(** Decimal digits of a number. *)
Definition digits (n : nat) : str :=
  list_ascii_of_string (NilEmpty.string_of_uint (Nat.to_uint n)).

(** [s.zfill(width)] *)
Definition zfill (width : nat) (s : str) : str :=
  repeat "0"%char (width - length s) ++ s.

Definition chr_dash : ascii := "-"%char.
Definition chr_underscore : ascii := "_"%char.

(** [now.strftime("%Y-%m-%d")] *)
Definition strftime_date (d : datetime) : str :=
  zfill 4 (digits (year d)) ++ [chr_dash] ++ zfill 2 (digits (month d))
  ++ [chr_dash] ++ zfill 2 (digits (day d)).

(** [now.strftime("%H-%M-%S")] *)
Definition strftime_time (d : datetime) : str :=
  zfill 2 (digits (hour d)) ++ [chr_dash] ++ zfill 2 (digits (minute d))
  ++ [chr_dash] ++ zfill 2 (digits (second d)).

(** [now.strftime("%Y-%m-%d_%H-%M-%S")] *)
Definition strftime_timestamp (d : datetime) : str :=
  strftime_date d ++ [chr_underscore] ++ strftime_time d.

Definition is_leap (y : Z) : bool :=
  ((y mod 4 =? 0) && negb (y mod 100 =? 0) || (y mod 400 =? 0))%Z.

(** Days before January 1st of year [y] (proleptic Gregorian calendar). *)
Definition days_before_year (y : Z) : Z :=
  let y1 := (y - 1)%Z in (y1 * 365 + y1 / 4 - y1 / 100 + y1 / 400)%Z.

Definition days_before_month (y : Z) (m : nat) : Z :=
  (nth m [0; 0; 31; 59; 90; 120; 151; 181; 212; 243; 273; 304; 334] 0
   + (if (2 <? m)%nat && is_leap y then 1 else 0))%Z.

(** [d.toordinal()] *)
Definition toordinal (d : datetime) : Z :=
  (days_before_year (Z.of_nat (year d))
   + days_before_month (Z.of_nat (year d)) (month d) + Z.of_nat (day d))%Z.

(** Microseconds since the start of day 0. *)
Definition to_microseconds (d : datetime) : Z :=
  ((((toordinal d * 24 + Z.of_nat (hour d)) * 60 + Z.of_nat (minute d)) * 60
    + Z.of_nat (second d)) * 1000000 + Z.of_nat (microsecond d))%Z.

(** [(a - b).days]: a [timedelta] is normalised with its seconds and
    microseconds non-negative, so [days] is the floor. Subtracting a naive
    and an aware datetime raises [TypeError]. *)
Definition sub_days (a b : datetime) : result Z :=
  if Bool.eqb (tz_aware a) (tz_aware b)
  then Ok ((to_microseconds a - to_microseconds b) / 86400000000)%Z
  else Raise (TypeError (py "can't subtract offset-naive and offset-aware datetimes")).

(** ** JSON values, as [json.load] returns them *)

(** Numbers are rationals: every finite [float] and every [int] is one, and
    the order is the same. A [dict] is the list of its items, keys pairwise
    distinct. *)
Inductive json : Type :=
  | JNull
  | JBool (b : bool)
  | JNum (q : Q)
  | JStr (s : str)
  | JArr (items : list json)
  | JObj (items : list (str * json)).

(** [bool(v)] *)
Definition truthy (v : json) : bool :=
  match v with
  | JNull => false
  | JBool b => b
  | JNum q => negb (Qeq_bool q 0%Q)
  | JStr s => negb (bool_decide (s = []))
  | JArr l => match l with [] => false | _ => true end
  | JObj l => match l with [] => false | _ => true end
  end.

(** The value of [key] in the items of a dict. *)
Fixpoint dict_find (items : list (str * json)) (key : str) : option json :=
  match items with
  | [] => None
  | (k, v) :: rest => if bool_decide (k = key) then Some v else dict_find rest key
  end.

(** [d.get(key, default)] *)
Definition dict_get (items : list (str * json)) (key : str) (default_ : json) : json :=
  match dict_find items key with
  | Some v => v
  | None => default_
  end.

(** [v.get(key, default)]: only a dict has the method. *)
Definition json_get (v : json) (key : str) (default : json) : result json :=
  match v with
  | JObj items => Ok (dict_get items key default)
  | _ => Raise (AttributeError (py "object has no attribute 'get'"))
  end.

(** The number a value is compared as by [<] and [>]: [bool] is a subclass
    of [int]; any other type against a float raises [TypeError]. *)
Definition json_number (v : json) : result Q :=
  match v with
  | JNum q => Ok q
  | JBool b => Ok (if b then 1%Q else 0%Q)
  | _ => Raise (TypeError (py "'>' not supported between instances"))
  end.

(** ** The world *)

(** A file system entry, with its [st_mtime]. File contents are text. *)
Inductive node : Type :=
  | File (content : str) (mtime : Q)
  | Dir (mtime : Q).

Definition node_mtime (n : node) : Q :=
  match n with File _ t => t | Dir t => t end.

(** A file of the metadata directory, as [open] and [json.load] find it:
    [Unreadable] raises [OSError], [NotJson] raises [JSONDecodeError]. *)
Inductive mfile : Type :=
  | Unreadable
  | NotJson
  | Json (v : json).

(** [Union[str, Path]] *)
Inductive source : Type :=
  | SrcStr (s : str)
  | SrcPath (p : Path).

(** What the code does to the outside, in order. *)
Inductive event : Type :=
  | EPrint (msg : str)
  | EGetContent (src : source)
  | EEncode (pages : nat)
  | ECompletion (prompt : str) (images : list str)
  | EWriteText (path : str)
  | ESaveMetadata (file : str).

(** [fs] maps [str(p.absolute())] to the entry at [p]; [metadata_dir] maps
    the names of the files of the tracker's directory ([.documark_cache]) to
    what reading them gives; [now] is [datetime.now()] and [epoch] the same
    instant as a time stamp. *)
Record world : Type := mkWorld {
  cwd : Path;
  fs : gmap str node;
  metadata_dir : gmap str mfile;
  now : datetime;
  epoch : Q;
  trace : list event
}.

Definition set_fs (f : gmap str node → gmap str node) (w : world) : world :=
  mkWorld (cwd w) (f (fs w)) (metadata_dir w) (now w) (epoch w) (trace w).

Definition set_metadata_dir (f : gmap str mfile → gmap str mfile) (w : world) : world :=
  mkWorld (cwd w) (fs w) (f (metadata_dir w)) (now w) (epoch w) (trace w).

Definition log (e : event) (w : world) : world :=
  mkWorld (cwd w) (fs w) (metadata_dir w) (now w) (epoch w) (trace w ++ [e]).

(** [p.absolute()] *)
Definition absolute (w : world) (p : Path) : Path :=
  if is_absolute p then p else joinpath (cwd w) p.

(** The entry at [p]; the root directory always exists. *)
Definition lookup_path (w : world) (p : Path) : option node :=
  match parts (absolute w p) with
  | [] => Some (Dir 0%Q)
  | _ :: _ => fs w !! path_str (absolute w p)
  end.

(** [p.exists()] *)
Definition path_exists (w : world) (p : Path) : bool :=
  match lookup_path w p with Some _ => true | None => false end.

(** [p.is_dir()] *)
Definition is_dir (w : world) (p : Path) : bool :=
  match lookup_path w p with Some (Dir _) => true | _ => false end.

(** [p.is_file()] *)
Definition is_file (w : world) (p : Path) : bool :=
  match lookup_path w p with Some (File _ _) => true | _ => false end.

(** [p.stat().st_mtime] *)
Definition stat_mtime (w : world) (p : Path) : result Q :=
  match lookup_path w p with
  | Some n => Ok (node_mtime n)
  | None => Raise (OSError (py "No such file or directory"))
  end.

(** [p.read_text(encoding="utf-8")] *)
Definition read_text (w : world) (p : Path) : result str :=
  match lookup_path w p with
  | Some (File c _) => Ok c
  | Some (Dir _) => Raise (OSError (py "Is a directory"))
  | None => Raise (OSError (py "No such file or directory"))
  end.

(** ** The monad: state and exceptions *)

Definition M (A : Type) : Type := world → result A * world.

Definition ret {A} (a : A) : M A := fun w => (Ok a, w).

Definition raise {A} (e : exn) : M A := fun w => (Raise e, w).

Definition bind {A B} (m : M A) (k : A → M B) : M B :=
  fun w =>
    match m w with
    | (Ok a, w') => k a w'
    | (Raise e, w') => (Raise e, w')
    end.

Notation "x <- m ;; k" := (bind m (fun x => k))
  (at level 100, m at next level, k at level 200, right associativity).
Notation "m ;; k" := (bind m (fun _ => k))
  (at level 100, k at level 200, right associativity).

(** A result that does not depend on the world. *)
Definition lift {A} (r : result A) : M A := fun w => (r, w).

(** A pure, possibly failing, reading of the world. *)
Definition ask {A} (f : world → result A) : M A := fun w => (f w, w).

Definition read {A} (f : world → A) : M A := fun w => (Ok (f w), w).

Definition update (f : world → world) : M unit := fun w => (Ok tt, f w).

Definition emit (e : event) : M unit := update (log e).

(** [console.print(msg)] *)
Definition console_print (msg : str) : M unit := emit (EPrint msg).

(** [try: m except <classes>: h]: the handler runs in the world the
    exception left. *)
Definition try_except {A} (m : M A) (classes : exn → bool) (h : exn → M A) : M A :=
  fun w =>
    match m w with
    | (Raise e, w') => if classes e then h e w' else (Raise e, w')
    | r => r
    end.

(** [for x in xs: body(x)] *)
Fixpoint for_each {A} (xs : list A) (body : A → M unit) : M unit :=
  match xs with
  | [] => ret tt
  | x :: rest => body x ;; for_each rest body
  end.

(** The ancestors of a path and the path itself, shortest first, the root
    left out: what [mkdir(parents=True)] may have to create. *)
Definition ancestors_and_self (p : Path) : list Path :=
  map (fun n => mkPath (root p) (take n (parts p))) (seq 1 (length (parts p))).

(** [os.mkdir] with [exist_ok]: an existing directory is kept, an existing
    file is an [OSError], anything else is created. *)
Definition mkdir_one (p : Path) : M unit :=
  fun w =>
    match lookup_path w p with
    | Some (Dir _) => (Ok tt, w)
    | Some (File _ _) => (Raise (OSError (py "File exists")), w)
    | None =>
        (Ok tt, set_fs (insert (path_str (absolute w p)) (Dir (epoch w))) w)
    end.

(** [p.mkdir(parents=True, exist_ok=True)] *)
Definition mkdir_parents (p : Path) : M unit :=
  fun w => for_each (ancestors_and_self (absolute w p)) mkdir_one w.

(** [p.write_text(content, encoding="utf-8")]: the parent must be a
    directory and [p] must not be one. *)
Definition write_text (p : Path) (content : str) : M unit :=
  fun w =>
    if negb (is_dir w (path_parent (absolute w p)))
    then (Raise (OSError (py "No such file or directory")), w)
    else match lookup_path w p with
         | Some (Dir _) => (Raise (OSError (py "Is a directory")), w)
         | _ =>
             (Ok tt,
              log (EWriteText (path_str (absolute w p)))
                (set_fs (insert (path_str (absolute w p))
                           (File content (epoch w))) w))
         end.

(** ** Library functions taken as given

    Hashes, the JSON parser, the ISO date format and shell-style matching
    are functions of the Python library; the model is parametric in them.
    [json_loads] and [fromisoformat] return [None] where the library raises
    [JSONDecodeError], respectively [ValueError]. [progress_elapsed_time] is
    what reading [progress.elapsed_time] on the progress display of the
    batch gives, formatted with one decimal: a text, or the [AttributeError]
    of a display that has no such attribute. *)
Class PyLib : Type := {
  md5_hexdigest : str → str;
  sha256_hexdigest : str → str;
  json_loads : str → option json;
  isoformat : datetime → str;
  fromisoformat : str → option datetime;
  fnmatch : str → str → bool;
  progress_elapsed_time : result str
}.

(** [sorted(l)] on strings: insertion into the code point order. *)
Fixpoint str_leb (a b : str) : bool :=
  match a, b with
  | [], _ => true
  | _ :: _, [] => false
  | x :: a', y :: b' =>
      (nat_of_ascii x <? nat_of_ascii y)
      || ((nat_of_ascii x =? nat_of_ascii y) && str_leb a' b')
  end.

Fixpoint insert_sorted (x : str) (l : list str) : list str :=
  match l with
  | [] => [x]
  | y :: l' => if str_leb x y then x :: l else y :: insert_sorted x l'
  end.

Definition sorted (l : list str) : list str := foldr insert_sorted [] l.

(** ** [documark/core/patterns.py] *)

Module OutputPattern.

(** An [OutputPattern] object. *)
Record t : Type := mk { pattern : str }.

(** The class attribute [VARIABLES], in the order of the dict. *)
Definition VARIABLES : list (str * str) :=
  [ (py "filename", py "Original filename without extension");
    (py "name", py "Alias for filename");
    (py "ext", py "Original file extension");
    (py "extension", py "Alias for ext");
    (py "dir", py "Parent directory name");
    (py "dirname", py "Alias for dir");
    (py "path", py "Full directory path from cwd");
    (py "date", py "Current date (YYYY-MM-DD)");
    (py "time", py "Current time (HH-MM-SS)");
    (py "timestamp", py "Current timestamp (YYYY-MM-DD_HH-MM-SS)") ].

(** [set(self.VARIABLES.keys())] *)
Definition valid_vars : list str := map fst VARIABLES.

Definition _validate_pattern (self : t) : result unit :=
  let variables := findall_placeholders (pattern self) in
  let invalid_vars := filter (fun v => v ∉ valid_vars) variables in
  match invalid_vars with
  | [] => Ok tt
  | _ :: _ =>
      Raise (ValueError
               (py "Invalid variables in pattern: "
                ++ join (py ", ") invalid_vars ++ py ". "
                ++ py "Valid variables: "
                ++ join (py ", ") (sorted valid_vars)))
  end.

(** [OutputPattern(pattern)] *)
Definition __init__ (pattern : str) : result t :=
  let self := mk pattern in
  match _validate_pattern self with
  | Ok _ => Ok self
  | Raise e => Raise e
  end.

(** The dict [values] of [apply], in its order. *)
Definition values (w : world) (source_path : Path) (base_dir : Path)
  : list (str * str) :=
  let rel_path :=
    match relative_to source_path base_dir with
    | Some r => r
    | None => source_path
    end in
  [ (py "filename", path_stem source_path);
    (py "name", path_stem source_path);
    (py "ext", lstrip_chr chr_dot (path_suffix source_path));
    (py "extension", lstrip_chr chr_dot (path_suffix source_path));
    (py "dir", path_name (path_parent source_path));
    (py "dirname", path_name (path_parent source_path));
    (py "path", path_str (path_parent rel_path));
    (py "date", strftime_date (now w));
    (py "time", strftime_time (now w));
    (py "timestamp", strftime_timestamp (now w)) ].

(** The loop [for key, value in values.items(): output_path =
    output_path.replace("{key}", value)]. *)
Definition substitute (vals : list (str * str)) (template : str) : str :=
  fold_left
    (fun output_path '(key, value) =>
       replace output_path ([chr_lbrace] ++ key ++ [chr_rbrace]) value)
    vals template.

Definition apply (self : t) (w : world) (source_path : Path)
    (base_dir : option Path) : Path :=
  let base_dir := match base_dir with Some b => b | None => cwd w end in
  let output_path := substitute (values w source_path base_dir) (pattern self) in
  let result := parse_path output_path in
  if negb (is_absolute result) then
    if contains (pattern self) (py "{path}")
    then joinpath base_dir result
    else joinpath (path_parent source_path) result
  else result.

End OutputPattern.

Definition parse_output_location (w : world) (source_path : Path)
    (output : option Path) (pattern : option str) (is_batch : bool)
  : result Path :=
  let explicit_file :=
    match output with
    | Some o =>
        if negb is_batch && negb (bool_decide (path_suffix o = []))
        then Some o else None
    | None => None
    end in
  match explicit_file with
  | Some o => Ok o
  | None =>
      match pattern with
      | Some ((_ :: _) as pat) =>
          match OutputPattern.__init__ pat with
          | Raise e => Raise e
          | Ok pattern_obj =>
              let result := OutputPattern.apply pattern_obj w source_path None in
              match output with
              | Some o =>
                  if is_dir w o then Ok (joinpath_str o (path_name result))
                  else Ok result
              | None => Ok result
              end
          end
      | _ =>
          match output with
          | Some o =>
              if is_dir w o || is_batch
              then Ok (joinpath_str o (path_stem source_path ++ py ".md"))
              else Ok o
          | None =>
              Ok (joinpath_str (path_parent source_path)
                    (path_stem source_path ++ py ".md"))
          end
      end
  end.

(** ** [documark/core/metadata.py] *)

Module ConversionMetadata.
Section with_lib.
Context `{lib : PyLib}.

(** The name, inside the metadata directory, of the file that
    [_get_metadata_path] returns. *)
Definition _get_metadata_path (w : world) (source_path : Path) : str :=
  md5_hexdigest (path_str (absolute w source_path)) ++ py ".json".

(** [open(file_path, "rb")] and the SHA-256 of what is read. *)
Definition _get_file_hash (w : world) (file_path : Path) : result str :=
  match read_text w file_path with
  | Ok c => Ok (sha256_hexdigest c)
  | Raise e => Raise e
  end.

(** A missing file gives [None]; so do the [OSError] of [open] and the
    [JSONDecodeError] of [json.load], which are caught. *)
Definition get_metadata (w : world) (source_path : Path) : option json :=
  match metadata_dir w !! _get_metadata_path w source_path with
  | None => None
  | Some Unreadable => None
  | Some NotJson => None
  | Some (Json data) => Some data
  end.

(** The dict is built first, so the [stat] of the source and the reading of
    the file for its hash come before the write. The write of the record
    ([open(metadata_path, "w")] and [json.dump]) is taken to succeed: the
    metadata directory is writable. *)
Definition save_metadata (source_path output_path : Path)
    (source_hash : option str) : M json :=
  src <- read (fun w => path_str (absolute w source_path)) ;;
  out <- read (fun w => path_str (absolute w output_path)) ;;
  mtime <- ask (fun w => stat_mtime w source_path) ;;
  hash <- match source_hash with
          | Some ((_ :: _) as h) => ret h
          | _ => ask (fun w => _get_file_hash w source_path)
          end ;;
  converted_at <- read (fun w => isoformat (now w)) ;;
  let metadata :=
    JObj [ (py "source", JStr src);
           (py "output", JStr out);
           (py "source_mtime", JNum mtime);
           (py "source_hash", JStr hash);
           (py "converted_at", JStr converted_at);
           (py "documark_version", JStr (py "0.1.0")) ] in
  metadata_path <- read (fun w => _get_metadata_path w source_path) ;;
  update (set_metadata_dir (insert metadata_path (Json metadata))) ;;
  emit (ESaveMetadata metadata_path) ;;
  ret metadata.

Definition needs_conversion (w : world) (source_path output_path : Path)
  : result bool :=
  if negb (path_exists w output_path) then Ok true
  else
    match get_metadata w source_path with
    | None => Ok true
    | Some metadata =>
        if negb (truthy metadata) then Ok true
        else
          match stat_mtime w source_path with
          | Raise e => Raise e
          | Ok current_mtime =>
              match json_get metadata (py "source_mtime") (JNum 0%Q) with
              | Raise e => Raise e
              | Ok stored =>
                  match json_number stored with
                  | Raise e => Raise e
                  | Ok stored_mtime =>
                      (* current_mtime > stored_mtime *)
                      Ok (negb (Qle_bool current_mtime stored_mtime))
                  end
              end
          end
    end.

(** [metadata_dir.glob("*.json")]: the names, in directory order. *)
Definition glob_json (w : world) : list str :=
  List.filter (fun name => endswith name (py ".json"))
    (map fst (map_to_list (metadata_dir w))).

(** [open(metadata_file)] and [json.load(f)] *)
Definition load (name : str) : M json :=
  fun w =>
    match metadata_dir w !! name with
    | Some (Json v) => (Ok v, w)
    | Some NotJson => (Raise JSONDecodeError, w)
    | Some Unreadable => (Raise (OSError (py "Permission denied")), w)
    | None => (Raise (OSError (py "No such file or directory")), w)
    end.

(** [metadata_file.unlink()] *)
Definition unlink (name : str) : M unit :=
  fun w =>
    match metadata_dir w !! name with
    | Some _ => (Ok tt, set_metadata_dir (delete name) w)
    | None => (Raise (OSError (py "No such file or directory")), w)
    end.

(** [Path(v)] and [datetime.fromisoformat(v)] take a string. *)
Definition expect_str (v : json) : result str :=
  match v with
  | JStr s => Ok s
  | _ => Raise (TypeError (py "argument must be str"))
  end.

(** [if older_than_days:] *)
Definition threshold (older_than_days : option Z) : option Z :=
  match older_than_days with
  | Some d => if (d =? 0)%Z then None else Some d
  | None => None
  end.

(** The body of the [try] for one file; it returns the new [count]. *)
Definition clean_one (older_than_days : option Z) (now_ : datetime)
    (metadata_file : str) (count : nat) : M nat :=
  metadata <- load metadata_file ;;
  src <- lift (json_get metadata (py "source") (JStr [])) ;;
  src <- lift (expect_str src) ;;
  let source_path := parse_path src in
  source_exists <- read (fun w => path_exists w source_path) ;;
  if negb source_exists then
    unlink metadata_file ;; ret (S count)
  else
    match threshold older_than_days with
    | Some d =>
        ca <- lift (json_get metadata (py "converted_at") (JStr [])) ;;
        ca <- lift (expect_str ca) ;;
        converted_at <- lift (match fromisoformat ca with
                              | Some t => Ok t
                              | None => Raise (ValueError (py "Invalid isoformat string"))
                              end) ;;
        age_days <- lift (sub_days now_ converted_at) ;;
        if (d <? age_days)%Z then unlink metadata_file ;; ret (S count)
        else ret count
    | None => ret count
    end.

(** One round of the loop, with its [except (OSError,
    json.JSONDecodeError, ValueError)]. *)
Definition clean_step (older_than_days : option Z) (now_ : datetime)
    (metadata_file : str) (count : nat) : M nat :=
  try_except (clean_one older_than_days now_ metadata_file count)
    (fun e => is_OSError e || is_JSONDecodeError e || is_ValueError e)
    (fun _ => unlink metadata_file ;; ret (S count)).

Fixpoint clean_loop (older_than_days : option Z) (now_ : datetime)
    (files : list str) (count : nat) : M nat :=
  match files with
  | [] => ret count
  | f :: rest =>
      count' <- clean_step older_than_days now_ f count ;;
      clean_loop older_than_days now_ rest count'
  end.

Definition clean_metadata (older_than_days : option Z) : M nat :=
  now_ <- read now ;;
  files <- read glob_json ;;
  clean_loop older_than_days now_ files 0.

End with_lib.
End ConversionMetadata.

(** ** [documark/core/converter.py] *)

(** What [get_content] returns: text, or the page images (a page image is
    kept as an opaque string). *)
Inductive content : Type :=
  | Text (s : str)
  | Images (pages : list str).

(** A processor, by its interface ([BaseProcessor]); [supported_extensions]
    is [None] for a processor without the attribute. *)
Record Processor : Type := mkProcessor {
  can_process : source → bool;
  get_content : world → source → result content;
  supported_extensions : option (list str)
}.

Module DocumentConverter.

(** A converter: its attributes, and the two collaborators it calls,
    [batch_images_to_base64] and [litellm.completion] (which returns
    [response.choices[0].message.content], possibly [None], or raises). *)
Record t : Type := mk {
  model : str;
  dpi : Z;
  cache_metadata : bool;
  processors : list Processor;
  batch_images_to_base64 : list str → result (list str);
  completion : str → str → str → list str → result (option str)
}.

Section with_lib.
Context `{lib : PyLib}.

Definition is_url (s : str) : bool :=
  startswith s (py "http://") || startswith s (py "https://").

Definition system_prompt : str :=
  py "You are an expert at converting documents to clean, well-formatted Markdown. "
  ++ py "Extract all text content, preserve structure, formatting, and semantic meaning. "
  ++ py "For tables, use proper Markdown table syntax. "
  ++ py "For images/figures, describe them briefly in italics. "
  ++ py "Maintain heading hierarchy and list structures. "
  ++ py "Return the result in the specified JSON format.".

(** [str(source)] *)
Definition source_str (s : source) : str :=
  match s with SrcStr x => x | SrcPath p => path_str p end.

(** [sorted(set(l))] *)
Definition sorted_set (l : list str) : list str := sorted (remove_dups l).

Definition _get_processor (self : t) (src : source) : result Processor :=
  match List.find (fun p => can_process p src) (processors self) with
  | Some p => Ok p
  | None =>
      let supported :=
        concat (map (fun p => default [] (supported_extensions p))
                  (processors self)) in
      Raise (ValueError
               (py "No processor found for: " ++ source_str src ++ py ". "
                ++ py "Supported types: "
                ++ join (py ", ") (sorted_set supported)))
  end.

Definition needs_conversion (self : t) (w : world)
    (source_path output_path : Path) (force : bool) : result bool :=
  if force then Ok true
  else if negb (cache_metadata self) then Ok (negb (path_exists w output_path))
  else ConversionMetadata.needs_conversion w source_path output_path.

(** [result["markdown_content"]]: a dict gives the value or [KeyError];
    no other JSON value can be indexed by a string. *)
Definition subscript (v : json) (key : str) : result json :=
  match v with
  | JObj items =>
      match dict_find items key with
      | Some x => Ok x
      | None => Raise (KeyError key)
      end
  | JArr _ => Raise (TypeError (py "list indices must be integers or slices, not str"))
  | JStr _ => Raise (TypeError (py "string indices must be integers, not 'str'"))
  | _ => Raise (TypeError (py "object is not subscriptable"))
  end.

(** [v.strip()]: only a string has the method. *)
Definition strip_value (v : json) : result str :=
  match v with
  | JStr s => Ok (strip s)
  | _ => Raise (AttributeError (py "object has no attribute 'strip'"))
  end.

(** [json.loads(c)] for [c] the message content, which may be [None]. *)
Definition loads (c : option str) : result json :=
  match c with
  | None => Raise (TypeError (py "the JSON object must be str, bytes or bytearray, not NoneType"))
  | Some s =>
      match json_loads s with
      | Some v => Ok v
      | None => Raise JSONDecodeError
      end
  end.

(** [cast(str, content).strip()] in the fallback. *)
Definition strip_content (c : option str) : result str :=
  match c with
  | Some s => Ok (strip s)
  | None => Raise (AttributeError (py "'NoneType' object has no attribute 'strip'"))
  end.

Definition _convert_with_llm (self : t) (images : list str) (filename : str)
    (custom_prompt : option str) : M str :=
  let user_prompt :=
    match custom_prompt with
    | Some ((_ :: _) as p) => p
    | _ => py "Convert this document '" ++ filename ++ py "' to Markdown. "
           ++ py "Extract all content while preserving the structure and formatting."
    end in
  try_except
    (emit (ECompletion user_prompt images) ;;
     response <- lift (completion self (model self) system_prompt user_prompt images) ;;
     try_except
       (result <- lift (loads response) ;;
        md <- lift (subscript result (py "markdown_content")) ;;
        lift (strip_value md))
       (fun e => is_JSONDecodeError e || is_KeyError e)
       (fun e =>
          console_print (py "[yellow]Warning: Failed to parse JSON response: "
                         ++ exn_str e ++ py "[/yellow]") ;;
          lift (strip_content response)))
    (fun _ => true)
    (fun e =>
       console_print (py "[red]Error calling LLM: " ++ exn_str e ++ py "[/red]") ;;
       raise e).

(** [Path(x) if isinstance(x, str) else x] *)
Definition as_path (x : source) : Path :=
  match x with SrcStr s => parse_path s | SrcPath p => p end.

(** [bool(x)] for a string or a path: a path is always true. *)
Definition nonempty (x : source) : bool :=
  match x with
  | SrcStr s => negb (bool_decide (s = []))
  | SrcPath _ => true
  end.

Definition convert (self : t) (src : source) (output_path : option source)
    (pattern : option str) (custom_prompt : option str) (force : bool)
  : M str :=
  (* Resolve paths *)
  let src :=
    match src with
    | SrcStr s => if negb (is_url s) then SrcPath (parse_path s) else src
    | SrcPath _ => src
    end in
  (* Determine output path *)
  output_path <-
    match src with
    | SrcPath p =>
        ask (fun w => parse_output_location w p (as_path <$> output_path)
                        pattern false)
    | SrcStr _ =>
        match output_path with
        | Some o =>
            if nonempty o then ret (as_path o)
            else raise (ValueError (py "Output path required for URL sources"))
        | None => raise (ValueError (py "Output path required for URL sources"))
        end
    end ;;
  (* Check if conversion is needed *)
  up_to_date <-
    match src with
    | SrcPath p =>
        needed <- ask (fun w => needs_conversion self w p output_path force) ;;
        ret (negb needed)
    | SrcStr _ => ret false
    end ;;
  if up_to_date then
    console_print (py "[yellow]Skipping[/yellow] " ++ path_name (as_path src)
                   ++ py " (up to date)") ;;
    ask (fun w => read_text w output_path)
  else
    (* Get processor *)
    processor <- lift (_get_processor self src) ;;
    (* Get content from processor *)
    emit (EGetContent src) ;;
    content <- ask (fun w => get_content processor w src) ;;
    markdown <-
      match content with
      | Text s => ret s
      | Images pages =>
          emit (EEncode (length pages)) ;;
          image_data <- lift (batch_images_to_base64 self pages) ;;
          let filename :=
            match src with
            | SrcPath p => path_name p
            | SrcStr _ => py "document"
            end in
          _convert_with_llm self image_data filename custom_prompt
      end ;;
    (* Save output *)
    mkdir_parents (path_parent output_path) ;;
    write_text output_path markdown ;;
    (* the check mark of the message is written OK *)
    console_print (py "[green]OK[/green] Saved to " ++ path_str output_path) ;;
    (* Save metadata *)
    match src with
    | SrcPath p =>
        if cache_metadata self
        then ConversionMetadata.save_metadata p output_path None ;; ret markdown
        else ret markdown
    | SrcStr _ => ret markdown
    end.

End with_lib.
End DocumentConverter.

(** ** [documark/core/async_converter.py] *)

Module AsyncDocumentConverter.

(** The dict a job returns; the keys a status does not set are [None]. *)
Record job_result : Type := mkResult {
  status : str;
  file : str;
  output : option str;
  content_ : option str;
  error : option str
}.

(** The dict [convert_recursive_async] returns. *)
Record summary : Type := mkSummary {
  total : nat;
  successful : nat;
  failed : nat;
  skipped : nat;
  results : list job_result
}.

Record t : Type := mk {
  converter : DocumentConverter.t;
  max_workers : nat
}.

Section with_lib.
Context `{lib : PyLib}.

(** The body of the [try] of [convert_file_async]. The conversion itself
    runs in the thread pool; the job waits for it, so for the job it is a
    call. *)
Definition convert_file_try (self : t) (file_path : Path)
    (output_dir : option Path) (pattern : option str)
    (custom_prompt : option str) (force : bool) : M job_result :=
  (* Check if needs conversion first (fast operation) *)
  output_path <- ask (fun w => parse_output_location w file_path output_dir
                                 pattern true) ;;
  needed <- ask (fun w => DocumentConverter.needs_conversion (converter self)
                            w file_path output_path force) ;;
  if negb needed then
    ret (mkResult (py "skipped") (path_str file_path)
           (Some (path_str output_path)) None None)
  else
    (* Run conversion in thread pool *)
    result <- DocumentConverter.convert (converter self) (SrcPath file_path)
                None pattern custom_prompt force ;;
    ret (mkResult (py "success") (path_str file_path)
           (Some (path_str output_path)) (Some result) None).

(** The job of one file: [except Exception] turns whatever the body raises
    into a result. *)
Definition convert_file_async (self : t) (file_path : Path)
    (output_dir : option Path) (pattern : option str)
    (custom_prompt : option str) (force : bool) : M job_result :=
  try_except
    (convert_file_try self file_path output_dir pattern custom_prompt force)
    (fun _ => true)
    (fun e =>
       ret (mkResult (py "failed") (path_str file_path) None None
              (Some (exn_str e)))).

Definition default_include : list str :=
  map py [ "*.pdf"; "*.PDF"; "*.docx"; "*.DOCX"; "*.doc"; "*.DOC"; "*.png";
           "*.PNG"; "*.jpg"; "*.JPG"; "*.jpeg"; "*.JPEG"; "*.gif"; "*.GIF";
           "*.bmp"; "*.BMP"; "*.tiff"; "*.TIFF"; "*.tif"; "*.TIF"; "*.webp";
           "*.WEBP"; "*.gdoc"; "*.gsheet"; "*.gslides" ]%string.

Definition default_exclude : list str :=
  map py [ ".*"; "*/.*"; "__pycache__/*"; "*.pyc" ]%string.

(** [directory.rglob("*")]: every entry strictly below [directory], as
    [directory / relative], in the order the file system lists them. *)
Definition rglob (w : world) (directory : Path) : list Path :=
  omap (fun key =>
          match relative_to (parse_path key) (absolute w directory) with
          | Some rel =>
              match parts rel with
              | [] => None
              | _ :: _ => Some (joinpath directory rel)
              end
          | None => None
          end)
       (map fst (map_to_list (fs w))).

(** The discovery loop: the files that match an include pattern and no
    exclude pattern. *)
Fixpoint discover (w : world) (directory : Path) (include exclude : list str)
    (candidates : list Path) : result (list Path) :=
  match candidates with
  | [] => Ok []
  | file_path :: rest =>
      if negb (is_file w file_path) then discover w directory include exclude rest
      else
        match relative_to file_path directory with
        | None => Raise (ValueError (py "is not in the subpath of the directory"))
        | Some rel =>
            let rel_path := path_str rel in
            if negb (existsb (fun pat => fnmatch rel_path pat) include)
            then discover w directory include exclude rest
            else if existsb (fun pat => fnmatch rel_path pat) exclude
            then discover w directory include exclude rest
            else
              match discover w directory include exclude rest with
              | Ok l => Ok (file_path :: l)
              | Raise e => Raise e
              end
        end
  end.




End with_lib.
End AsyncDocumentConverter.

(** ** The semaphore of [convert_recursive_async]

    [asyncio.gather] creates one task per file; each task runs
    [convert_with_semaphore]: it enters [async with semaphore], calls
    [convert_file_async] (the up-to-date check, then the conversion in the
    thread pool), and leaves the [with] block when the job returns. A task
    is suspended only where it awaits: for the semaphore, and for the
    thread that runs [convert]. *)

Module Semaphore.

Inductive phase : Type :=
  | Queued     (** created by [gather], not yet inside [async with] *)
  | Checking   (** inside: resolving the output and asking the cache *)
  | Rendering  (** inside: [convert] runs in the thread pool *)
  | Finished (status : str). (** returned, and the semaphore released *)

Global Instance phase_eq_dec : EqDecision phase.
Proof. solve_decision. Defined.

(** The counter of the [asyncio.Semaphore] and the phase of every task. *)
Record state : Type := mkState { value : nat; jobs : list phase }.

(** [asyncio.Semaphore(self.max_workers)] and the tasks of [gather]. *)
Definition init (max_workers files : nat) : state :=
  mkState max_workers (replicate files Queued).

Inductive step : state → state → Prop :=
  | acquire s i :
      jobs s !! i = Some Queued →
      0 < value s →
      step s (mkState (value s - 1) (<[i := Checking]> (jobs s)))
  | up_to_date s i :
      jobs s !! i = Some Checking →
      step s (mkState (value s + 1) (<[i := Finished (py "skipped")]> (jobs s)))
  | check_raised s i :
      jobs s !! i = Some Checking →
      step s (mkState (value s + 1) (<[i := Finished (py "failed")]> (jobs s)))
  | submit s i :
      jobs s !! i = Some Checking →
      step s (mkState (value s) (<[i := Rendering]> (jobs s)))
  | converted s i :
      jobs s !! i = Some Rendering →
      step s (mkState (value s + 1) (<[i := Finished (py "success")]> (jobs s)))
  | convert_raised s i :
      jobs s !! i = Some Rendering →
      step s (mkState (value s + 1) (<[i := Finished (py "failed")]> (jobs s))).

(** The states of a run with [max_workers] workers and [files] files. *)
Definition reachable (max_workers files : nat) (s : state) : Prop :=
  rtc step (init max_workers files) s.

Definition count (p : phase) (s : state) : nat :=
  length (List.filter (fun q => bool_decide (q = p)) (jobs s)).

(** The number of jobs in their rendering and extraction phase. *)
Definition rendering (s : state) : nat := count Rendering s.

(** The number of jobs that hold a slot of the semaphore. *)
Definition holding (s : state) : nat := count Checking s + count Rendering s.

(** A job that has not done its up-to-date check can start it now. *)
Definition can_check (s : state) (i : nat) : Prop :=
  jobs s !! i = Some Queued ∧ ∃ s', step s s' ∧ jobs s' !! i = Some Checking.

(** The up-to-date checks are not held back: in every state of a run,
    every job that has not done its check can start it. *)
Definition checks_unthrottled (max_workers files : nat) : Prop :=
  ∀ s i, reachable max_workers files s → jobs s !! i = Some Queued →
         can_check s i.

(** What every state of a run satisfies. *)
Definition invariant (max_workers files : nat) (s : state) : Prop :=
  value s + holding s = max_workers ∧ length (jobs s) = files.

(** A run with two workers and ten files in which the first two jobs are
    rendering. *)
Definition two_rendering : state :=
  mkState 0 ([Rendering; Rendering] ++ replicate 8 Queued).

End Semaphore.

(** ** Templates, for stating what [apply] leaves *)

(** A placeholder [{name}] occurs in [s]: a brace, a non-empty run of word
    characters, a brace. *)
Definition word_chars (s : str) : Prop := Forall (fun c => is_word c = true) s.

Definition placeholder_in (name s : str) : Prop :=
  name ≠ [] ∧ word_chars name ∧
  ∃ before after, s = (before ++ [chr_lbrace] ++ name ++ [chr_rbrace] ++ after).

Definition brace_free (s : str) : Prop := (chr_lbrace ∉ s) ∧ (chr_rbrace ∉ s).

Definition path_brace_free (p : Path) : Prop :=
  brace_free (root p) ∧ Forall brace_free (parts p).

(** A template cut into text and placeholders. *)
Inductive segment : Type :=
  | Lit (text : str)
  | Var (name : str).

Definition render_segment (g : segment) : str :=
  match g with
  | Lit text => text
  | Var name => [chr_lbrace] ++ name ++ [chr_rbrace]
  end.

Definition render (segs : list segment) : str := concat (map render_segment segs).

(** Text without braces, or a recognized placeholder. *)
Definition recognized_segment (g : segment) : Prop :=
  match g with
  | Lit text => brace_free text
  | Var name => name ∈ OutputPattern.valid_vars
  end.

(** Every brace of the template belongs to a recognized placeholder. *)
Definition only_recognized (template : str) : Prop :=
  ∃ segs, Forall recognized_segment segs ∧ template = render segs.

(** ** Example inputs *)

Definition example_now : datetime := mkDatetime 2024 3 9 7 5 1 0 false.

(** A small file system: [/docs/report.pdf], last modified at 100, an
    output directory [/out], and the working directory [/home/user]. *)
Definition example_fs : gmap str node :=
  list_to_map
    [ (py "/docs", Dir 10%Q);
      (py "/docs/report.pdf", File (py "%PDF-1.7") 100%Q);
      (py "/out", Dir 10%Q);
      (py "/home", Dir 10%Q);
      (py "/home/user", Dir 10%Q) ].

Definition example_world : world :=
  mkWorld (parse_path (py "/home/user")) example_fs ∅ example_now 1000%Q [].

Definition report_pdf : Path := parse_path (py "/docs/report.pdf").

(** The modification time a record stores, as [needs_conversion] reads it. *)
Definition stored_mtime (metadata : json) : result Q :=
  match json_get metadata (py "source_mtime") (JNum 0%Q) with
  | Ok v => json_number v
  | Raise e => Raise e
  end.

(** Two worlds with the same files, records and clock: they differ in
    their trace only. *)
Definition same_files (w w' : world) : Prop :=
  cwd w' = cwd w ∧ fs w' = fs w ∧ metadata_dir w' = metadata_dir w
  ∧ now w' = now w ∧ epoch w' = epoch w.

(** A computation that changes nothing but the trace. *)
Definition trace_only {A} (m : M A) : Prop :=
  ∀ w r w', m w = (r, w') → same_files w w'.

(** ** An instance of the library, for the examples

    The hashes are the identity and a prefixed copy; the JSON parser knows
    three texts; dates are written [YYYY-MM-DDTHH:MM:SS]; a pattern [*x]
    matches the names that end in [x]; the progress display reports an
    elapsed time. *)

Definition chr_quote : ascii := ascii_of_nat 34.

(** The text [{"markdown_content": "# Report"}]. *)
Definition response_text : str :=
  py "{" ++ [chr_quote] ++ py "markdown_content" ++ [chr_quote] ++ py ": "
  ++ [chr_quote] ++ py "# Report" ++ [chr_quote] ++ py "}".

Definition example_json_loads (s : str) : option json :=
  if bool_decide (s = response_text)
  then Some (JObj [(py "markdown_content", JStr (py "# Report"))])
  else if bool_decide (s = py "[1]") then Some (JArr [JNum 1%Q])
  else if bool_decide (s = py "{}") then Some (JObj [])
  else None.

Definition digit_value (c : ascii) : option nat :=
  let n := nat_of_ascii c in
  if (48 <=? n) && (n <=? 57) then Some (n - 48) else None.

Fixpoint number_value (acc : nat) (s : str) : option nat :=
  match s with
  | [] => Some acc
  | c :: s' =>
      match digit_value c with
      | Some d => number_value (10 * acc + d) s'
      | None => None
      end
  end.

Definition example_fromisoformat (s : str) : option datetime :=
  if bool_decide (length s = 19)
     && bool_decide (s !! 4 = Some chr_dash) && bool_decide (s !! 7 = Some chr_dash)
     && bool_decide (s !! 10 = Some "T"%char)
     && bool_decide (s !! 13 = Some ":"%char) && bool_decide (s !! 16 = Some ":"%char)
  then
    match number_value 0 (take 4 s), number_value 0 (take 2 (drop 5 s)),
          number_value 0 (take 2 (drop 8 s)), number_value 0 (take 2 (drop 11 s)),
          number_value 0 (take 2 (drop 14 s)), number_value 0 (take 2 (drop 17 s))
    with
    | Some y, Some m, Some d, Some hh, Some mm, Some ss =>
        Some (mkDatetime y m d hh mm ss 0 false)
    | _, _, _, _, _, _ => None
    end
  else None.

Definition example_isoformat (d : datetime) : str :=
  strftime_date d ++ py "T" ++ zfill 2 (digits (hour d)) ++ py ":"
  ++ zfill 2 (digits (minute d)) ++ py ":" ++ zfill 2 (digits (second d)).

Definition example_fnmatch (name pattern : str) : bool :=
  match pattern with
  | c :: rest => if Ascii.eqb c "*"%char then endswith name rest
                 else bool_decide (name = pattern)
  | [] => bool_decide (name = [])
  end.

Definition example_lib : PyLib :=
  {| md5_hexdigest := fun s => s;
     sha256_hexdigest := fun s => py "sha256:" ++ s;
     json_loads := example_json_loads;
     isoformat := example_isoformat;
     fromisoformat := example_fromisoformat;
     fnmatch := example_fnmatch;
     progress_elapsed_time := Ok (py "0.0") |}.

(** A processor for [.pdf] files that renders one page. *)
Definition pdf_processor : Processor :=
  {| can_process := fun src =>
       match src with
       | SrcPath p => bool_decide (path_suffix p = py ".pdf")
       | SrcStr s => negb (startswith s (py "http://") || startswith s (py "https://"))
                     && bool_decide (path_suffix (parse_path s) = py ".pdf")
       end;
     get_content := fun w src =>
       match src with
       | SrcPath p => if path_exists w p then Ok (Images [py "page-1"])
                      else Raise (OSError (py "File not found"))
       | SrcStr _ => Raise (ValueError (py "Unsupported"))
       end;
     supported_extensions := Some [py ".pdf"] |}.

(** A converter whose model answers with [response_text]. *)
Definition example_converter : DocumentConverter.t :=
  {| DocumentConverter.model := py "gemini/gemini-2.5-flash";
     DocumentConverter.dpi := 300;
     DocumentConverter.cache_metadata := true;
     DocumentConverter.processors := [pdf_processor];
     DocumentConverter.batch_images_to_base64 := fun pages => Ok pages;
     DocumentConverter.completion := fun _ _ _ _ => Ok (Some response_text) |}.

Definition report_md : Path := parse_path (py "/docs/report.md").


(** A converter whose model answers with the JSON text [[1]]. *)
Definition array_converter : DocumentConverter.t :=
  {| DocumentConverter.model := py "gemini/gemini-2.5-flash";
     DocumentConverter.dpi := 300;
     DocumentConverter.cache_metadata := true;
     DocumentConverter.processors := [pdf_processor];
     DocumentConverter.batch_images_to_base64 := fun pages => Ok pages;
     DocumentConverter.completion := fun _ _ _ _ => Ok (Some (py "[1]")) |}.

(** The printed line of a skipped conversion. *)
Definition skip_message (source_path : Path) : str :=
  py "[yellow]Skipping[/yellow] " ++ path_name source_path ++ py " (up to date)".

(** The user prompt of [_convert_with_llm]. *)
Definition user_prompt (filename : str) (custom_prompt : option str) : str :=
  match custom_prompt with
  | Some ((_ :: _) as p) => p
  | _ => py "Convert this document '" ++ filename ++ py "' to Markdown. "
         ++ py "Extract all content while preserving the structure and formatting."
  end.

(** The warning of the fallback. *)
Definition warning_message (e : exn) : str :=
  py "[yellow]Warning: Failed to parse JSON response: " ++ exn_str e
  ++ py "[/yellow]".

(** The line printed before an exception of the extraction is re-raised. *)
Definition error_message (e : exn) : str :=
  py "[red]Error calling LLM: " ++ exn_str e ++ py "[/red]".




(** A converter whose model answers [[1]] for [broken.pdf] and
    [response_text] for any other file. *)
Definition moody_converter : DocumentConverter.t :=
  {| DocumentConverter.model := py "gemini/gemini-2.5-flash";
     DocumentConverter.dpi := 300;
     DocumentConverter.cache_metadata := true;
     DocumentConverter.processors := [pdf_processor];
     DocumentConverter.batch_images_to_base64 := fun pages => Ok pages;
     DocumentConverter.completion := fun _ _ prompt _ =>
       if contains prompt (py "broken.pdf") then Ok (Some (py "[1]"))
       else Ok (Some response_text) |}.

(** A directory with three documents. *)
Definition batch_fs : gmap str node :=
  list_to_map
    [ (py "/docs", Dir 10%Q);
      (py "/docs/report.pdf", File (py "%PDF-1.7") 100%Q);
      (py "/docs/broken.pdf", File (py "%PDF-1.4") 100%Q);
      (py "/docs/slides.pdf", File (py "%PDF-1.5") 100%Q);
      (py "/docs/notes.txt", File (py "plain") 100%Q) ].

Definition batch_world : world :=
  mkWorld (parse_path (py "/docs")) batch_fs ∅ example_now 1000%Q [].


(** ** What [clean_metadata] is expected to remove *)

Section cleaning.
Context `{lib : PyLib}.

(** The source a record names and the date it carries, for a record that
    is a JSON object. *)
Definition record_source (mf : mfile) : option json :=
  match mf with
  | Json (JObj items) => Some (dict_get items (py "source") (JStr []))
  | _ => None
  end.

Definition record_converted_at (mf : mfile) : option json :=
  match mf with
  | Json (JObj items) => Some (dict_get items (py "converted_at") (JStr []))
  | _ => None
  end.

(** A record as [save_metadata] writes them, possibly damaged: it cannot
    be read, or it is not JSON, or it is an object whose source and date,
    where present, are strings, the date a naive one when it parses. *)
Definition well_typed (now_ : datetime) (mf : mfile) : Prop :=
  match mf with
  | Unreadable | NotJson => True
  | Json _ =>
      (∃ src, record_source mf = Some (JStr src))
      ∧ (∃ ca, record_converted_at mf = Some (JStr ca)
               ∧ ∀ t, fromisoformat ca = Some t → tz_aware t = tz_aware now_)
  end.

(** The recorded source file no longer exists. *)
Definition source_gone (w : world) (mf : mfile) : Prop :=
  ∃ src, record_source mf = Some (JStr src)
         ∧ path_exists w (parse_path src) = false.

(** The record cannot be read or parsed; its date is looked at only when an
    age threshold is in force. *)
Definition corrupted (in_force : option Z) (mf : mfile) : Prop :=
  mf = Unreadable ∨ mf = NotJson
  ∨ (∃ d ca, in_force = Some d ∧ record_converted_at mf = Some (JStr ca)
             ∧ fromisoformat ca = None).

(** The age of the record, in whole days, exceeds the threshold. *)
Definition too_old (in_force : option Z) (now_ : datetime) (mf : mfile) : Prop :=
  ∃ d ca t age, in_force = Some d ∧ record_converted_at mf = Some (JStr ca)
                ∧ fromisoformat ca = Some t ∧ sub_days now_ t = Ok age
                ∧ (d < age)%Z.

Definition should_remove (w : world) (in_force : option Z) (now_ : datetime)
    (mf : mfile) : Prop :=
  source_gone w mf ∨ corrupted in_force mf ∨ too_old in_force now_ mf.

(** The same, decided. *)
Definition removes (w : world) (in_force : option Z) (now_ : datetime)
    (mf : mfile) : bool :=
  match mf with
  | Unreadable | NotJson => true
  | Json _ =>
      match record_source mf with
      | Some (JStr src) =>
          if negb (path_exists w (parse_path src)) then true
          else
            match in_force, record_converted_at mf with
            | Some d, Some (JStr ca) =>
                match fromisoformat ca with
                | None => true
                | Some t =>
                    match sub_days now_ t with
                    | Ok age => (d <? age)%Z
                    | Raise _ => false
                    end
                end
            | _, _ => false
            end
      | _ => false
      end
  end.

(** The records of the directory: its [*.json] files. *)
Definition is_record (name : str) : bool := endswith name (py ".json").

End cleaning.

(** A metadata directory with one record, written on 2024-03-01 for the
    existing [/docs/report.pdf], in a world whose clock says 2024-03-09. *)
Definition old_record : mfile :=
  Json (JObj [ (py "source", JStr (py "/docs/report.pdf"));
               (py "output", JStr (py "/docs/report.md"));
               (py "source_mtime", JNum 100%Q);
               (py "source_hash", JStr (py "sha256:%PDF-1.7"));
               (py "converted_at", JStr (py "2024-03-01T12:00:00"));
               (py "documark_version", JStr (py "0.1.0")) ]).

Definition stale_world : world :=
  mkWorld (parse_path (py "/home/user")) example_fs
    {[ py "/docs/report.pdf.json" := old_record ]} example_now 1000%Q [].

(** Whether the file [name] of the directory is one [clean_metadata]
    removes. *)
Definition removed `{lib : PyLib} (w : world) (in_force : option Z)
    (now_ : datetime) (name : str) : bool :=
  match metadata_dir w !! name with
  | Some mf => removes w in_force now_ mf
  | None => false
  end.

(** ** Further definitions for the properties of the cache *)

(** The record [save_metadata] writes for a source and an output, given the
    modification time and the hash it has read. *)
Definition saved_record `{lib : PyLib} (w : world) (source_path output_path : Path)
    (mtime : Q) (hash : str) : json :=
  JObj [ (py "source", JStr (path_str (absolute w source_path)));
         (py "output", JStr (path_str (absolute w output_path)));
         (py "source_mtime", JNum mtime);
         (py "source_hash", JStr hash);
         (py "converted_at", JStr (isoformat (now w)));
         (py "documark_version", JStr (py "0.1.0")) ].

(** A record that is JSON but not what the loop of [clean_metadata]
    expects: not an object, or an object whose source is not a string. *)
Definition ill_typed (mf : mfile) : Prop :=
  ∃ v, mf = Json v
       ∧ ((∀ items, v ≠ JObj items)
          ∨ (∃ items, v = JObj items
                      ∧ ∀ s, dict_get items (py "source") (JStr []) ≠ JStr s)).

(** A record for a source that is gone, beside an output that exists. *)
Definition gone_pdf : Path := parse_path (py "/docs/gone.pdf").

Definition gone_record : json :=
  JObj [ (py "source", JStr (py "/docs/gone.pdf"));
         (py "output", JStr (py "/out"));
         (py "source_mtime", JNum 100%Q);
         (py "source_hash", JStr (py "sha256:"));
         (py "converted_at", JStr (py "2024-03-01T12:00:00"));
         (py "documark_version", JStr (py "0.1.0")) ].

Definition gone_world : world :=
  mkWorld (parse_path (py "/home/user")) example_fs
    {[ py "/docs/gone.pdf.json" := Json gone_record ]} example_now 1000%Q [].

(** A metadata directory with a damaged file beside the record of
    [stale_world]. *)
Definition damaged_world : world :=
  mkWorld (parse_path (py "/home/user")) example_fs
    {[ py "/docs/report.pdf.json" := old_record;
       py "truncated.json" := NotJson ]} example_now 1000%Q [].

(** A metadata directory whose only file holds a JSON array. *)
Definition array_record_world : world :=
  mkWorld (parse_path (py "/home/user")) example_fs
    {[ py "list.json" := Json (JArr [JNum 1%Q]) ]} example_now 1000%Q [].

(** Two worlds of which the second has the files, the clock and the trace
    of the first, and no record the first has not. *)
Definition only_removes (w w' : world) : Prop :=
  cwd w' = cwd w ∧ fs w' = fs w ∧ now w' = now w ∧ epoch w' = epoch w
  ∧ trace w' = trace w ∧ metadata_dir w' ⊆ metadata_dir w.

(** A computation that does nothing to the world but remove records. *)
Definition removes_only {A} (m : M A) : Prop :=
  ∀ w r w', m w = (r, w') → only_removes w w'.



(** A converter whose model answers with plain Markdown, not JSON. *)
Definition plain_converter : DocumentConverter.t :=
  {| DocumentConverter.model := py "gemini/gemini-2.5-flash";
     DocumentConverter.dpi := 300;
     DocumentConverter.cache_metadata := true;
     DocumentConverter.processors := [pdf_processor];
     DocumentConverter.batch_images_to_base64 := fun pages => Ok pages;
     DocumentConverter.completion := fun _ _ _ _ => Ok (Some (py "  # Title ")) |}.

(** ** [documark/core/converter.py]: the batch entry points

    [batch_convert] and [convert_recursive] of [DocumentConverter]. The
    discovery loop of [convert_recursive] is, line for line, the one of
    [convert_recursive_async]. *)

Module Batch.

(** The dict [convert_recursive] returns. *)
Record summary : Type := mkSummary {
  total : nat;
  successful : nat;
  failed : nat;
  skipped : nat
}.

Section with_lib.
Context `{lib : PyLib}.

(** One round of the loop of [batch_convert]: the Markdown of the source,
    or the empty string when anything was raised. *)
Definition batch_convert_one (self : DocumentConverter.t) (src : source)
    (output_dir : option source) (pattern custom_prompt : option str)
    (force : bool) : M str :=
  (* Determine source type *)
  let src :=
    match src with
    | SrcStr s => if negb (DocumentConverter.is_url s)
                  then SrcPath (parse_path s) else src
    | SrcPath _ => src
    end in
  (* Display source name *)
  let source_name :=
    match src with SrcPath p => path_name p | SrcStr s => s end in
  console_print (py "Processing: " ++ source_name) ;;
  try_except
    (match src with
     | SrcPath _ =>
         DocumentConverter.convert self src output_dir pattern custom_prompt force
     | SrcStr _ =>
         (* For URLs, need explicit output path *)
         match output_dir with
         | Some o =>
             if DocumentConverter.nonempty o then
               DocumentConverter.convert self src
                 (Some (SrcPath (joinpath_str (DocumentConverter.as_path o)
                                   (py "converted_document.md"))))
                 None custom_prompt force
             else raise (ValueError (py "Output directory required for URL sources"))
         | None => raise (ValueError (py "Output directory required for URL sources"))
         end
     end)
    (fun _ => true)
    (fun e => console_print (py "Failed: " ++ exn_str e) ;; ret []).

Fixpoint batch_convert (self : DocumentConverter.t) (sources : list source)
    (output_dir : option source) (pattern custom_prompt : option str)
    (force : bool) : M (list str) :=
  match sources with
  | [] => ret []
  | src :: rest =>
      markdown <- batch_convert_one self src output_dir pattern custom_prompt force ;;
      results <- batch_convert self rest output_dir pattern custom_prompt force ;;
      ret (markdown :: results)
  end.

(** The default [include] of [convert_recursive]: [*ext] for every
    extension of every processor that has the attribute. *)
Definition include_of_processors (self : DocumentConverter.t) : list str :=
  concat (map (fun p => map (fun ext => py "*" ++ ext)
                          (default [] (supported_extensions p)))
            (DocumentConverter.processors self)).

(** The three counters of the loop. *)
Record counters : Type := mkCounters {
  n_successful : nat;
  n_failed : nat;
  n_skipped : nat
}.

(** The body of the [try] for one file: the counters after it. *)
Definition convert_recursive_try (self : DocumentConverter.t) (file_path : Path)
    (output_dir : option Path) (pattern custom_prompt : option str)
    (force : bool) (c : counters) : M counters :=
  (* Check if needs conversion *)
  output_path <- ask (fun w => parse_output_location w file_path output_dir
                                 pattern true) ;;
  needed <- ask (fun w => DocumentConverter.needs_conversion self w file_path
                            output_path force) ;;
  if negb needed then
    ret (mkCounters (n_successful c) (n_failed c) (S (n_skipped c)))
  else
    DocumentConverter.convert self (SrcPath file_path) None pattern
      custom_prompt force ;;
    ret (mkCounters (S (n_successful c)) (n_failed c) (n_skipped c)).

Fixpoint convert_recursive_loop (self : DocumentConverter.t) (files : list Path)
    (output_dir : option Path) (pattern custom_prompt : option str)
    (force : bool) (c : counters) : M counters :=
  match files with
  | [] => ret c
  | file_path :: rest =>
      c' <- try_except
              (convert_recursive_try self file_path output_dir pattern
                 custom_prompt force c)
              (fun _ => true)
              (fun e =>
                 console_print (py "Failed: " ++ path_name file_path
                                ++ py " - " ++ exn_str e) ;;
                 ret (mkCounters (n_successful c) (S (n_failed c)) (n_skipped c))) ;;
      convert_recursive_loop self rest output_dir pattern custom_prompt force c'
  end.

Definition convert_recursive (self : DocumentConverter.t) (directory : Path)
    (output_dir : option Path) (pattern : option str)
    (include exclude : option (list str)) (custom_prompt : option str)
    (force : bool) : M summary :=
  is_directory <- read (fun w => is_dir w directory) ;;
  if negb is_directory then
    raise (ValueError (py "Not a directory: " ++ path_str directory))
  else
    let include := default (include_of_processors self) include in
    let exclude := default AsyncDocumentConverter.default_exclude exclude in
    (* Find all matching files *)
    all_files <- ask (fun w => AsyncDocumentConverter.discover w directory
                                 include exclude
                                 (AsyncDocumentConverter.rglob w directory)) ;;
    console_print (py "Found " ++ digits (length all_files)
                   ++ py " files to process") ;;
    c <- convert_recursive_loop self all_files output_dir pattern custom_prompt
           force (mkCounters 0 0 0) ;;
    (* Summary *)
    console_print (py "Conversion complete!") ;;
    console_print (py "  Successful: " ++ digits (n_successful c)) ;;
    console_print (py "  Failed: " ++ digits (n_failed c)) ;;
    console_print (py "  Skipped: " ++ digits (n_skipped c)) ;;
    ret (mkSummary (length all_files) (n_successful c) (n_failed c) (n_skipped c)).

End with_lib.
End Batch.

(** ** [documark/core/patterns.py]: the catalogue of patterns *)

(** [OutputPattern.common_patterns()], in the order of the dict. *)
Definition common_patterns : list (str * str) :=
  [ (py "suffix", py "{filename}.md");
    (py "hidden", py ".{filename}.md");
    (py "directory", py ".documark/{filename}.md");
    (py "nested", py "{path}/.documark/{filename}.md");
    (py "flat", py "converted/{filename}.md");
    (py "timestamp", py "{filename}_{timestamp}.md");
    (py "preserve", py "{path}/{filename}.md") ].

(** A template cut into its segments: [{name}] for a run of word
    characters between braces, text elsewhere. *)
Definition common_segments : list (str * list segment) :=
  [ (py "suffix", [Var (py "filename"); Lit (py ".md")]);
    (py "hidden", [Lit (py "."); Var (py "filename"); Lit (py ".md")]);
    (py "directory", [Lit (py ".documark/"); Var (py "filename"); Lit (py ".md")]);
    (py "nested", [Var (py "path"); Lit (py "/.documark/"); Var (py "filename");
                   Lit (py ".md")]);
    (py "flat", [Lit (py "converted/"); Var (py "filename"); Lit (py ".md")]);
    (py "timestamp", [Var (py "filename"); Lit (py "_"); Var (py "timestamp");
                      Lit (py ".md")]);
    (py "preserve", [Var (py "path"); Lit (py "/"); Var (py "filename");
                     Lit (py ".md")]) ].

(** The explicit output file that [parse_output_location] returns before it
    looks at the pattern. *)
Definition explicit_output_file (output : option Path) (is_batch : bool) : Prop :=
  is_batch = false ∧ ∃ o, output = Some o ∧ path_suffix o ≠ [].

(** ** What the discovery loop keeps, and how far a run is from its end *)

(** Whether the loop over [directory.rglob("*")] keeps a candidate: it is
    a file, its path relative to the directory matches an include pattern
    and no exclude pattern. *)
Definition selected `{lib : PyLib} (w : world) (directory : Path)
    (include exclude : list str) (file_path : Path) : bool :=
  is_file w file_path
  && match relative_to file_path directory with
     | Some rel =>
         existsb (fun pat => fnmatch (path_str rel) pat) include
         && negb (existsb (fun pat => fnmatch (path_str rel) pat) exclude)
     | None => false
     end.

(** The steps a job has before it: acquire, check, convert. *)
Definition steps_left (p : Semaphore.phase) : nat :=
  match p with
  | Semaphore.Queued => 3
  | Semaphore.Checking => 2
  | Semaphore.Rendering => 1
  | Semaphore.Finished _ => 0
  end.

Definition remaining (s : Semaphore.state) : nat :=
  sum_list (map steps_left (Semaphore.jobs s)).

Definition is_finished (p : Semaphore.phase) : Prop :=
  ∃ status, p = Semaphore.Finished status.

(** ** [documark/processors]

    What a processor renders (PyMuPDF, PIL, docx2pdf) and what the network
    answers are taken as given: [process] is the method of the class, pages
    are opaque strings. *)

(** [c.lower()] and [s.lower()], on ASCII. *)
Definition lower_chr (c : ascii) : ascii :=
  let n := nat_of_ascii c in
  if (65 <=? n) && (n <=? 90) then ascii_of_nat (n + 32) else c.

Definition lower (s : str) : str := map lower_chr s.

Module FileProcessor.

(** [FileProcessor.can_process] of [processors/base.py]. *)
Definition can_process (supported_extensions : list str) (src : source) : bool :=
  match src with
  | SrcStr s =>
      if DocumentConverter.is_url s then false
      else bool_decide (lower (path_suffix (parse_path s)) ∈ supported_extensions)
  | SrcPath p => bool_decide (lower (path_suffix p) ∈ supported_extensions)
  end.

(** The [can_process] that [PDFProcessor], [DocxProcessor] and
    [ImageProcessor] each define for themselves: the same test, on
    [Path(source)], whatever the string is. *)
Definition can_process_override (supported_extensions : list str) (src : source)
  : bool :=
  bool_decide (lower (path_suffix (DocumentConverter.as_path src))
               ∈ supported_extensions).

(** [validate_file], for a processor whose [can_process] is [can]. *)
Definition validate_file (can : source → bool) (supported_extensions : list str)
    (w : world) (file_path : Path) : result unit :=
  if negb (path_exists w file_path) then
    Raise (OSError (py "File not found: " ++ path_str file_path))
  else if negb (can (SrcPath file_path)) then
    Raise (ValueError (py "Unsupported file type: " ++ path_suffix file_path
                       ++ py ". " ++ py "Supported types: "
                       ++ join (py ", ") supported_extensions))
  else Ok tt.

(** [ImageBasedProcessor.get_content]: [process] is the method of the
    subclass. *)
Definition get_content (can : source → bool) (supported_extensions : list str)
    (process : world → Path → result (list str)) (w : world) (src : source)
  : result content :=
  let file_path := DocumentConverter.as_path src in
  match validate_file can supported_extensions w file_path with
  | Raise e => Raise e
  | Ok _ =>
      match process w file_path with
      | Ok pages => Ok (Images pages)
      | Raise e => Raise e
      end
  end.

(** A subclass of [ImageBasedProcessor] with its own [can_process]. *)
Definition make (supported_extensions : list str)
    (process : world → Path → result (list str)) : Processor :=
  mkProcessor (can_process_override supported_extensions)
    (get_content (can_process_override supported_extensions)
       supported_extensions process)
    (Some supported_extensions).

End FileProcessor.

Definition pdf_extensions : list str := [py ".pdf"].
Definition docx_extensions : list str := [py ".docx"; py ".doc"].
Definition image_extensions : list str :=
  map py [".png"; ".jpg"; ".jpeg"; ".gif"; ".bmp"; ".tiff"; ".tif"; ".webp"]%string.

Definition PDFProcessor := FileProcessor.make pdf_extensions.
Definition DocxProcessor := FileProcessor.make docx_extensions.
Definition ImageProcessor := FileProcessor.make image_extensions.

(** ** [documark/processors/cloud/google_docs.py] *)

Module GoogleDocsProcessor.

(** The class [[a-zA-Z0-9-_]]. *)
Definition id_char (c : ascii) : bool := is_word c || Ascii.eqb c "-"%char.

(** The longest run of id characters at the head of a string. *)
Fixpoint span_id (s : str) : str :=
  match s with
  | c :: s' => if id_char c then c :: span_id s' else []
  | [] => []
  end.

(** One alternative of the group, then [/d/] and the id. *)
Definition match_kind (rest kind : str) : option str :=
  let prefix := kind ++ py "/d/" in
  if startswith rest prefix then
    match span_id (drop (length prefix) rest) with
    | [] => None
    | c :: doc_id => Some (c :: doc_id)
    end
  else None.

(** [DOCS_URL_PATTERN] matched at the head of [s]: group 1. *)
Definition match_here (s : str) : option str :=
  if startswith s (py "docs.google.com/") then
    let rest := drop 16 s in
    match match_kind rest (py "document") with
    | Some doc_id => Some doc_id
    | None =>
        match match_kind rest (py "spreadsheets") with
        | Some doc_id => Some doc_id
        | None => match_kind rest (py "presentation")
        end
    end
  else None.

(** [DOCS_URL_PATTERN.search(s)]: group 1 of the leftmost match. *)
Fixpoint search (s : str) : option str :=
  match match_here s with
  | Some doc_id => Some doc_id
  | None =>
      match s with
      | [] => None
      | _ :: s' => search s'
      end
  end.

Definition shortcut_extensions : list str :=
  [py ".gdoc"; py ".gsheet"; py ".gslides"].

Definition can_process (src : source) : bool :=
  match src with
  | SrcStr s =>
      match search s with
      | Some _ => true
      | None => bool_decide (lower (path_suffix (parse_path s)) ∈ shortcut_extensions)
      end
  | SrcPath p => bool_decide (lower (path_suffix p) ∈ shortcut_extensions)
  end.

Definition _determine_doc_type (src : source) : str :=
  let source_str := DocumentConverter.source_str src in
  if contains source_str (py "spreadsheets") || endswith source_str (py ".gsheet")
  then py "spreadsheets"
  else if contains source_str (py "presentation")
          || endswith source_str (py ".gslides")
  then py "presentation"
  else py "document".

Definition _build_export_url (doc_id doc_type format : str) : str :=
  let base_urls :=
    [ (py "document", JStr (py "https://docs.google.com/document/d/" ++ doc_id
                            ++ py "/export?format=" ++ format));
      (py "spreadsheets", JStr (py "https://docs.google.com/spreadsheets/d/" ++ doc_id
                                ++ py "/export?format=" ++ format));
      (py "presentation", JStr (py "https://docs.google.com/presentation/d/" ++ doc_id
                                ++ py "/export?format=" ++ format)) ] in
  match dict_get base_urls doc_type
          (dict_get base_urls (py "document") JNull) with
  | JStr url => url
  | _ => []
  end.

Section with_lib.
Context `{lib : PyLib}.

(** [str(doc_id)]: the string itself, and for any other value what [repr]
    says. *)
Definition str_of (repr : json → str) (v : json) : str :=
  match v with
  | JStr s => s
  | _ => repr v
  end.

Definition extract_document_id (repr : json → str) (w : world) (src : source)
  : result str :=
  let could_not :=
    Raise (ValueError (py "Could not extract document ID from: "
                       ++ DocumentConverter.source_str src)) in
  match (match src with SrcStr s => search s | SrcPath _ => None end) with
  | Some doc_id => Ok doc_id
  | None =>
      (* Extract from .gdoc file *)
      let path := DocumentConverter.as_path src in
      if bool_decide (lower (path_suffix path) ∈ shortcut_extensions) then
        match read_text w path with
        | Raise e => Raise e
        | Ok text =>
            match json_loads text with
            | Some data =>
                match json_get data (py "doc_id") (JStr []) with
                | Raise e => Raise e
                | Ok doc_id =>
                    if truthy doc_id then Ok (str_of repr doc_id) else Ok []
                end
            | None =>
                (* Try alternative format *)
                match search text with
                | Some doc_id => Ok doc_id
                | None => could_not
                end
            end
        end
      else could_not
  end.

(** [get_content]: [requests_get] is the download, with what
    [requests.RequestException] it raises; [pdf_pages] is the rendering of
    the downloaded PDF by the PDF processor. *)
Definition get_content (repr : json → str) (requests_get : str → result str)
    (pdf_pages : str → result (list str)) (w : world) (src : source)
  : result content :=
  match extract_document_id repr w src with
  | Raise e => Raise e
  | Ok doc_id =>
      let doc_type := _determine_doc_type src in
      let export_url := _build_export_url doc_id doc_type (py "pdf") in
      match requests_get export_url with
      | Raise e =>
          Raise (ValueError (py "Failed to download Google Doc: " ++ exn_str e))
      | Ok body =>
          match pdf_pages body with
          | Ok pages => Ok (Images pages)
          | Raise e => Raise e
          end
      end
  end.

Definition make (repr : json → str) (requests_get : str → result str)
    (pdf_pages : str → result (list str)) : Processor :=
  mkProcessor can_process (get_content repr requests_get pdf_pages) None.

End with_lib.
End GoogleDocsProcessor.

(** ** The processors of [DocumentConverter.__init__], in their order *)

Section default_processors.
Context `{lib : PyLib}.
Variables (pdf_process docx_process image_process : world → Path → result (list str)).
Variable google : Processor.

Definition default_processors : list Processor :=
  [ PDFProcessor pdf_process; DocxProcessor docx_process;
    ImageProcessor image_process; google ].

End default_processors.

(** The text of the [ValueError] of [_get_processor] with these
    processors. *)
Definition no_processor_message (src : source) : str :=
  py "No processor found for: " ++ DocumentConverter.source_str src ++ py ". "
  ++ py "Supported types: "
  ++ py ".bmp, .doc, .docx, .gif, .jpeg, .jpg, .pdf, .png, .tif, .tiff, .webp".

(** A converter with the processors of [__init__]: every rendering gives
    one page, the download a PDF. *)
Definition one_page : world → Path → result (list str) :=
  fun _ _ => Ok [py "page-1"].

Definition example_google : Processor :=
  @GoogleDocsProcessor.make example_lib (fun _ => []) (fun _ => Ok (py "%PDF-1.7"))
    (fun _ => Ok [py "page-1"]).

Definition default_converter : DocumentConverter.t :=
  {| DocumentConverter.model := py "gemini/gemini-2.5-flash";
     DocumentConverter.dpi := 300;
     DocumentConverter.cache_metadata := true;
     DocumentConverter.processors :=
       default_processors one_page one_page one_page example_google;
     DocumentConverter.batch_images_to_base64 := fun pages => Ok pages;
     DocumentConverter.completion := fun _ _ _ _ => Ok (Some response_text) |}.

Definition pdf_url : str := py "https://example.com/files/REPORT.PDF".

(** The class attribute [EXPORT_FORMATS] of [GoogleDocsProcessor], and its
    keys: the three kinds of document. *)
Definition EXPORT_FORMATS : list (str * str) :=
  [ (py "document", py "pdf"); (py "spreadsheets", py "pdf");
    (py "presentation", py "pdf") ].

Definition kinds : list str := map fst EXPORT_FORMATS.

(** The download and the rendering of [GoogleDocsProcessor.get_content],
    once the export URL is known. *)
Definition download_export (requests_get : str → result str)
    (pdf_pages : str → result (list str)) (export_url : str) : result content :=
  match requests_get export_url with
  | Raise e =>
      Raise (ValueError (py "Failed to download Google Doc: " ++ exn_str e))
  | Ok body =>
      match pdf_pages body with
      | Ok pages => Ok (Images pages)
      | Raise e => Raise e
      end
  end.

(** A file system in which a regular file has no suffix and a directory
    has one. *)
Definition suffix_fs : gmap str node :=
  list_to_map
    [ (py "/docs", Dir 10%Q);
      (py "/docs/report.pdf", File (py "%PDF-1.7") 100%Q);
      (py "/out", Dir 10%Q);
      (py "/out/README", File (py "notes") 50%Q);
      (py "/out.d", Dir 10%Q);
      (py "/home", Dir 10%Q);
      (py "/home/user", Dir 10%Q) ].

Definition suffix_world : world :=
  mkWorld (parse_path (py "/home/user")) suffix_fs ∅ example_now 1000%Q [].

(** * Properties *)

(** ** Strings *)

Lemma ascii_eqb_eq (a b : ascii) : Ascii.eqb a b = true ↔ a = b.
Proof. apply Ascii.eqb_eq. Qed.

Lemma lbrace_not_word : is_word chr_lbrace = false.
Proof. reflexivity. Qed.

Lemma rbrace_not_word : is_word chr_rbrace = false.
Proof. reflexivity. Qed.

Lemma word_chars_no_lbrace (w : str) : word_chars w → chr_lbrace ∉ w.
Proof.
  intros Hw Hin. unfold word_chars in Hw. rewrite Forall_forall in Hw.
  specialize (Hw _ Hin). rewrite lbrace_not_word in Hw. discriminate.
Qed.

(** [span_word] cuts the word characters off the front. *)
Lemma span_word_app (s : str) :
  ∀ w r, span_word s = (w, r) → s = w ++ r ∧ word_chars w.
Proof.
  induction s as [|c s IH]; intros w r H; simpl in H.
  - inversion H. split; [done | constructor].
  - destruct (is_word c) eqn:Hc.
    + destruct (span_word s) as [w' r'] eqn:Hs. inversion H; subst.
      destruct (IH w' r eq_refl) as [-> Hw].
      split; [done | by constructor].
    + inversion H. split; [done | constructor].
Qed.

Lemma span_word_stop (w : str) (c : ascii) (rest : str) :
  word_chars w → is_word c = false →
  span_word (w ++ c :: rest) = (w, c :: rest).
Proof.
  intros Hw Hc. induction Hw as [|x w Hx Hw IH]; simpl.
  - by rewrite Hc.
  - by rewrite Hx, IH.
Qed.

(** Two runs of word characters closed by a brace at the same place are the
    same run. *)
Lemma word_run_unique (v w a b : str) :
  word_chars v → word_chars w →
  v ++ chr_rbrace :: a = w ++ chr_rbrace :: b → v = w ∧ a = b.
Proof.
  intros Hv. revert w. induction Hv as [|x v Hx Hv IH]; intros w Hw Heq.
  - destruct Hw as [|y w Hy Hw]; simpl in Heq.
    + by inversion Heq.
    + inversion Heq; subst. rewrite rbrace_not_word in Hy. discriminate.
  - destruct Hw as [|y w Hy Hw]; simpl in Heq.
    + inversion Heq; subst. rewrite rbrace_not_word in Hx. discriminate.
    + inversion Heq; subst. destruct (IH w Hw H1) as [-> ->]. done.
Qed.

Lemma match_placeholder_Some (s w : str) :
  match_placeholder s = Some w ↔
  w ≠ [] ∧ word_chars w ∧ ∃ after, s = chr_lbrace :: w ++ chr_rbrace :: after.
Proof.
  split.
  - destruct s as [|c s]; simpl; [done|].
    destruct (Ascii.eqb c chr_lbrace) eqn:Hc; [|done].
    apply ascii_eqb_eq in Hc as ->.
    destruct (span_word s) as [w' r] eqn:Hs.
    destruct w' as [|x w']; [done|]. destruct r as [|y r]; [done|].
    destruct (Ascii.eqb y chr_rbrace) eqn:Hy; [|done].
    apply ascii_eqb_eq in Hy as ->. intros [= <-].
    apply span_word_app in Hs as [-> Hw].
    split; [done|]. split; [done|]. by exists r.
  - intros (Hne & Hw & after & ->). simpl.
    rewrite (span_word_stop w chr_rbrace after Hw rbrace_not_word).
    destruct w; [done|]. reflexivity.
Qed.

(** An occurrence of a placeholder at the head of [s]. *)
Lemma placeholder_in_cons (name : str) (c : ascii) (s : str) :
  placeholder_in name (c :: s) ↔
  match_placeholder (c :: s) = Some name ∨ placeholder_in name s.
Proof.
  unfold placeholder_in. split.
  - intros (Hne & Hw & before & after & Heq).
    destruct before as [|b before]; simpl in Heq.
    + left. apply match_placeholder_Some. split; [done|]. split; [done|].
      exists after. done.
    + right. inversion Heq; subst. split; [done|]. split; [done|].
      by exists before, after.
  - intros [H | (Hne & Hw & before & after & ->)].
    + apply match_placeholder_Some in H as (Hne & Hw & after & Heq).
      split; [done|]. split; [done|]. exists [], after. done.
    + split; [done|]. split; [done|]. by exists (c :: before), after.
Qed.

Lemma placeholder_in_skip (name : str) (c : ascii) (s : str) :
  c ≠ chr_lbrace → placeholder_in name (c :: s) ↔ placeholder_in name s.
Proof.
  intros Hc. rewrite placeholder_in_cons. split; [|auto].
  intros [H | H]; [|done].
  apply match_placeholder_Some in H as (_ & _ & after & Heq).
  inversion Heq; subst. done.
Qed.

Lemma findall_from_0 (c : ascii) (s : str) :
  findall_from 0 (c :: s) =
  match match_placeholder (c :: s) with
  | Some w => w :: findall_from (S (length w)) s
  | None => findall_from 0 s
  end.
Proof. reflexivity. Qed.

Lemma findall_from_S (k : nat) (c : ascii) (s : str) :
  findall_from (S k) (c :: s) = findall_from k s.
Proof. reflexivity. Qed.

(** [findall] finds exactly the placeholders that occur, provided the part
    it skips holds no opening brace. *)
Lemma findall_from_spec (name s : str) :
  ∀ skip, chr_lbrace ∉ take skip s →
          name ∈ findall_from skip s ↔ placeholder_in name s.
Proof.
  induction s as [|c s IH]; intros skip Hskip.
  - simpl. split.
    + intros H. by apply elem_of_nil in H.
    + intros (_ & _ & before & after & Heq). by destruct before.
  - destruct skip as [|k].
    + rewrite findall_from_0.
      destruct (match_placeholder (c :: s)) as [w|] eqn:Hm.
      * rewrite placeholder_in_cons, Hm, elem_of_cons.
        pose proof Hm as Hm'.
        apply match_placeholder_Some in Hm' as (Hne & Hw & after & Heq).
        inversion Heq; subst.
        rewrite IH.
        { split; intros [H | H]; auto; left; congruence. }
        replace (w ++ chr_rbrace :: after) with ((w ++ [chr_rbrace]) ++ after)
          by (by rewrite <- app_assoc).
        rewrite take_app_length'.
        2:{ rewrite length_app. simpl. lia. }
        rewrite elem_of_app, list_elem_of_singleton.
        intros [H | H]; [by apply word_chars_no_lbrace in H | discriminate].
      * rewrite placeholder_in_cons, Hm, (IH 0).
        { split; [auto | intros [H | H]; [done | done]]. }
        simpl. apply not_elem_of_nil.
    + rewrite findall_from_S.
      change (take (S k) (c :: s)) with (c :: take k s) in Hskip.
      apply not_elem_of_cons in Hskip as [Hc Hk].
      rewrite (IH k Hk), placeholder_in_skip; [done|]. congruence.
Qed.

Lemma findall_placeholders_spec (name s : str) :
  name ∈ findall_placeholders s ↔ placeholder_in name s.
Proof. apply findall_from_spec. simpl. apply not_elem_of_nil. Qed.

(** Construction fails exactly on an unrecognized placeholder. *)
Lemma init_raises_iff (template : str) :
  (∃ e, OutputPattern.__init__ template = Raise e) ↔
  ∃ name, placeholder_in name template ∧ name ∉ OutputPattern.valid_vars.
Proof.
  unfold OutputPattern.__init__, OutputPattern._validate_pattern. simpl.
  destruct (filter (fun v => v ∉ OutputPattern.valid_vars)
              (findall_placeholders template)) as [|v l] eqn:Hf.
  - split; [intros [e He]; discriminate|].
    intros (name & Hin & Hbad). exfalso.
    apply findall_placeholders_spec in Hin.
    assert (name ∈ filter (fun v => v ∉ OutputPattern.valid_vars)
                      (findall_placeholders template)) as H
      by (apply list_elem_of_filter; done).
    rewrite Hf in H. by apply elem_of_nil in H.
  - split; [|intros _; eauto].
    intros _. exists v.
    assert (v ∈ filter (fun v => v ∉ OutputPattern.valid_vars)
                   (findall_placeholders template)) as H
      by (rewrite Hf; apply elem_of_cons; auto).
    apply list_elem_of_filter in H as [Hbad Hin].
    by apply findall_placeholders_spec in Hin.
Qed.

Lemma init_ok_iff (template : str) :
  OutputPattern.__init__ template = Ok (OutputPattern.mk template) ↔
  ∀ name, placeholder_in name template → name ∈ OutputPattern.valid_vars.
Proof.
  split.
  - intros Hok name Hin.
    destruct (decide (name ∈ OutputPattern.valid_vars)) as [|Hbad]; [done|].
    assert (∃ e, OutputPattern.__init__ template = Raise e) as [e He]
      by (apply init_raises_iff; eauto).
    congruence.
  - intros Hall.
    destruct (OutputPattern.__init__ template) as [p|e] eqn:Hi.
    + unfold OutputPattern.__init__ in Hi.
      destruct (OutputPattern._validate_pattern _); congruence.
    + assert (∃ e, OutputPattern.__init__ template = Raise e) as H by eauto.
      apply init_raises_iff in H as (name & Hin & Hbad). by apply Hall in Hin.
Qed.

(** *** Replacement *)

Lemma startswith_spec (s p : str) :
  startswith s p = true ↔ ∃ r, s = p ++ r.
Proof.
  revert s. induction p as [|x p IH]; intros s; simpl.
  - split; [intros _; by exists s | done].
  - destruct s as [|c s].
    + split; [done | intros [r Hr]; discriminate].
    + rewrite andb_true_iff, ascii_eqb_eq, IH. split.
      * intros [-> [r ->]]. by exists r.
      * intros [r [= -> ->]]. split; [done | by exists r].
Qed.

Lemma replace_from_skip (old new u r : str) :
  replace_from (length u) old new (u ++ r) = replace_from 0 old new r.
Proof.
  induction u as [|c u IH]; simpl; [|done].
  destruct r; reflexivity.
Qed.

Lemma replace_from_0 (old new : str) (c : ascii) (s : str) :
  replace_from 0 old new (c :: s) =
  if startswith (c :: s) old
  then new ++ replace_from (length old - 1) old new s
  else c :: replace_from 0 old new s.
Proof. reflexivity. Qed.

(** Text without an opening brace is copied. *)
Lemma replace_from_text (key new u r : str) :
  chr_lbrace ∉ u →
  replace_from 0 (chr_lbrace :: key) new (u ++ r)
  = u ++ replace_from 0 (chr_lbrace :: key) new r.
Proof.
  induction u as [|c u IH]; intros Hu; [done|].
  apply not_elem_of_cons in Hu as [Hc Hu].
  change ((c :: u) ++ r) with (c :: (u ++ r)).
  rewrite replace_from_0.
  destruct (startswith (c :: u ++ r) (chr_lbrace :: key)) eqn:Hs.
  - apply startswith_spec in Hs as [r' Hr']. inversion Hr'; subst. done.
  - rewrite IH by done. done.
Qed.

(** A placeholder is replaced when it is the one looked for, and copied
    otherwise. *)
Lemma replace_from_var (key new name r : str) :
  word_chars key → word_chars name →
  replace_from 0 (chr_lbrace :: key ++ [chr_rbrace]) new
    (chr_lbrace :: name ++ chr_rbrace :: r)
  = (if bool_decide (name = key) then new else chr_lbrace :: name ++ [chr_rbrace])
    ++ replace_from 0 (chr_lbrace :: key ++ [chr_rbrace]) new r.
Proof.
  intros Hk Hn. rewrite replace_from_0.
  destruct (startswith _ _) eqn:Hs.
  - apply startswith_spec in Hs as [r' Hr'].
    inversion Hr' as [Heq]. rewrite <- app_assoc in Heq. simpl in Heq.
    apply word_run_unique in Heq as [-> ->]; [|done..].
    rewrite bool_decide_eq_true_2 by done. f_equal.
    replace (length (chr_lbrace :: key ++ [chr_rbrace]) - 1)
      with (length (key ++ [chr_rbrace]))
      by (simpl; lia).
    replace (key ++ chr_rbrace :: r') with ((key ++ [chr_rbrace]) ++ r')
      by (by rewrite <- app_assoc).
    apply replace_from_skip.
  - assert (name ≠ key) as Hne.
    { intros ->. assert (startswith (chr_lbrace :: key ++ chr_rbrace :: r)
                           (chr_lbrace :: key ++ [chr_rbrace]) = true) as H.
      { apply startswith_spec. exists r. simpl. by rewrite <- app_assoc. }
      congruence. }
    rewrite bool_decide_eq_false_2 by done. simpl. f_equal.
    replace (name ++ chr_rbrace :: r) with ((name ++ [chr_rbrace]) ++ r)
      by (by rewrite <- app_assoc).
    rewrite (replace_from_text (key ++ [chr_rbrace]) new (name ++ [chr_rbrace]) r).
    + by rewrite <- app_assoc.
    + rewrite elem_of_app, list_elem_of_singleton.
      intros [H | H]; [by apply word_chars_no_lbrace in H | discriminate].
Qed.

(** *** Substitution into a template *)

(** What one round of the loop of [apply] does to a template cut into
    segments. *)
Definition subst_segment (key value : str) (g : segment) : segment :=
  match g with
  | Lit text => Lit text
  | Var name => if bool_decide (name = key) then Lit value else Var name
  end.

Definition segment_ok (g : segment) : Prop :=
  match g with
  | Lit text => brace_free text
  | Var name => word_chars name
  end.

Lemma brace_free_nil : brace_free [].
Proof. split; apply not_elem_of_nil. Qed.

Lemma brace_free_app (a b : str) :
  brace_free (a ++ b) ↔ brace_free a ∧ brace_free b.
Proof.
  unfold brace_free. rewrite !elem_of_app. tauto.
Qed.

Lemma brace_free_cons (c : ascii) (s : str) :
  brace_free (c :: s) ↔ (c ≠ chr_lbrace ∧ c ≠ chr_rbrace) ∧ brace_free s.
Proof.
  unfold brace_free. rewrite !not_elem_of_cons. intuition congruence.
Qed.

Lemma brace_free_Forall (s : str) :
  brace_free s ↔ Forall (fun c => c ≠ chr_lbrace ∧ c ≠ chr_rbrace) s.
Proof.
  induction s as [|c s IH].
  - split; [constructor | intros _; apply brace_free_nil].
  - rewrite brace_free_cons, Forall_cons, IH. done.
Qed.

Lemma replace_render (key value : str) (segs : list segment) :
  word_chars key → Forall segment_ok segs →
  replace (render segs) ([chr_lbrace] ++ key ++ [chr_rbrace]) value
  = render (map (subst_segment key value) segs).
Proof.
  intros Hk Hsegs.
  change (replace (render segs) ([chr_lbrace] ++ key ++ [chr_rbrace]) value)
    with (replace_from 0 (chr_lbrace :: key ++ [chr_rbrace]) value (render segs)).
  induction Hsegs as [|g segs Hg Hsegs IH]; [done|].
  change (render (g :: segs)) with (render_segment g ++ render segs).
  change (render (map (subst_segment key value) (g :: segs)))
    with (render_segment (subst_segment key value g)
          ++ render (map (subst_segment key value) segs)).
  destruct g as [text | name].
  - change (render_segment (Lit text)) with text.
    rewrite replace_from_text by apply Hg. by rewrite IH.
  - change (render_segment (Var name) ++ render segs)
      with (chr_lbrace :: (name ++ [chr_rbrace]) ++ render segs).
    rewrite <- app_assoc.
    change ([chr_rbrace] ++ render segs) with (chr_rbrace :: render segs).
    rewrite replace_from_var by done.
    rewrite IH. simpl. destruct (bool_decide (name = key)); done.
Qed.

Lemma subst_segment_ok (key value : str) (g : segment) :
  brace_free value → segment_ok g → segment_ok (subst_segment key value g).
Proof.
  intros Hv Hg. destruct g as [text | name]; simpl; [done|].
  destruct (bool_decide (name = key)); done.
Qed.

Lemma substitute_cons (key value : str) (vals : list (str * str)) (t : str) :
  OutputPattern.substitute ((key, value) :: vals) t
  = OutputPattern.substitute vals
      (replace t ([chr_lbrace] ++ key ++ [chr_rbrace]) value).
Proof. reflexivity. Qed.

(** Once every placeholder of the template has had its round, no brace is
    left. *)
Lemma substitute_render (vals : list (str * str)) :
  ∀ segs,
    Forall (fun kv => word_chars kv.1 ∧ brace_free kv.2) vals →
    Forall segment_ok segs →
    (∀ name, Var name ∈ segs → name ∈ map fst vals) →
    brace_free (OutputPattern.substitute vals (render segs)).
Proof.
  induction vals as [|[key value] vals IH]; intros segs Hvals Hsegs Hvars.
  - change (OutputPattern.substitute [] (render segs)) with (render segs).
    induction Hsegs as [|g segs Hg Hsegs IHs].
    + apply brace_free_nil.
    + unfold render. simpl. apply brace_free_app. split.
      * destruct g as [text | name]; [done|].
        exfalso. specialize (Hvars name). simpl in Hvars.
        eapply elem_of_nil, Hvars. apply elem_of_cons. auto.
      * apply IHs. intros name Hin. apply Hvars. apply elem_of_cons. auto.
  - apply Forall_cons in Hvals as [[Hk Hv] Hvals]. simpl in Hk, Hv.
    rewrite substitute_cons, replace_render by done.
    apply IH; [done | |].
    + apply Forall_fmap. eapply Forall_impl; [exact Hsegs|].
      intros g Hg. by apply subst_segment_ok.
    + intros name Hin. apply list_elem_of_fmap in Hin as (g & Heq & Hin).
      destruct g as [text | name']; simpl in Heq; [done|].
      destruct (bool_decide (name' = key)) eqn:Hd; [done|].
      inversion Heq; subst.
      apply bool_decide_eq_false in Hd.
      specialize (Hvars _ Hin). simpl in Hvars.
      apply elem_of_cons in Hvars as [? | ?]; done.
Qed.

(** *** Braces in paths and dates *)

Lemma brace_free_take (n : nat) (s : str) : brace_free s → brace_free (take n s).
Proof. rewrite !brace_free_Forall. apply Forall_take. Qed.

Lemma brace_free_drop (n : nat) (s : str) : brace_free s → brace_free (drop n s).
Proof. rewrite !brace_free_Forall. apply Forall_drop. Qed.

Lemma brace_free_last (l : list str) :
  Forall brace_free l → brace_free (List.last l []).
Proof.
  induction 1 as [|x l Hx Hl IH]; [apply brace_free_nil|].
  destruct l; [done|]. exact IH.
Qed.

Lemma Forall_removelast {A} (P : A → Prop) (l : list A) :
  Forall P l → Forall P (removelast l).
Proof.
  induction 1 as [|x l Hx Hl IH]; [constructor|].
  simpl. destruct l; [constructor|]. by constructor.
Qed.

Lemma brace_free_lstrip_chr (c : ascii) (s : str) :
  brace_free s → brace_free (lstrip_chr c s).
Proof.
  induction s as [|x s IH]; intros H; [done|]. simpl.
  destruct (Ascii.eqb x c); [|done].
  apply IH. by apply brace_free_cons in H as [_ H].
Qed.

Lemma brace_free_join (sep : str) (items : list str) :
  brace_free sep → Forall brace_free items → brace_free (join sep items).
Proof.
  intros Hsep. induction 1 as [|x l Hx Hl IH]; [apply brace_free_nil|].
  simpl. destruct l as [|y l]; [done|].
  apply brace_free_app. split; [done|]. apply brace_free_app. by split.
Qed.

Lemma brace_free_split (sep : ascii) (s : str) :
  brace_free s → Forall brace_free (split sep s).
Proof.
  induction s as [|c s IH]; intros H.
  - repeat constructor; apply not_elem_of_nil.
  - apply brace_free_cons in H as [Hc Hs]. specialize (IH Hs). simpl.
    destruct (Ascii.eqb c sep).
    + constructor; [apply brace_free_nil | done].
    + destruct (split sep s) as [|w ws].
      * constructor; [|constructor].
        apply brace_free_cons. split; [done | apply brace_free_nil].
      * apply Forall_cons in IH as [Hw Hws]. constructor; [|done].
        by apply brace_free_cons.
Qed.

Lemma brace_free_slash : brace_free [chr_slash].
Proof. apply brace_free_cons. split; [split; discriminate | apply brace_free_nil]. Qed.

Lemma brace_free_dot : brace_free [chr_dot].
Proof. apply brace_free_cons. split; [split; discriminate | apply brace_free_nil]. Qed.

Lemma Forall_list_filter {A} (P : A → Prop) (f : A → bool) (l : list A) :
  Forall P l → Forall P (List.filter f l).
Proof.
  induction 1 as [|x l Hx Hl IH]; [constructor|].
  simpl. destruct (f x); [by constructor | done].
Qed.

Lemma parse_path_brace_free (s : str) :
  brace_free s → path_brace_free (parse_path s).
Proof.
  intros H. unfold parse_path, path_brace_free. simpl. split.
  - destruct (leading_slashes s) as [|[|[|n]]]; try apply brace_free_nil;
      try apply brace_free_slash.
    apply brace_free_cons. split; [split; discriminate | apply brace_free_slash].
  - apply Forall_list_filter, brace_free_split. by apply brace_free_drop.
Qed.

Lemma path_str_brace_free (p : Path) :
  path_brace_free p → brace_free (path_str p).
Proof.
  intros [Hr Hp]. unfold path_str.
  destruct (root p) as [|c r] eqn:Hroot.
  - destruct (parts p) as [|x l] eqn:Hparts; [apply brace_free_dot|].
    change ([] ++ join [chr_slash] (x :: l)) with (join [chr_slash] (x :: l)).
    apply brace_free_join; [apply brace_free_slash | done].
  - apply brace_free_app. split; [done|].
    apply brace_free_join; [apply brace_free_slash | done].
Qed.

Lemma path_parent_brace_free (p : Path) :
  path_brace_free p → path_brace_free (path_parent p).
Proof.
  intros [Hr Hp]. unfold path_parent.
  destruct (parts p) eqn:Hparts; [split; [done | by rewrite Hparts]|].
  split; [done|].
  change (Forall brace_free (removelast (l :: l0))). by apply Forall_removelast.
Qed.

Lemma path_name_brace_free (p : Path) :
  path_brace_free p → brace_free (path_name p).
Proof. intros [_ Hp]. by apply brace_free_last. Qed.

Lemma path_stem_brace_free (p : Path) :
  path_brace_free p → brace_free (path_stem p).
Proof.
  intros H. apply path_name_brace_free in H. unfold path_stem.
  destruct (rfind chr_dot (path_name p)); [|done].
  destruct (_ && _); [by apply brace_free_take | done].
Qed.

Lemma path_suffix_brace_free (p : Path) :
  path_brace_free p → brace_free (path_suffix p).
Proof.
  intros H. apply path_name_brace_free in H. unfold path_suffix.
  destruct (rfind chr_dot (path_name p)); [|apply brace_free_nil].
  destruct (_ && _); [by apply brace_free_drop | apply brace_free_nil].
Qed.

Lemma joinpath_brace_free (a b : Path) :
  path_brace_free a → path_brace_free b → path_brace_free (joinpath a b).
Proof.
  intros [Har Hap] [Hbr Hbp]. unfold joinpath.
  destruct (is_absolute b); [by split|].
  split; [done|]. simpl. by apply Forall_app.
Qed.

Lemma relative_to_brace_free (p base r : Path) :
  path_brace_free p → relative_to p base = Some r → path_brace_free r.
Proof.
  intros [Hr Hp]. unfold relative_to.
  destruct (_ && _); [|done]. intros [= <-].
  split; [apply brace_free_nil|]. simpl. by apply Forall_drop.
Qed.

Lemma string_of_uint_brace_free (d : Decimal.uint) :
  brace_free (list_ascii_of_string (NilEmpty.string_of_uint d)).
Proof.
  induction d; simpl; try apply brace_free_nil;
    (apply brace_free_cons; split; [split; discriminate | done]).
Qed.

Lemma digits_brace_free (n : nat) : brace_free (digits n).
Proof. apply string_of_uint_brace_free. Qed.

Lemma zfill_brace_free (width : nat) (s : str) :
  brace_free s → brace_free (zfill width s).
Proof.
  intros H. unfold zfill. apply brace_free_app. split; [|done].
  induction (width - length s) as [|n IH]; [apply brace_free_nil|].
  simpl. apply brace_free_cons. split; [split; discriminate | done].
Qed.

Lemma brace_free_dash : brace_free [chr_dash].
Proof. apply brace_free_cons. split; [split; discriminate | apply brace_free_nil]. Qed.

Lemma brace_free_underscore : brace_free [chr_underscore].
Proof. apply brace_free_cons. split; [split; discriminate | apply brace_free_nil]. Qed.

Ltac brace_free_parts :=
  repeat first
    [ apply zfill_brace_free
    | apply digits_brace_free
    | apply brace_free_dash
    | apply brace_free_underscore
    | apply brace_free_app; split ].

Lemma strftime_date_brace_free (d : datetime) : brace_free (strftime_date d).
Proof. unfold strftime_date. brace_free_parts. Qed.

Lemma strftime_time_brace_free (d : datetime) : brace_free (strftime_time d).
Proof. unfold strftime_time. brace_free_parts. Qed.

Lemma strftime_timestamp_brace_free (d : datetime) :
  brace_free (strftime_timestamp d).
Proof.
  unfold strftime_timestamp.
  apply brace_free_app. split; [apply strftime_date_brace_free|].
  apply brace_free_app. split; [apply brace_free_underscore|].
  apply strftime_time_brace_free.
Qed.

Lemma valid_vars_word_chars (name : str) :
  name ∈ OutputPattern.valid_vars → word_chars name.
Proof.
  unfold OutputPattern.valid_vars. simpl. rewrite !elem_of_cons, elem_of_nil.
  intros H. repeat destruct H as [-> | H]; try done;
    unfold word_chars; repeat constructor.
Qed.

(** The values of [apply] carry no brace when the paths carry none. *)
Lemma values_brace_free (w : world) (source_path base_dir : Path) :
  path_brace_free source_path →
  Forall (fun kv => word_chars kv.1 ∧ brace_free kv.2)
    (OutputPattern.values w source_path base_dir).
Proof.
  intros Hs.
  assert (path_brace_free
            (match relative_to source_path base_dir with
             | Some r => r
             | None => source_path
             end)) as Hrel.
  { destruct (relative_to source_path base_dir) eqn:Hr; [|done].
    by eapply relative_to_brace_free. }
  unfold OutputPattern.values.
  repeat (apply Forall_cons; split; [split; [unfold word_chars; repeat constructor|] |]);
    simpl; try apply Forall_nil;
    auto using path_stem_brace_free, path_suffix_brace_free, brace_free_lstrip_chr,
      path_name_brace_free, path_parent_brace_free, path_str_brace_free,
      strftime_date_brace_free, strftime_time_brace_free,
      strftime_timestamp_brace_free.
Qed.

(** A template of recognized placeholders, applied to paths without
    braces, gives a path without braces. *)
Lemma apply_brace_free (w : world) (template : str) (source_path : Path)
    (base_dir : option Path) :
  only_recognized template →
  path_brace_free source_path →
  path_brace_free (default (cwd w) base_dir) →
  brace_free (path_str (OutputPattern.apply (OutputPattern.mk template) w
                          source_path base_dir)).
Proof.
  intros (segs & Hsegs & ->) Hsrc Hbase.
  apply path_str_brace_free. unfold OutputPattern.apply.
  change (OutputPattern.pattern (OutputPattern.mk (render segs))) with (render segs).
  assert (path_brace_free
            (parse_path
               (OutputPattern.substitute
                  (OutputPattern.values w source_path
                     match base_dir with Some b => b | None => cwd w end)
                  (render segs)))) as Hres.
  { apply parse_path_brace_free, substitute_render.
    - by apply values_brace_free.
    - eapply Forall_impl; [exact Hsegs|].
      intros [text | name] Hg; [done|]. by apply valid_vars_word_chars.
    - intros name Hin. rewrite Forall_forall in Hsegs.
      exact (Hsegs _ Hin). }
  destruct base_dir as [b|]; simpl in Hbase |- *.
  - destruct (negb _); [|done].
    destruct (contains _ _); apply joinpath_brace_free;
      auto using path_parent_brace_free.
  - destruct (negb _); [|done].
    destruct (contains _ _); apply joinpath_brace_free;
      auto using path_parent_brace_free.
Qed.

(** *** Placeholders of a template cut into segments *)

Lemma placeholder_in_text (name u r : str) :
  chr_lbrace ∉ u → placeholder_in name (u ++ r) → placeholder_in name r.
Proof.
  induction u as [|c u IH]; intros Hu H; [done|].
  apply not_elem_of_cons in Hu as [Hc Hu].
  apply IH; [done|]. apply (placeholder_in_skip name c (u ++ r)); [congruence | done].
Qed.

Lemma placeholder_in_render (name : str) (segs : list segment) :
  Forall recognized_segment segs →
  placeholder_in name (render segs) → name ∈ OutputPattern.valid_vars.
Proof.
  induction 1 as [|g segs Hg Hsegs IH]; intros Hin.
  - destruct Hin as (_ & _ & before & after & Heq). by destruct before.
  - change (render (g :: segs)) with (render_segment g ++ render segs) in Hin.
    destruct g as [text | n]; simpl in Hg.
    + apply IH. eapply placeholder_in_text; [apply Hg | exact Hin].
    + pose proof (valid_vars_word_chars n Hg) as Hn.
      change (render_segment (Var n) ++ render segs)
        with (chr_lbrace :: (n ++ [chr_rbrace]) ++ render segs) in Hin.
      apply placeholder_in_cons in Hin as [Hm | Hin].
      * apply match_placeholder_Some in Hm as (_ & Hw & after & Heq).
        inversion Heq as [Heq']. rewrite <- app_assoc in Heq'.
        apply word_run_unique in Heq' as [-> _]; done.
      * apply IH. eapply placeholder_in_text; [|exact Hin].
        rewrite elem_of_app, list_elem_of_singleton.
        intros [H | H]; [by apply word_chars_no_lbrace in H | discriminate].
Qed.

Lemma only_recognized_init (template : str) :
  only_recognized template →
  OutputPattern.__init__ template = Ok (OutputPattern.mk template).
Proof.
  intros (segs & Hsegs & ->). apply init_ok_iff.
  intros name. by apply placeholder_in_render.
Qed.

(** A string without braces holds no placeholder. *)
Lemma brace_free_no_placeholder (s name : str) :
  brace_free s → ¬ placeholder_in name s.
Proof.
  intros [Hl _] (_ & _ & before & after & ->). apply Hl.
  rewrite elem_of_app. right. apply elem_of_cons. by left.
Qed.

(** ** Output path resolution *)

Lemma root_path_parent (p : Path) : root (path_parent p) = root p.
Proof. unfold path_parent. by destruct (parts p). Qed.

(** C3, as the claim states it, fails where "file" and "directory" are
    what the file system says: outside batch mode, the existing regular
    file [/out/README], given with a pattern, is not returned but the
    expansion of the pattern beside the source is; and the existing
    directory [/out.d], given without a pattern, is returned as it is, not
    [/out.d/report.md]. The code takes an output for a file when its name
    has a suffix. *)
Lemma explicit_output_counterexample :
  is_file suffix_world (parse_path (py "/out/README")) = true
  ∧ parse_output_location suffix_world report_pdf
      (Some (parse_path (py "/out/README"))) (Some (py "{filename}.md")) false
    = Ok (parse_path (py "/docs/report.md"))
  ∧ parse_path (py "/docs/report.md") ≠ parse_path (py "/out/README")
  ∧ is_dir suffix_world (parse_path (py "/out.d")) = true
  ∧ parse_output_location suffix_world report_pdf
      (Some (parse_path (py "/out.d"))) None false
    = Ok (parse_path (py "/out.d"))
  ∧ parse_path (py "/out.d")
    ≠ joinpath_str (parse_path (py "/out.d")) (path_stem report_pdf ++ py ".md").
Proof.
  split; [vm_compute; reflexivity|]. split; [vm_compute; reflexivity|].
  split; [vm_compute; discriminate|]. split; [vm_compute; reflexivity|].
  split; [vm_compute; reflexivity | vm_compute; discriminate].
Qed.

(** C3 (amended): an explicit output with a suffix, outside batch mode, is returned
    as it is, whatever the pattern; without a pattern, an explicit output
    that is a directory, or any explicit output in batch mode, gives
    [output / (stem + ".md")], an explicit output that is neither gives
    itself, and no output gives [source.parent / (stem + ".md")]. *)
Theorem parse_output_location_precedence
    (w : world) (source_path : Path) (pattern : option str) :
  (∀ o, path_suffix o ≠ [] →
        parse_output_location w source_path (Some o) pattern false = Ok o)
  ∧ ((pattern = None ∨ pattern = Some []) →
     (∀ o is_batch,
        is_batch = true ∨ (is_dir w o = true ∧ path_suffix o = []) →
        parse_output_location w source_path (Some o) pattern is_batch
        = Ok (joinpath_str o (path_stem source_path ++ py ".md")))
     ∧ (∀ o, is_dir w o = false →
             parse_output_location w source_path (Some o) pattern false = Ok o)
     ∧ (∀ is_batch,
          parse_output_location w source_path None pattern is_batch
          = Ok (joinpath_str (path_parent source_path)
                  (path_stem source_path ++ py ".md")))).
Proof.
  split.
  - intros o Ho. unfold parse_output_location. simpl.
    by rewrite bool_decide_eq_false_2.
  - intros Hpat. split; [|split].
    + intros o is_batch [-> | [Hdir Hsuf]]; unfold parse_output_location.
      * simpl. rewrite orb_true_r. by destruct Hpat as [-> | ->].
      * rewrite Hsuf, Hdir. simpl. rewrite andb_false_r.
        by destruct Hpat as [-> | ->].
    + intros o Hdir. unfold parse_output_location. simpl. rewrite Hdir.
      destruct (bool_decide (path_suffix o = [])); simpl;
        by destruct Hpat as [-> | ->].
    + intros is_batch. unfold parse_output_location.
      by destruct Hpat as [-> | ->].
Qed.

Lemma parse_output_location_precedence_witness :
  parse_output_location example_world report_pdf
    (Some (parse_path (py "/out/result.md"))) None false
  = Ok (parse_path (py "/out/result.md"))
  ∧ parse_output_location example_world report_pdf
      (Some (parse_path (py "/out"))) None false
    = Ok (parse_path (py "/out/report.md"))
  ∧ parse_output_location example_world report_pdf
      (Some (parse_path (py "/elsewhere/notes"))) None false
    = Ok (parse_path (py "/elsewhere/notes"))
  ∧ parse_output_location example_world report_pdf None None true
    = Ok (parse_path (py "/docs/report.md")).
Proof.
  pose proof (parse_output_location_precedence example_world report_pdf None)
    as [Hfile Hrest].
  destruct (Hrest (or_introl eq_refl)) as (Hdir & Hplain & Hnone).
  split; [|split; [|split]].
  - apply Hfile. vm_compute. discriminate.
  - rewrite Hdir; [vm_compute; reflexivity|].
    right. split; vm_compute; reflexivity.
  - apply Hplain. vm_compute. reflexivity.
  - rewrite Hnone. vm_compute. reflexivity.
Defined.

(** C8: when the expanded pattern is a relative path and the template does
    not contain [{path}], the result is the expansion joined to the parent
    directory of the source: same root, the components of the parent, then
    those of the expansion. The pattern [.{filename}.md] applied to
    [/docs/report.pdf] gives [/docs/.report.md], wherever the program runs. *)
Theorem apply_relative_beside_source :
  (∀ (self : OutputPattern.t) (w : world) (source_path : Path)
     (base_dir : option Path),
     let expansion :=
       parse_path (OutputPattern.substitute
                     (OutputPattern.values w source_path (default (cwd w) base_dir))
                     (OutputPattern.pattern self)) in
     is_absolute expansion = false →
     contains (OutputPattern.pattern self) (py "{path}") = false →
     OutputPattern.apply self w source_path base_dir
     = joinpath (path_parent source_path) expansion
     ∧ root (OutputPattern.apply self w source_path base_dir) = root source_path
     ∧ parts (OutputPattern.apply self w source_path base_dir)
       = parts (path_parent source_path) ++ parts expansion)
  ∧ (∀ (w : world) (base_dir : option Path),
       OutputPattern.apply (OutputPattern.mk (py ".{filename}.md")) w
         (parse_path (py "/docs/report.pdf")) base_dir
       = parse_path (py "/docs/.report.md")).
Proof.
  split.
  - intros self w source_path base_dir expansion Hrel Hpath.
    assert (OutputPattern.apply self w source_path base_dir
            = joinpath (path_parent source_path) expansion) as Happ.
    { subst expansion. unfold OutputPattern.apply.
      destruct base_dir as [b|]; cbn [default from_option id] in Hrel |- *;
        by rewrite Hrel, Hpath. }
    rewrite Happ. unfold joinpath. rewrite Hrel. simpl.
    by rewrite root_path_parent.
  - intros w base_dir. destruct base_dir; vm_compute; reflexivity.
Qed.

Lemma apply_relative_beside_source_witness :
  OutputPattern.apply (OutputPattern.mk (py "converted/{filename}.md"))
    example_world report_pdf None
  = parse_path (py "/docs/converted/report.md").
Proof.
  destruct (proj1 apply_relative_beside_source
              (OutputPattern.mk (py "converted/{filename}.md"))
              example_world report_pdf None) as (H & _ & _).
  - vm_compute. reflexivity.
  - vm_compute. reflexivity.
  - rewrite H. vm_compute. reflexivity.
Defined.

(** ** Pattern validation *)

(** C4, as the claim states it, fails: the default template [{filename}.md]
    holds only a recognized placeholder, and applied to [/docs/{x}.pdf] it
    gives [/docs/{x}.md], where the token [{x}] remains. *)
Lemma apply_leaves_token_counterexample :
  (∀ name, placeholder_in name (py "{filename}.md") →
           name ∈ OutputPattern.valid_vars)
  ∧ OutputPattern.__init__ (py "{filename}.md")
    = Ok (OutputPattern.mk (py "{filename}.md"))
  ∧ placeholder_in (py "x")
      (path_str (OutputPattern.apply (OutputPattern.mk (py "{filename}.md"))
                   example_world (parse_path (py "/docs/{x}.pdf")) None)).
Proof.
  assert (OutputPattern.__init__ (py "{filename}.md")
          = Ok (OutputPattern.mk (py "{filename}.md"))) as Hinit
    by (vm_compute; reflexivity).
  split; [by apply init_ok_iff|]. split; [done|].
  split; [discriminate|]. split; [repeat constructor|].
  exists (py "/docs/"), (py ".md"). vm_compute. reflexivity.
Qed.

(** A brace around a recognized placeholder survives the substitution as
    well: [{{filename}}.md] is accepted and gives [/docs/{report}.md]. *)
Lemma apply_nested_braces :
  OutputPattern.__init__ (py "{{filename}}.md")
  = Ok (OutputPattern.mk (py "{{filename}}.md"))
  ∧ path_str (OutputPattern.apply (OutputPattern.mk (py "{{filename}}.md"))
                example_world report_pdf None)
    = py "/docs/{report}.md".
Proof. split; vm_compute; reflexivity. Qed.

(** C4 (amended): construction raises exactly when the template holds a
    token [{name}], [name] a non-empty run of word characters, that is not
    one of the ten recognized names; and a template in which every brace
    belongs to a recognized placeholder is accepted, and applied to a source
    path and a base directory without brace characters it gives a path
    without brace characters, so without any [{...}] token. *)
Theorem pattern_validation_and_expansion
    (template : str) (w : world) (source_path : Path) (base_dir : option Path) :
  ((∃ e, OutputPattern.__init__ template = Raise e) ↔
   (∃ name, placeholder_in name template ∧ name ∉ OutputPattern.valid_vars))
  ∧ (only_recognized template →
     path_brace_free source_path →
     path_brace_free (default (cwd w) base_dir) →
     OutputPattern.__init__ template = Ok (OutputPattern.mk template)
     ∧ brace_free (path_str (OutputPattern.apply (OutputPattern.mk template) w
                               source_path base_dir))
     ∧ ∀ name, ¬ placeholder_in name
                   (path_str (OutputPattern.apply (OutputPattern.mk template) w
                                source_path base_dir))).
Proof.
  split; [apply init_raises_iff|].
  intros Htemplate Hsrc Hbase.
  pose proof (apply_brace_free w template source_path base_dir
                Htemplate Hsrc Hbase) as Hfree.
  split; [by apply only_recognized_init|]. split; [done|].
  intros name. by apply brace_free_no_placeholder.
Qed.

Lemma pattern_validation_and_expansion_witness :
  only_recognized (py ".{filename}.md")
  ∧ path_brace_free report_pdf
  ∧ path_brace_free (cwd example_world)
  ∧ brace_free (path_str (OutputPattern.apply
                            (OutputPattern.mk (py ".{filename}.md"))
                            example_world report_pdf None)).
Proof.
  assert (only_recognized (py ".{filename}.md")) as H1.
  { exists [Lit (py "."); Var (py "filename"); Lit (py ".md")].
    split; [|reflexivity].
    repeat constructor; vm_compute; intros H; inversion H; subst;
      repeat match goal with
             | H : _ ∈ _ |- _ => inversion H; clear H; subst
             end. }
  assert (path_brace_free report_pdf) as H2.
  { apply parse_path_brace_free, brace_free_Forall.
    repeat constructor; discriminate. }
  assert (path_brace_free (cwd example_world)) as H3.
  { apply parse_path_brace_free, brace_free_Forall.
    repeat constructor; discriminate. }
  split; [done|]. split; [done|]. split; [done|].
  apply (pattern_validation_and_expansion (py ".{filename}.md") example_world
           report_pdf None); done.
Defined.

(** ** The conversion cache *)

Section metadata.
Context `{lib : PyLib}.







End metadata.

(** ** The monad *)

Lemma bind_Ok_inv {A B} (m : M A) (k : A → M B) (w w' : world) (b : B) :
  bind m k w = (Ok b, w') →
  ∃ a w1, m w = (Ok a, w1) ∧ k a w1 = (Ok b, w').
Proof.
  unfold bind. destruct (m w) as [[a|e] w1] eqn:Hm; [|done].
  intros H. by exists a, w1.
Qed.

Lemma same_files_refl (w : world) : same_files w w.
Proof. by repeat split. Qed.

Lemma same_files_trans (w1 w2 w3 : world) :
  same_files w1 w2 → same_files w2 w3 → same_files w1 w3.
Proof.
  intros (? & ? & ? & ? & ?) (? & ? & ? & ? & ?). repeat split; congruence.
Qed.

Lemma same_files_log (e : event) (w : world) : same_files w (log e w).
Proof. by repeat split. Qed.

(** What is read from the file system depends on the working directory and
    the files only. *)
Lemma absolute_ext (w w' : world) (p : Path) :
  cwd w' = cwd w → absolute w' p = absolute w p.
Proof. intros H. unfold absolute. by rewrite H. Qed.

Lemma lookup_path_ext (w w' : world) (p : Path) :
  cwd w' = cwd w → fs w' = fs w → lookup_path w' p = lookup_path w p.
Proof.
  intros Hc Hf. unfold lookup_path. by rewrite (absolute_ext w w' p Hc), Hf.
Qed.

Lemma path_exists_ext (w w' : world) (p : Path) :
  cwd w' = cwd w → fs w' = fs w → path_exists w' p = path_exists w p.
Proof. intros Hc Hf. unfold path_exists. by rewrite (lookup_path_ext w w'). Qed.

Lemma stat_mtime_ext (w w' : world) (p : Path) :
  cwd w' = cwd w → fs w' = fs w → stat_mtime w' p = stat_mtime w p.
Proof. intros Hc Hf. unfold stat_mtime. by rewrite (lookup_path_ext w w'). Qed.

Lemma is_dir_ext (w w' : world) (p : Path) :
  cwd w' = cwd w → fs w' = fs w → is_dir w' p = is_dir w p.
Proof. intros Hc Hf. unfold is_dir. by rewrite (lookup_path_ext w w'). Qed.

Section frames.
Context `{lib : PyLib}.

Lemma get_metadata_ext (w w' : world) (p : Path) :
  cwd w' = cwd w → metadata_dir w' = metadata_dir w →
  ConversionMetadata.get_metadata w' p = ConversionMetadata.get_metadata w p.
Proof.
  intros Hc Hm.
  unfold ConversionMetadata.get_metadata, ConversionMetadata._get_metadata_path.
  by rewrite (absolute_ext w w' p Hc), Hm.
Qed.

Lemma metadata_needs_conversion_ext (w w' : world) (s o : Path) :
  same_files w w' →
  ConversionMetadata.needs_conversion w' s o
  = ConversionMetadata.needs_conversion w s o.
Proof.
  intros (Hc & Hf & Hm & _). unfold ConversionMetadata.needs_conversion.
  by rewrite (path_exists_ext w w' o Hc Hf), (get_metadata_ext w w' s Hc Hm),
    (stat_mtime_ext w w' s Hc Hf).
Qed.

Lemma needs_conversion_ext (self : DocumentConverter.t) (w w' : world)
    (s o : Path) (force : bool) :
  same_files w w' →
  DocumentConverter.needs_conversion self w' s o force
  = DocumentConverter.needs_conversion self w s o force.
Proof.
  intros H. unfold DocumentConverter.needs_conversion.
  rewrite (metadata_needs_conversion_ext w w' s o H).
  destruct H as (Hc & Hf & _). by rewrite (path_exists_ext w w' o Hc Hf).
Qed.

Lemma trace_only_ret {A} (a : A) : trace_only (ret a).
Proof. intros w r w' [= <- <-]. apply same_files_refl. Qed.

Lemma trace_only_raise {A} (e : exn) : trace_only (@raise A e).
Proof. intros w r w' [= <- <-]. apply same_files_refl. Qed.

Lemma trace_only_lift {A} (x : result A) : trace_only (lift x).
Proof. intros w r w' [= <- <-]. apply same_files_refl. Qed.

Lemma trace_only_ask {A} (f : world → result A) : trace_only (ask f).
Proof. intros w r w' [= <- <-]. apply same_files_refl. Qed.

Lemma trace_only_read {A} (f : world → A) : trace_only (read f).
Proof. intros w r w' [= <- <-]. apply same_files_refl. Qed.

Lemma trace_only_emit (e : event) : trace_only (emit e).
Proof. intros w r w' [= <- <-]. apply same_files_log. Qed.

Lemma trace_only_console_print (msg : str) : trace_only (console_print msg).
Proof. apply trace_only_emit. Qed.

Lemma trace_only_bind {A B} (m : M A) (k : A → M B) :
  trace_only m → (∀ a, trace_only (k a)) → trace_only (bind m k).
Proof.
  intros Hm Hk w r w'. unfold bind.
  destruct (m w) as [[a|e] w1] eqn:Hmw.
  - intros H. eapply same_files_trans; [by eapply Hm | by eapply Hk].
  - intros [= <- <-]. by eapply Hm.
Qed.

Lemma trace_only_try_except {A} (m : M A) (classes : exn → bool)
    (h : exn → M A) :
  trace_only m → (∀ e, trace_only (h e)) → trace_only (try_except m classes h).
Proof.
  intros Hm Hh w r w'. unfold try_except.
  destruct (m w) as [[a|e] w1] eqn:Hmw.
  - intros [= <- <-]. by eapply Hm.
  - destruct (classes e).
    + intros H. eapply same_files_trans; [by eapply Hm | by eapply Hh].
    + intros [= <- <-]. by eapply Hm.
Qed.

Ltac trace_only :=
  repeat first
    [ apply trace_only_ret | apply trace_only_raise | apply trace_only_lift
    | apply trace_only_ask | apply trace_only_read | apply trace_only_emit
    | apply trace_only_console_print
    | apply trace_only_bind; [|intros ?]
    | apply trace_only_try_except; [|intros ?] ].


End frames.

(** After a successful [write_text] the file is there, with the text. *)
Lemma write_text_Ok (p : Path) (text : str) (w w' : world) :
  write_text p text w = (Ok tt, w') →
  cwd w' = cwd w ∧ metadata_dir w' = metadata_dir w
  ∧ lookup_path w' p = Some (File text (epoch w)).
Proof.
  unfold write_text. destruct (negb _); [done|].
  unfold lookup_path at 1.
  destruct (parts (absolute w p)) eqn:Hparts.
  { intros [=]. }
  destruct (fs w !! path_str (absolute w p)) as [[c t|t]|] eqn:Hl;
    intros [= <-]; (split; [done|]); (split; [done|]);
    unfold lookup_path;
    match goal with
    | |- context [absolute ?w1 p] => change (absolute w1 p) with (absolute w p)
    end;
    rewrite Hparts; simpl; by rewrite lookup_insert_eq.
Qed.

Section save.
Context `{lib : PyLib}.

(** What [save_metadata] leaves: the files as they were, and under the key
    of the source a record that stores the modification time the source has
    now. *)
Lemma save_metadata_Ok (source_path output_path : Path) (hash : option str)
    (w w' : world) (metadata : json) :
  ConversionMetadata.save_metadata source_path output_path hash w
  = (Ok metadata, w') →
  cwd w' = cwd w ∧ fs w' = fs w
  ∧ metadata_dir w'
    = <[ConversionMetadata._get_metadata_path w source_path := Json metadata]>
        (metadata_dir w)
  ∧ truthy metadata = true
  ∧ ∃ t, stat_mtime w source_path = Ok t ∧ stored_mtime metadata = Ok t.
Proof.
  unfold ConversionMetadata.save_metadata. intros H.
  apply bind_Ok_inv in H as (src & w1 & [= <- <-] & H).
  apply bind_Ok_inv in H as (out & w1 & [= <- <-] & H).
  apply bind_Ok_inv in H as (t & w1 & Hstat & H).
  unfold ask in Hstat. injection Hstat as Hstat <-.
  apply bind_Ok_inv in H as (h & w1 & Hh & H).
  assert (w1 = w) as ->.
  { destruct hash as [[|c h']|]; by inversion Hh. }
  apply bind_Ok_inv in H as (converted_at & w1 & [= <- <-] & H).
  apply bind_Ok_inv in H as (metadata_path & w1 & [= <- <-] & H).
  apply bind_Ok_inv in H as ([] & w1 & [= <-] & H).
  apply bind_Ok_inv in H as ([] & w2 & [= <-] & H).
  injection H as <- <-.
  repeat split; try done. by exists t.
Qed.

End save.

Section after_convert.
Context `{lib : PyLib}.


End after_convert.

Section needs_conversion.
Context `{lib : PyLib}.


End needs_conversion.


(** ** Single conversion *)

Section convert.
Context `{lib : PyLib}.


(** C2: when the check on the source and the resolved output says "up to
    date", [convert] with [force=False] returns the text of the output file
    and does nothing but print the skip line: no processor is asked for
    content, no completion is requested, no file and no record is written.
    The files and the records are as before, so a second conversion does the
    same; the batch job returns a [skipped] result and changes nothing. *)
Theorem convert_up_to_date_is_skipped
    (self : DocumentConverter.t) (source_path : Path) (output : option source)
    (pattern custom_prompt : option str) (w : world) (output_path : Path)
    (text : str) (mtime : Q) :
  parse_output_location w source_path (DocumentConverter.as_path <$> output)
    pattern false = Ok output_path →
  DocumentConverter.needs_conversion self w source_path output_path false
  = Ok false →
  lookup_path w output_path = Some (File text mtime) →
  let w' := log (EPrint (skip_message source_path)) w in
  DocumentConverter.convert self (SrcPath source_path) output pattern
    custom_prompt false w = (Ok text, w')
  ∧ fs w' = fs w ∧ metadata_dir w' = metadata_dir w
  ∧ trace w' = trace w ++ [EPrint (skip_message source_path)]
  ∧ read_text w' output_path = Ok text
  ∧ DocumentConverter.convert self (SrcPath source_path) output pattern
      custom_prompt false w'
    = (Ok text, log (EPrint (skip_message source_path)) w')
  ∧ ∀ (async : AsyncDocumentConverter.t) (output_dir : option Path) batch_path,
      AsyncDocumentConverter.converter async = self →
      parse_output_location w source_path output_dir pattern true
      = Ok batch_path →
      DocumentConverter.needs_conversion self w source_path batch_path false
      = Ok false →
      AsyncDocumentConverter.convert_file_async async source_path output_dir
        pattern custom_prompt false w
      = (Ok (AsyncDocumentConverter.mkResult (py "skipped")
               (path_str source_path) (Some (path_str batch_path)) None None),
         w).
Proof.
  intros HO Hneeded Hfile w'.
  assert (∀ w0, same_files w w0 →
                DocumentConverter.convert self (SrcPath source_path) output
                  pattern custom_prompt false w0
                = (Ok text, log (EPrint (skip_message source_path)) w0))
    as Hskip.
  { intros w0 Hsame. pose proof Hsame as (Hc & Hf & Hm & Hn & He).
    unfold DocumentConverter.convert, bind, ask, ret, console_print, emit, update.
    assert (parse_output_location w0 source_path
              (DocumentConverter.as_path <$> output) pattern false
            = Ok output_path) as ->.
    { rewrite <- HO. unfold parse_output_location, OutputPattern.apply,
        OutputPattern.values.
      rewrite Hc, Hn.
      destruct (DocumentConverter.as_path <$> output) as [o|]; [|done].
      by rewrite (is_dir_ext w w0 o Hc Hf). }
    rewrite (needs_conversion_ext self w w0 _ _ false Hsame), Hneeded.
    cbn [negb]. unfold read_text.
    change (lookup_path (log _ w0) output_path) with (lookup_path w0 output_path).
    by rewrite (lookup_path_ext w w0 output_path Hc Hf), Hfile. }
  split; [apply Hskip, same_files_refl|].
  split; [done|]. split; [done|]. split; [done|].
  split.
  { unfold read_text.
    change (lookup_path w' output_path) with (lookup_path w output_path).
    by rewrite Hfile. }
  split; [apply Hskip, same_files_log|].
  intros async output_dir batch_path Hself HB Hbatch. subst self.
  unfold AsyncDocumentConverter.convert_file_async,
    AsyncDocumentConverter.convert_file_try, try_except, bind, ask, ret.
  by rewrite HB, Hbatch.
Qed.

(** C10: for a source given as a string that starts with [http://] or
    [https://] and no output path, [convert] raises [ValueError("Output path
    required for URL sources")] and leaves the world as it was, trace
    included: no processor has been asked, nothing fetched, nothing written.
    An empty string as output path counts as none. *)
Theorem convert_url_requires_output
    (self : DocumentConverter.t) (url : str) (output : option source)
    (pattern custom_prompt : option str) (force : bool) (w : world) :
  DocumentConverter.is_url url = true →
  output = None ∨ output = Some (SrcStr []) →
  DocumentConverter.convert self (SrcStr url) output pattern custom_prompt
    force w
  = (Raise (ValueError (py "Output path required for URL sources")), w).
Proof.
  intros Hurl Hout. unfold DocumentConverter.convert. rewrite Hurl. cbn [negb].
  by destruct Hout as [-> | ->].
Qed.

End convert.

Lemma convert_up_to_date_is_skipped_witness :
  let w1 := (@DocumentConverter.convert example_lib example_converter
               (SrcPath report_pdf) None None None false example_world).2 in
  @DocumentConverter.convert example_lib example_converter (SrcPath report_pdf)
    None None None false w1
  = (Ok (py "# Report"), log (EPrint (skip_message report_pdf)) w1).
Proof.
  intros w1.
  apply (@convert_up_to_date_is_skipped example_lib example_converter
           report_pdf None None None w1 report_md (py "# Report") 1000%Q).
  - vm_compute. reflexivity.
  - vm_compute. reflexivity.
  - vm_compute. reflexivity.
Defined.

Lemma convert_url_requires_output_witness :
  @DocumentConverter.convert example_lib example_converter
    (SrcStr (py "https://docs.google.com/document/d/abc")) None None None false
    example_world
  = (Raise (ValueError (py "Output path required for URL sources")),
     example_world).
Proof.
  apply (@convert_url_requires_output example_lib).
  - vm_compute. reflexivity.
  - left. reflexivity.
Defined.

(** ** The extraction call *)

Section extraction.
Context `{lib : PyLib}.

(** Where the code falls back: a response that is not JSON, and a JSON
    object without the field. The stripped text is returned and a warning is
    printed. *)
Lemma extraction_falls_back (self : DocumentConverter.t) (images : list str)
    (filename : str) (custom_prompt : option str) (w : world) (text : str) :
  DocumentConverter.completion self (DocumentConverter.model self)
    DocumentConverter.system_prompt (user_prompt filename custom_prompt) images
  = Ok (Some text) →
  (json_loads text = None →
   DocumentConverter._convert_with_llm self images filename custom_prompt w
   = (Ok (strip text),
      log (EPrint (warning_message JSONDecodeError))
        (log (ECompletion (user_prompt filename custom_prompt) images) w)))
  ∧ (∀ items,
       json_loads text = Some (JObj items) →
       dict_find items (py "markdown_content") = None →
       DocumentConverter._convert_with_llm self images filename custom_prompt w
       = (Ok (strip text),
          log (EPrint (warning_message (KeyError (py "markdown_content"))))
            (log (ECompletion (user_prompt filename custom_prompt) images) w))).
Proof.
  intros Hresp. split.
  - intros Hjson.
    unfold DocumentConverter._convert_with_llm, try_except, bind, emit, update,
      lift, console_print, emit, update.
    fold (user_prompt filename custom_prompt). rewrite Hresp.
    unfold DocumentConverter.loads. by rewrite Hjson.
  - intros items Hjson Hfind.
    unfold DocumentConverter._convert_with_llm, try_except, bind, emit, update,
      lift, console_print, emit, update.
    fold (user_prompt filename custom_prompt). rewrite Hresp.
    unfold DocumentConverter.loads, DocumentConverter.subscript.
    by rewrite Hjson, Hfind.
Qed.

(** C9, where the code departs from it: a response that is valid JSON but
    not an object (an array, a string, a number, [null]) makes
    [result["markdown_content"]] raise [TypeError], which the [except
    (json.JSONDecodeError, KeyError)] does not catch; the error is printed
    and raised again, although the response text is there. *)
Theorem extraction_raises_on_non_object
    (self : DocumentConverter.t) (images : list str) (filename : str)
    (custom_prompt : option str) (w : world) (text : str) (v : json) :
  DocumentConverter.completion self (DocumentConverter.model self)
    DocumentConverter.system_prompt (user_prompt filename custom_prompt) images
  = Ok (Some text) →
  json_loads text = Some v →
  (∀ items, v ≠ JObj items) →
  ∃ msg,
    DocumentConverter._convert_with_llm self images filename custom_prompt w
    = (Raise (TypeError msg),
       log (EPrint (error_message (TypeError msg)))
         (log (ECompletion (user_prompt filename custom_prompt) images) w)).
Proof.
  intros Hresp Hjson Hv.
  unfold DocumentConverter._convert_with_llm, try_except, bind, emit, update,
    lift, console_print, emit, update, raise.
  fold (user_prompt filename custom_prompt). rewrite Hresp.
  unfold DocumentConverter.loads. rewrite Hjson.
  destruct v; try (eexists; reflexivity).
  exfalso. by eapply Hv.
Qed.

(** A field that is there but is not a string fails as well, with the
    [AttributeError] of [strip]. *)
Lemma extraction_raises_on_non_string_field
    (self : DocumentConverter.t) (images : list str) (filename : str)
    (custom_prompt : option str) (w : world) (text : str)
    (items : list (str * json)) (x : json) :
  DocumentConverter.completion self (DocumentConverter.model self)
    DocumentConverter.system_prompt (user_prompt filename custom_prompt) images
  = Ok (Some text) →
  json_loads text = Some (JObj items) →
  dict_find items (py "markdown_content") = Some x →
  (∀ s, x ≠ JStr s) →
  ∃ msg w',
    DocumentConverter._convert_with_llm self images filename custom_prompt w
    = (Raise (AttributeError msg), w').
Proof.
  intros Hresp Hjson Hfind Hx.
  unfold DocumentConverter._convert_with_llm, try_except, bind, emit, update,
    lift, console_print, emit, update, raise.
  fold (user_prompt filename custom_prompt). rewrite Hresp.
  unfold DocumentConverter.loads, DocumentConverter.subscript.
  rewrite Hjson, Hfind.
  destruct x; try (eexists _, _; reflexivity).
  exfalso. by eapply Hx.
Qed.

End extraction.

Lemma extraction_raises_on_non_object_witness :
  ∃ msg w1 w2,
    @DocumentConverter._convert_with_llm example_lib array_converter
      [py "page-1"] (py "report.pdf") None example_world
    = (Raise (TypeError msg), w1)
    ∧ @AsyncDocumentConverter.convert_file_async example_lib
        (AsyncDocumentConverter.mk array_converter 4) report_pdf None None None
        false example_world
      = (Ok (AsyncDocumentConverter.mkResult (py "failed")
               (path_str report_pdf) None None (Some msg)),
         w2).
Proof.
  destruct (@extraction_raises_on_non_object example_lib array_converter
              [py "page-1"] (py "report.pdf") None example_world (py "[1]")
              (JArr [JNum 1%Q])) as [msg Hmsg].
  - reflexivity.
  - vm_compute. reflexivity.
  - intros items. discriminate.
  - exists msg. eexists. eexists. split; [exact Hmsg|].
    revert Hmsg. vm_compute. intros [= <-]. reflexivity.
Defined.

(** ** Batch conversion *)

Section batch.
Context `{lib : PyLib}.




(** Every path that [rglob] lists is below the directory. *)
Lemma rglob_relative (w : world) (directory file_path : Path) :
  file_path ∈ AsyncDocumentConverter.rglob w directory →
  ∃ rel, relative_to file_path directory = Some rel.
Proof.
  unfold AsyncDocumentConverter.rglob. intros H.
  apply list_elem_of_omap in H as (key & _ & H).
  destruct (relative_to (parse_path key) (absolute w directory)) as [rel|] eqn:Hrel;
    [|done].
  destruct (parts rel) eqn:Hparts; [done|]. injection H as <-.
  unfold relative_to in Hrel. destruct (_ && _); [|done]. injection Hrel as <-.
  unfold joinpath, is_absolute. simpl.
  unfold relative_to. simpl.
  rewrite take_app_length, !bool_decide_eq_true_2 by done. simpl. eauto.
Qed.

Lemma discover_total (w : world) (directory : Path) (include exclude : list str)
    (candidates : list Path) :
  (∀ f, f ∈ candidates → ∃ rel, relative_to f directory = Some rel) →
  ∃ files, AsyncDocumentConverter.discover w directory include exclude candidates
           = Ok files.
Proof.
  induction candidates as [|f candidates IH]; intros Hrel; [by exists []|].
  destruct IH as [files Hfiles].
  { intros g Hg. apply Hrel. by apply elem_of_cons; right. }
  simpl. destruct (negb (is_file w f)); [by exists files|].
  destruct (Hrel f) as [rel ->]; [by apply elem_of_cons; left|].
  destruct (negb _); [by exists files|].
  destruct (existsb _ exclude); [by exists files|].
  rewrite Hfiles. by eexists.
Qed.

End batch.

Section summary.
Context `{lib : PyLib}.



End summary.


Section semaphore.
Import Semaphore.

Lemma count_phase_insert (l : list phase) (i : nat) (p p' q : phase) :
  l !! i = Some p →
  length (List.filter (fun x => bool_decide (x = q)) (<[i := p']> l))
  + (if bool_decide (p = q) then 1 else 0)
  = length (List.filter (fun x => bool_decide (x = q)) l)
    + (if bool_decide (p' = q) then 1 else 0).
Proof.
  revert i. induction l as [|x l IH]; intros i Hi; [done|].
  destruct i as [|i]; simpl in *.
  - injection Hi as ->.
    destruct (bool_decide (p = q)), (bool_decide (p' = q)); simpl; lia.
  - specialize (IH i Hi).
    destruct (bool_decide (x = q)); simpl; lia.
Qed.

Lemma count_update (s : state) (v : nat) (i : nat) (p p' q : phase) :
  jobs s !! i = Some p →
  count q (mkState v (<[i := p']> (jobs s)))
  + (if bool_decide (p = q) then 1 else 0)
  = count q s + (if bool_decide (p' = q) then 1 else 0).
Proof. apply count_phase_insert. Qed.

Lemma invariant_init (max_workers files : nat) :
  invariant max_workers files (init max_workers files).
Proof.
  unfold invariant, holding, count, init. simpl.
  rewrite length_replicate. split; [|done].
  induction files as [|n IH]; simpl; lia.
Qed.

Lemma invariant_step (max_workers files : nat) (s s' : state) :
  invariant max_workers files s → step s s' → invariant max_workers files s'.
Proof.
  intros [Hval Hlen] Hstep. unfold invariant, holding in *.
  destruct Hstep as [s i Hi Hpos | s i Hi | s i Hi | s i Hi | s i Hi | s i Hi];
    (split; [|cbn [jobs]; by rewrite length_insert]);
    match goal with
    | |- context [mkState ?v (<[i := ?p']> (jobs s))] =>
        pose proof (count_update s v i _ p' Checking Hi) as Hc;
        pose proof (count_update s v i _ p' Rendering Hi) as Hr
    end;
    simpl in Hc, Hr |- *; lia.
Qed.

Lemma invariant_reachable (max_workers files : nat) (s : state) :
  reachable max_workers files s → invariant max_workers files s.
Proof.
  unfold reachable. revert s.
  apply (rtc_ind_r (R := step) (invariant max_workers files)
           (init max_workers files)); [apply invariant_init|].
  intros y z _ Hstep Hinv. by eapply invariant_step.
Qed.

(** Starting a check takes a free slot. *)
Lemma can_check_needs_slot (s : state) (i : nat) : can_check s i → 0 < value s.
Proof.
  intros (Hq & s' & Hstep & Hc).
  destruct Hstep as [s j Hj Hpos | s j Hj | s j Hj | s j Hj | s j Hj | s j Hj];
    [done|..]; simpl in Hc;
    (destruct (decide (i = j)) as [-> | Hne];
     [congruence | rewrite list_lookup_insert_ne in Hc by done; congruence]).
Qed.

Lemma two_rendering_reachable : reachable 2 10 two_rendering.
Proof.
  unfold reachable.
  eapply rtc_l; [apply (acquire (init 2 10) 0); [reflexivity | simpl; lia]|].
  eapply rtc_l; [apply (submit _ 0); reflexivity|].
  eapply rtc_l; [apply (acquire _ 1); [reflexivity | simpl; lia]|].
  eapply rtc_l; [apply (submit _ 1); reflexivity|].
  apply rtc_refl.
Qed.

(** C6, as the claim states it, fails in its second half: with two workers
    and ten files, once two jobs are rendering the third job cannot start
    its up-to-date check, because the check is inside [async with
    semaphore]. *)
Lemma checks_are_throttled_counterexample :
  reachable 2 10 two_rendering
  ∧ rendering two_rendering = 2
  ∧ jobs two_rendering !! 2 = Some Queued
  ∧ ¬ can_check two_rendering 2
  ∧ ¬ checks_unthrottled 2 10.
Proof.
  assert (¬ can_check two_rendering 2) as Hno.
  { intros H. apply can_check_needs_slot in H. simpl in H. lia. }
  split; [apply two_rendering_reachable|]. split; [reflexivity|].
  split; [reflexivity|]. split; [exact Hno|].
  intros H. apply Hno, H; [apply two_rendering_reachable | reflexivity].
Qed.

(** C6 (amended): in every state of a run with [max_workers] workers, at
    most [max_workers] jobs are in their rendering and extraction phase;
    the jobs that hold a slot, checking or rendering, and the free slots
    are [max_workers] together; and a job can start its up-to-date check
    only when a slot is free, that is when fewer than [max_workers] jobs are
    checking or rendering. *)
Theorem semaphore_bounds_rendering (max_workers files : nat) (s : state) :
  reachable max_workers files s →
  rendering s ≤ max_workers
  ∧ value s + count Checking s + count Rendering s = max_workers
  ∧ length (jobs s) = files
  ∧ ∀ i, can_check s i → 0 < value s ∧ holding s < max_workers.
Proof.
  intros Hreach. apply invariant_reachable in Hreach as [Hval Hlen].
  unfold holding, rendering in *.
  split; [lia|]. split; [lia|]. split; [done|].
  intros i Hi. apply can_check_needs_slot in Hi. lia.
Qed.

Lemma semaphore_bounds_rendering_witness :
  reachable 2 10 two_rendering ∧ rendering two_rendering ≤ 2.
Proof.
  split; [apply two_rendering_reachable|].
  apply (semaphore_bounds_rendering 2 10 two_rendering two_rendering_reachable).
Defined.

End semaphore.

(** ** Cleaning the cache *)

Section clean.
Context `{lib : PyLib}.

(** One round of the loop on a well-typed record: the file is unlinked and
    counted exactly when [removes] says so. *)
Lemma clean_step_spec (older_than_days : option Z) (now_ : datetime)
    (name : str) (count : nat) (w : world) (mf : mfile) :
  metadata_dir w !! name = Some mf →
  well_typed now_ mf →
  ConversionMetadata.clean_step older_than_days now_ name count w
  = if removes w (ConversionMetadata.threshold older_than_days) now_ mf
    then (Ok (S count), set_metadata_dir (delete name) w)
    else (Ok count, w).
Proof.
  intros Hname Htyped.
  unfold ConversionMetadata.clean_step, ConversionMetadata.clean_one,
    try_except, bind, ConversionMetadata.load, ConversionMetadata.unlink,
    lift, read, ret.
  rewrite Hname.
  destruct mf as [| | v]; [simpl; by rewrite Hname | simpl; by rewrite Hname |].
  destruct Htyped as [[src Hsrc] (ca & Hca & Htz)].
  destruct v as [| | | | |items]; try discriminate Hsrc.
  assert (dict_get items (py "source") (JStr []) = JStr src) as Hsrc'
    by (unfold record_source in Hsrc; congruence).
  assert (dict_get items (py "converted_at") (JStr []) = JStr ca) as Hca'
    by (unfold record_converted_at in Hca; congruence).
  clear Hsrc Hca. rename Hsrc' into Hsrc. rename Hca' into Hca.
  unfold removes, record_source, record_converted_at, json_get,
    ConversionMetadata.expect_str.
  rewrite Hsrc. cbn beta iota.
  destruct (path_exists w (parse_path src)); cbn [negb]; [|by rewrite Hname].
  destruct (ConversionMetadata.threshold older_than_days) as [d|]; [|done].
  rewrite Hca. cbn beta iota.
  destruct (fromisoformat ca) as [t|] eqn:Hparse; [|by rewrite Hname].
  unfold sub_days. rewrite (Htz t eq_refl), Bool.eqb_reflx. cbn beta iota.
  destruct (_ <? _)%Z; [by rewrite Hname | done].
Qed.

(** [removes] decides [should_remove]. *)
Lemma removes_spec (w : world) (in_force : option Z) (now_ : datetime)
    (mf : mfile) :
  well_typed now_ mf →
  removes w in_force now_ mf = true ↔ should_remove w in_force now_ mf.
Proof.
  intros Htyped. unfold should_remove, source_gone, corrupted, too_old.
  destruct mf as [| | v].
  - split; [intros _; right; left; by left | done].
  - split; [intros _; right; left; right; by left | done].
  - destruct Htyped as [[src Hsrc] (ca & Hca & Htz)].
    unfold removes. rewrite Hsrc, Hca.
    destruct (path_exists w (parse_path src)) eqn:Hex; cbn [negb].
    2:{ split; [intros _; left; by exists src | done]. }
    destruct in_force as [d|].
    2:{ split; [done|].
        intros [(src' & Hsrc' & Hgone) | [[? | [? | (d & ? & ? & _)]]
                                         | (d & ? & ? & ? & ? & _)]];
          try done.
        injection Hsrc' as <-. congruence. }
    destruct (fromisoformat ca) as [t|] eqn:Hparse.
    2:{ split; [|done]. intros _. right; left; right; right.
        by exists d, ca. }
    unfold sub_days. rewrite (Htz t eq_refl), Bool.eqb_reflx.
    split.
    + intros Hlt. apply Z.ltb_lt in Hlt. right; right.
      exists d, ca, t, ((to_microseconds now_ - to_microseconds t) / 86400000000)%Z.
      unfold sub_days. by rewrite (Htz t eq_refl), Bool.eqb_reflx.
    + intros [(src' & Hsrc' & Hgone) | [[? | [? | (d' & ca' & Hd & Hca' & Hnone)]]
                                       | (d' & ca' & t' & age & Hd & Hca' & Ht' & Hage & Hlt)]];
        try done.
      * injection Hsrc' as <-. congruence.
      * injection Hca' as <-. congruence.
      * injection Hca' as <-.
        rewrite Hparse in Ht'. injection Ht' as <-. injection Hd as <-.
        unfold sub_days in Hage.
        rewrite (Htz t eq_refl), Bool.eqb_reflx in Hage. injection Hage as <-.
        by apply Z.ltb_lt.
Qed.

End clean.

Section clean_loop.
Context `{lib : PyLib}.

Lemma removes_ext (w w' : world) (in_force : option Z) (now_ : datetime)
    (mf : mfile) :
  cwd w' = cwd w → fs w' = fs w →
  removes w' in_force now_ mf = removes w in_force now_ mf.
Proof.
  intros Hc Hf. unfold removes. destruct mf as [| | v]; [done..|].
  destruct (record_source (Json v)) as [[| | |src| |]|]; try done.
  by rewrite (path_exists_ext w w' _ Hc Hf).
Qed.

(** The loop over distinct, well-typed records: the files that [removed]
    marks are unlinked and counted, the others stay. *)
Lemma clean_loop_spec (older_than_days : option Z) (now_ : datetime)
    (names : list str) :
  ∀ (count : nat) (w : world),
    NoDup names →
    (∀ name, name ∈ names →
             ∃ mf, metadata_dir w !! name = Some mf ∧ well_typed now_ mf) →
    ∃ w',
      ConversionMetadata.clean_loop older_than_days now_ names count w
      = (Ok (count
             + length (List.filter
                         (removed w (ConversionMetadata.threshold older_than_days) now_)
                         names)), w')
      ∧ cwd w' = cwd w ∧ fs w' = fs w
      ∧ size (metadata_dir w')
        + length (List.filter
                    (removed w (ConversionMetadata.threshold older_than_days) now_)
                    names)
        = size (metadata_dir w)
      ∧ ∀ name,
          metadata_dir w' !! name
          = if bool_decide (name ∈ names)
               && removed w (ConversionMetadata.threshold older_than_days) now_ name
            then None else metadata_dir w !! name.
Proof.
  set (D := ConversionMetadata.threshold older_than_days).
  induction names as [|name rest IH]; intros count w Hnodup Hall.
  - exists w. simpl. rewrite !Nat.add_0_r. by repeat split.
  - apply NoDup_cons in Hnodup as [Hfresh Hnodup].
    destruct (Hall name) as (mf & Hname & Htyped); [by apply elem_of_cons; left|].
    pose proof (clean_step_spec older_than_days now_ name count w mf Hname Htyped)
      as Hstep.
    fold D in Hstep.
    assert (removed w D now_ name = removes w D now_ mf) as Hremoved
      by (unfold removed; by rewrite Hname).
    cbn [ConversionMetadata.clean_loop List.filter]. unfold bind at 1.
    rewrite Hstep, Hremoved.
    destruct (removes w D now_ mf) eqn:Hrem.
    + (* the file is unlinked *)
      set (w1 := set_metadata_dir (delete name) w).
      assert (∀ n, n ∈ rest → removed w1 D now_ n = removed w D now_ n) as Hsame.
      { intros n Hn. unfold removed, w1. cbn [metadata_dir set_metadata_dir].
        rewrite lookup_delete_ne by (intros ->; done).
        destruct (metadata_dir w !! n); [|done]. by apply removes_ext. }
      destruct (IH (S count) w1 Hnodup) as (w' & Hrun & Hc & Hf & Hsize & Hlook).
      { intros n Hn. destruct (Hall n) as (mf' & Hn' & Ht'); [by apply elem_of_cons; right|].
        exists mf'. split; [|done]. unfold w1. cbn [metadata_dir set_metadata_dir].
        rewrite lookup_delete_ne by (intros ->; done). done. }
      rewrite (filter_ext_in _ (removed w D now_) rest) in Hrun, Hsize
        by (intros n Hn; apply Hsame; by apply list_elem_of_In).
      exists w'. split; [rewrite Hrun; f_equal; f_equal; cbn [length]; lia|].
      split; [done|]. split; [done|]. split.
      { cbn [length]. unfold w1 in Hsize. cbn [metadata_dir set_metadata_dir] in Hsize.
        rewrite map_size_delete_Some in Hsize by eauto.
        assert (0 < size (metadata_dir w)).
        { destruct (decide (size (metadata_dir w) = 0)) as [Hz|]; [|lia].
          apply map_size_empty_iff in Hz. rewrite Hz, lookup_empty in Hname. done. }
        lia. }
      intros n. rewrite (Hlook n). unfold w1. cbn [metadata_dir set_metadata_dir].
      destruct (decide (n = name)) as [-> | Hne].
      * rewrite (bool_decide_eq_false_2 (name ∈ rest)) by done.
        rewrite (bool_decide_eq_true_2 (name ∈ name :: rest)) by (apply elem_of_cons; by left).
        cbn [andb]. by rewrite lookup_delete_eq, Hremoved.
      * rewrite lookup_delete_ne by done.
        destruct (bool_decide (n ∈ rest)) eqn:Hin.
        -- apply bool_decide_eq_true in Hin.
           rewrite (bool_decide_eq_true_2 (n ∈ name :: rest)) by (apply elem_of_cons; by right).
           by rewrite Hsame.
        -- apply bool_decide_eq_false in Hin.
           rewrite (bool_decide_eq_false_2 (n ∈ name :: rest)); [done|].
           rewrite elem_of_cons. intros [? | ?]; done.
    + (* the file stays *)
      destruct (IH count w Hnodup) as (w' & Hrun & Hc & Hf & Hsize & Hlook).
      { intros n Hn. apply Hall. by apply elem_of_cons; right. }
      exists w'. split; [done|]. split; [done|]. split; [done|]. split; [done|].
      intros n. rewrite (Hlook n).
      destruct (decide (n = name)) as [-> | Hne].
      * rewrite Hremoved, !andb_false_r. done.
      * destruct (bool_decide (n ∈ rest)) eqn:Hin.
        -- apply bool_decide_eq_true in Hin.
           by rewrite (bool_decide_eq_true_2 (n ∈ name :: rest))
             by (apply elem_of_cons; by right).
        -- apply bool_decide_eq_false in Hin.
           rewrite (bool_decide_eq_false_2 (n ∈ name :: rest)); [done|].
           rewrite elem_of_cons. intros [? | ?]; done.
Qed.

End clean_loop.

Lemma NoDup_list_filter {A} (f : A → bool) (l : list A) :
  NoDup l → NoDup (List.filter f l).
Proof.
  induction 1 as [|x l Hx Hl IH]; [constructor|].
  simpl. destruct (f x); [|done].
  constructor; [|done]. intros Hin. apply Hx.
  apply list_elem_of_In, filter_In in Hin as [Hin _]. by apply list_elem_of_In.
Qed.

Section clean_metadata.
Context `{lib : PyLib}.

(** On a directory of well-typed records, [clean_metadata] removes the
    records whose source is gone, those that cannot be read or parsed, and,
    with a threshold in force, those whose age in whole days exceeds it; it
    leaves every other file, and returns the number of files removed. *)
Lemma clean_metadata_spec (older_than_days : option Z) (w : world) :
  (∀ name mf, metadata_dir w !! name = Some mf → is_record name = true →
              well_typed (now w) mf) →
  ∃ n w',
    ConversionMetadata.clean_metadata older_than_days w = (Ok n, w')
    ∧ fs w' = fs w
    ∧ size (metadata_dir w') + n = size (metadata_dir w)
    ∧ ∀ name mf,
        metadata_dir w !! name = Some mf →
        (is_record name = true
         ∧ should_remove w (ConversionMetadata.threshold older_than_days)
             (now w) mf →
         metadata_dir w' !! name = None)
        ∧ (¬ (is_record name = true
              ∧ should_remove w (ConversionMetadata.threshold older_than_days)
                  (now w) mf) →
           metadata_dir w' !! name = Some mf).
Proof.
  intros Htyped.
  set (D := ConversionMetadata.threshold older_than_days).
  assert (NoDup (ConversionMetadata.glob_json w)) as Hnodup.
  { unfold ConversionMetadata.glob_json. apply NoDup_list_filter.
    apply NoDup_fst_map_to_list. }
  assert (∀ name, name ∈ ConversionMetadata.glob_json w ↔
                  is_record name = true ∧ is_Some (metadata_dir w !! name))
    as Hglob.
  { intros name. unfold ConversionMetadata.glob_json.
    rewrite list_elem_of_In, filter_In, <- list_elem_of_In.
    fold (is_record name). split.
    - intros [Hin Hrec]. split; [done|].
      apply list_elem_of_fmap in Hin as ([n mf] & -> & Hin).
      apply elem_of_map_to_list in Hin. by exists mf.
    - intros [Hrec [mf Hmf]]. split; [|done].
      apply list_elem_of_fmap. exists (name, mf). split; [done|].
      by apply elem_of_map_to_list. }
  destruct (clean_loop_spec older_than_days (now w)
              (ConversionMetadata.glob_json w) 0 w Hnodup)
    as (w' & Hrun & Hc & Hf & Hsize & Hlook).
  { intros name Hin. apply Hglob in Hin as [Hrec [mf Hmf]].
    exists mf. split; [done|]. by eapply Htyped. }
  fold D in Hrun, Hsize, Hlook.
  eexists _, w'. split; [exact Hrun|]. split; [done|].
  split; [simpl; lia|].
  intros name mf Hname.
  assert (well_typed (now w) mf ∨ is_record name = false) as Hcase.
  { destruct (is_record name) eqn:Hrec; [left; by eapply Htyped | by right]. }
  rewrite (Hlook name). unfold removed. rewrite Hname.
  destruct (bool_decide (name ∈ ConversionMetadata.glob_json w)) eqn:Hin.
  - apply bool_decide_eq_true, Hglob in Hin as [Hrec _].
    destruct Hcase as [Hmf | ?]; [|congruence].
    pose proof (removes_spec w D (now w) mf Hmf) as Hiff.
    destruct (removes w D (now w) mf); cbn [andb].
    + split; [done|]. intros Hno. destruct Hno. split; [done|]. by apply Hiff.
    + split; [|done]. intros [_ Hyes]. apply Hiff in Hyes. done.
  - apply bool_decide_eq_false in Hin. cbn [andb].
    split; [|done]. intros [Hrec _]. destruct Hin. apply Hglob. eauto.
Qed.

Lemma clean_loop_zero (now_ : datetime) (files : list str) :
  ∀ count w,
    ConversionMetadata.clean_loop (Some 0%Z) now_ files count w
    = ConversionMetadata.clean_loop None now_ files count w.
Proof.
  induction files as [|f files IH]; intros count w; [done|].
  cbn [ConversionMetadata.clean_loop]. unfold bind.
  change (ConversionMetadata.clean_step (Some 0%Z) now_ f count w)
    with (ConversionMetadata.clean_step None now_ f count w).
  destruct (ConversionMetadata.clean_step None now_ f count w) as [[c|e] w1];
    [apply IH | done].
Qed.

(** A threshold of zero days is no threshold at all. *)
Lemma clean_metadata_zero (w : world) :
  ConversionMetadata.clean_metadata (Some 0%Z) w
  = ConversionMetadata.clean_metadata None w.
Proof.
  unfold ConversionMetadata.clean_metadata, bind, read.
  apply clean_loop_zero.
Qed.

End clean_metadata.

(** C7, where the code departs from it: with the threshold [0] supplied, a
    record whose source exists and whose age is 7 whole days, more than 0,
    is not removed, and [0] is returned; [if older_than_days:] takes the
    zero for an absent threshold. With the threshold [1] the same record is
    removed and [1] is returned. *)
Theorem clean_metadata_ignores_zero_threshold :
  (∀ (lib : PyLib) (w : world),
     @ConversionMetadata.clean_metadata lib (Some 0%Z) w
     = @ConversionMetadata.clean_metadata lib None w)
  ∧ metadata_dir stale_world !! py "/docs/report.pdf.json" = Some old_record
  ∧ path_exists stale_world (parse_path (py "/docs/report.pdf")) = true
  ∧ example_fromisoformat (py "2024-03-01T12:00:00")
    = Some (mkDatetime 2024 3 1 12 0 0 0 false)
  ∧ sub_days (now stale_world) (mkDatetime 2024 3 1 12 0 0 0 false) = Ok 7%Z
  ∧ @ConversionMetadata.clean_metadata example_lib (Some 0%Z) stale_world
    = (Ok 0, stale_world)
  ∧ @ConversionMetadata.clean_metadata example_lib (Some 1%Z) stale_world
    = (Ok 1, set_metadata_dir (delete (py "/docs/report.pdf.json")) stale_world).
Proof.
  split; [intros lib w; apply clean_metadata_zero|].
  split; [vm_compute; reflexivity|].
  split; [vm_compute; reflexivity|].
  split; [vm_compute; reflexivity|].
  split; [vm_compute; reflexivity|].
  split; vm_compute; reflexivity.
Qed.

(** * Further properties *)

(** ** The records of the cache *)

Section records.
Context `{lib : PyLib}.

(** What a successful [save_metadata] returns and leaves. *)
Lemma save_metadata_inv (source_path output_path : Path) (hash : option str)
    (w w' : world) (metadata : json) :
  ConversionMetadata.save_metadata source_path output_path hash w
  = (Ok metadata, w') →
  ∃ mtime h,
    stat_mtime w source_path = Ok mtime
    ∧ match hash with
      | Some ((_ :: _) as given) => h = given
      | _ => ConversionMetadata._get_file_hash w source_path = Ok h
      end
    ∧ metadata = saved_record w source_path output_path mtime h
    ∧ w' = log (ESaveMetadata (ConversionMetadata._get_metadata_path w source_path))
             (set_metadata_dir
                (insert (ConversionMetadata._get_metadata_path w source_path)
                   (Json metadata)) w).
Proof.
  unfold ConversionMetadata.save_metadata. intros H.
  apply bind_Ok_inv in H as (src & w1 & [= <- <-] & H).
  apply bind_Ok_inv in H as (out & w1 & [= <- <-] & H).
  apply bind_Ok_inv in H as (t & w1 & Hstat & H).
  unfold ask in Hstat. injection Hstat as Hstat <-.
  apply bind_Ok_inv in H as (h & w1 & Hh & H).
  assert (w1 = w ∧ match hash with
                   | Some ((_ :: _) as given) => h = given
                   | _ => ConversionMetadata._get_file_hash w source_path = Ok h
                   end) as [-> Hhash].
  { destruct hash as [[|c h']|]; unfold ask, ret in Hh;
      injection Hh as Hh <-; by split. }
  apply bind_Ok_inv in H as (converted_at & w1 & [= <- <-] & H).
  apply bind_Ok_inv in H as (metadata_path & w1 & [= <- <-] & H).
  apply bind_Ok_inv in H as ([] & w1 & [= <-] & H).
  apply bind_Ok_inv in H as ([] & w2 & [= <-] & H).
  injection H as <- <-.
  exists t, h. by repeat split.
Qed.

(** X1: a record saved for a source is the record read back for it: it
    names the absolute source and output, stores the modification time the
    source has, and the hash given (or the hash of the file when none, or an
    empty one, is given); the files are not touched. *)
Theorem save_then_get_metadata (source_path output_path : Path)
    (hash : option str) (w w' : world) (metadata : json) :
  ConversionMetadata.save_metadata source_path output_path hash w
  = (Ok metadata, w') →
  ConversionMetadata.get_metadata w' source_path = Some metadata
  ∧ json_get metadata (py "source") JNull
    = Ok (JStr (path_str (absolute w source_path)))
  ∧ json_get metadata (py "output") JNull
    = Ok (JStr (path_str (absolute w output_path)))
  ∧ stored_mtime metadata = stat_mtime w source_path
  ∧ (∀ c given, hash = Some (c :: given) →
                json_get metadata (py "source_hash") JNull
                = Ok (JStr (c :: given)))
  ∧ (hash = None ∨ hash = Some [] →
     ∃ text, read_text w source_path = Ok text
             ∧ json_get metadata (py "source_hash") JNull
               = Ok (JStr (sha256_hexdigest text)))
  ∧ fs w' = fs w ∧ cwd w' = cwd w.
Proof.
  intros H. apply save_metadata_inv in H as (mtime & h & Hstat & Hhash & -> & ->).
  split.
  { unfold ConversionMetadata.get_metadata, ConversionMetadata._get_metadata_path.
    cbn [metadata_dir log set_metadata_dir].
    change (absolute (log _ (set_metadata_dir _ w)) source_path)
      with (absolute w source_path).
    by rewrite lookup_insert_eq. }
  split; [reflexivity|]. split; [reflexivity|].
  split; [by rewrite Hstat|].
  split.
  { intros c given ->. by subst h. }
  split; [|done].
  intros Hnone.
  assert (ConversionMetadata._get_file_hash w source_path = Ok h) as Hfile
    by (by destruct Hnone as [-> | ->]).
  unfold ConversionMetadata._get_file_hash in Hfile.
  destruct (read_text w source_path) as [text|] eqn:Htext; [|done].
  injection Hfile as <-. by exists text.
Qed.

Lemma stat_mtime_raises (w : world) (p : Path) (e : exn) :
  stat_mtime w p = Raise e → is_OSError e = true.
Proof.
  unfold stat_mtime. destruct (lookup_path w p); [done|]. by intros [= <-].
Qed.

Lemma get_file_hash_raises (w : world) (p : Path) (e : exn) :
  ConversionMetadata._get_file_hash w p = Raise e → is_OSError e = true.
Proof.
  unfold ConversionMetadata._get_file_hash, read_text.
  destruct (lookup_path w p) as [[]|]; [done| |]; by intros [= <-].
Qed.

(** X2: an error of the source is raised before anything is written: when
    the [stat] of the source fails, and when no hash (or an empty one) is
    given and the source cannot be read for its hash, [save_metadata] raises
    that [OSError], and the world, the records included, is as it was. *)
Theorem save_metadata_source_error (source_path output_path : Path)
    (hash : option str) (w : world) (e : exn) :
  stat_mtime w source_path = Raise e
  ∨ ((hash = None ∨ hash = Some [])
     ∧ (∃ mtime, stat_mtime w source_path = Ok mtime)
     ∧ ConversionMetadata._get_file_hash w source_path = Raise e) →
  ConversionMetadata.save_metadata source_path output_path hash w = (Raise e, w)
  ∧ is_OSError e = true
  ∧ ∀ other,
      ConversionMetadata.get_metadata
        (ConversionMetadata.save_metadata source_path output_path hash w).2 other
      = ConversionMetadata.get_metadata w other.
Proof.
  intros H.
  assert (ConversionMetadata.save_metadata source_path output_path hash w
          = (Raise e, w) ∧ is_OSError e = true) as [Hrun He].
  { unfold ConversionMetadata.save_metadata, bind, read, ask, update, emit, ret.
    cbn beta iota.
    destruct H as [Hstat | (Hhash & [mtime Hstat] & Hfile)].
    - rewrite Hstat. split; [done | by eapply stat_mtime_raises].
    - rewrite Hstat. split; [|by eapply get_file_hash_raises].
      destruct Hhash as [-> | ->]; cbn beta iota; by rewrite Hfile. }
  split; [done|]. split; [done|]. intros other. by rewrite Hrun.
Qed.

(** X3: saving the record of one source leaves the record of every source
    with another key as it was. *)
Theorem save_metadata_other_source (source_path output_path other : Path)
    (hash : option str) (w w' : world) (metadata : json) :
  ConversionMetadata.save_metadata source_path output_path hash w
  = (Ok metadata, w') →
  ConversionMetadata._get_metadata_path w other
  ≠ ConversionMetadata._get_metadata_path w source_path →
  ConversionMetadata.get_metadata w' other
  = ConversionMetadata.get_metadata w other.
Proof.
  intros H Hne. apply save_metadata_inv in H as (mtime & h & _ & _ & -> & ->).
  unfold ConversionMetadata.get_metadata.
  change (ConversionMetadata._get_metadata_path (log _ (set_metadata_dir _ w)) other)
    with (ConversionMetadata._get_metadata_path w other).
  cbn [metadata_dir log set_metadata_dir].
  by rewrite lookup_insert_ne.
Qed.

(** X4: with the output and a non-empty record in place, [needs_conversion]
    raises instead of answering when the source has no modification time
    to compare ([OSError]), when the record is not an object
    ([AttributeError]), and when the stored time is not a number
    ([TypeError]). *)
Theorem needs_conversion_raises (w : world) (source_path output_path : Path)
    (metadata : json) :
  path_exists w output_path = true →
  ConversionMetadata.get_metadata w source_path = Some metadata →
  truthy metadata = true →
  (lookup_path w source_path = None →
   ∃ msg, ConversionMetadata.needs_conversion w source_path output_path
          = Raise (OSError msg))
  ∧ (∀ current, stat_mtime w source_path = Ok current →
       ((∀ items, metadata ≠ JObj items) →
        ∃ msg, ConversionMetadata.needs_conversion w source_path output_path
               = Raise (AttributeError msg))
       ∧ (∀ items x,
            metadata = JObj items →
            dict_get items (py "source_mtime") (JNum 0%Q) = x →
            (∀ q, x ≠ JNum q) → (∀ b, x ≠ JBool b) →
            ∃ msg, ConversionMetadata.needs_conversion w source_path output_path
                   = Raise (TypeError msg))).
Proof.
  intros Hout Hget Htruthy.
  unfold ConversionMetadata.needs_conversion. rewrite Hout, Hget, Htruthy.
  cbn [negb]. split.
  - intros Hnone. unfold stat_mtime. rewrite Hnone. by eexists.
  - intros current ->. split.
    + intros Hnot. destruct metadata; try (by eexists). by destruct (Hnot items).
    + intros items x -> Hx Hq Hb. unfold json_get. rewrite Hx.
      destruct x; try (by eexists); [by destruct (Hb b) | by destruct (Hq q)].
Qed.

End records.

Lemma save_then_get_metadata_witness :
  let w' := (@ConversionMetadata.save_metadata example_lib report_pdf report_md
               None example_world).2 in
  @ConversionMetadata.get_metadata example_lib w' report_pdf
  = Some (@saved_record example_lib example_world report_pdf report_md 100%Q
            (py "sha256:%PDF-1.7")).
Proof.
  intros w'.
  apply (@save_then_get_metadata example_lib report_pdf report_md None
           example_world w').
  vm_compute. reflexivity.
Defined.

Lemma save_metadata_source_error_witness :
  @ConversionMetadata.save_metadata example_lib gone_pdf report_md None
    example_world
  = (Raise (OSError (py "No such file or directory")), example_world).
Proof.
  apply (@save_metadata_source_error example_lib gone_pdf report_md None
           example_world (OSError (py "No such file or directory"))).
  left. vm_compute. reflexivity.
Defined.

Lemma save_metadata_other_source_witness :
  let w' := (@ConversionMetadata.save_metadata example_lib report_pdf report_md
               None gone_world).2 in
  @ConversionMetadata.get_metadata example_lib w' gone_pdf
  = @ConversionMetadata.get_metadata example_lib gone_world gone_pdf.
Proof.
  intros w'.
  apply (@save_metadata_other_source example_lib report_pdf report_md gone_pdf None
           gone_world w'
           (@saved_record example_lib gone_world report_pdf report_md 100%Q
              (py "sha256:%PDF-1.7"))).
  - vm_compute. reflexivity.
  - vm_compute. discriminate.
Defined.

Lemma needs_conversion_raises_witness :
  ∃ msg, @ConversionMetadata.needs_conversion example_lib gone_world gone_pdf
           (parse_path (py "/out"))
         = Raise (OSError msg).
Proof.
  apply (@needs_conversion_raises example_lib gone_world gone_pdf
           (parse_path (py "/out")) gone_record).
  - vm_compute. reflexivity.
  - vm_compute. reflexivity.
  - vm_compute. reflexivity.
  - vm_compute. reflexivity.
Defined.

(** ** Cleaning the cache *)

Lemma only_removes_refl (w : world) : only_removes w w.
Proof. by repeat split. Qed.

Lemma only_removes_trans (w1 w2 w3 : world) :
  only_removes w1 w2 → only_removes w2 w3 → only_removes w1 w3.
Proof.
  intros (? & ? & ? & ? & ? & ?) (? & ? & ? & ? & ? & ?).
  repeat split; try congruence. by etrans.
Qed.

Lemma removes_only_ret {A} (a : A) : removes_only (ret a).
Proof. intros w r w' [= <- <-]. apply only_removes_refl. Qed.

Lemma removes_only_lift {A} (x : result A) : removes_only (lift x).
Proof. intros w r w' [= <- <-]. apply only_removes_refl. Qed.

Lemma removes_only_read {A} (f : world → A) : removes_only (read f).
Proof. intros w r w' [= <- <-]. apply only_removes_refl. Qed.

Lemma removes_only_load (name : str) :
  removes_only (ConversionMetadata.load name).
Proof.
  intros w r w'. unfold ConversionMetadata.load.
  destruct (metadata_dir w !! name) as [[]|]; intros [= <- <-];
    apply only_removes_refl.
Qed.

Lemma removes_only_unlink (name : str) :
  removes_only (ConversionMetadata.unlink name).
Proof.
  intros w r w'. unfold ConversionMetadata.unlink.
  destruct (metadata_dir w !! name); intros [= <- <-];
    [|apply only_removes_refl].
  repeat split. cbn [metadata_dir set_metadata_dir]. apply delete_subseteq.
Qed.

Lemma removes_only_bind {A B} (m : M A) (k : A → M B) :
  removes_only m → (∀ a, removes_only (k a)) → removes_only (bind m k).
Proof.
  intros Hm Hk w r w'. unfold bind.
  destruct (m w) as [[a|e] w1] eqn:Hmw.
  - intros H. eapply only_removes_trans; [by eapply Hm | by eapply Hk].
  - intros [= <- <-]. by eapply Hm.
Qed.

Lemma removes_only_try_except {A} (m : M A) (classes : exn → bool)
    (h : exn → M A) :
  removes_only m → (∀ e, removes_only (h e)) →
  removes_only (try_except m classes h).
Proof.
  intros Hm Hh w r w'. unfold try_except.
  destruct (m w) as [[a|e] w1] eqn:Hmw.
  - intros [= <- <-]. by eapply Hm.
  - destruct (classes e).
    + intros H. eapply only_removes_trans; [by eapply Hm | by eapply Hh].
    + intros [= <- <-]. by eapply Hm.
Qed.

Ltac removes_only :=
  repeat first
    [ apply removes_only_ret | apply removes_only_lift
    | apply removes_only_read | apply removes_only_load
    | apply removes_only_unlink
    | apply removes_only_bind; [|intros ?]
    | apply removes_only_try_except; [|intros ?] ].

Section cleaning_more.
Context `{lib : PyLib}.

Lemma clean_one_removes_only (older_than_days : option Z) (now_ : datetime)
    (name : str) (count : nat) :
  removes_only (ConversionMetadata.clean_one older_than_days now_ name count).
Proof.
  unfold ConversionMetadata.clean_one. removes_only.
  match goal with |- context [negb ?b] => destruct b end; cbn [negb].
  - destruct (ConversionMetadata.threshold older_than_days); removes_only.
    match goal with |- context [(?a <? ?b)%Z] => destruct (a <? b)%Z end;
      removes_only.
  - removes_only.
Qed.

Lemma clean_loop_removes_only (older_than_days : option Z) (now_ : datetime)
    (files : list str) :
  ∀ count,
    removes_only (ConversionMetadata.clean_loop older_than_days now_ files count).
Proof.
  induction files as [|f rest IH]; intros count; cbn [ConversionMetadata.clean_loop].
  - removes_only.
  - apply removes_only_bind; [|intros c; apply IH].
    unfold ConversionMetadata.clean_step.
    apply removes_only_try_except;
      [apply clean_one_removes_only | intros ?; removes_only].
Qed.

(** X5: whatever the records hold, and whether it returns or raises,
    [clean_metadata] writes no file, prints nothing and adds no record: the
    records it leaves are records that were there. *)
Theorem clean_metadata_only_removes (older_than_days : option Z)
    (w w' : world) (r : result nat) :
  ConversionMetadata.clean_metadata older_than_days w = (r, w') →
  fs w' = fs w ∧ cwd w' = cwd w ∧ trace w' = trace w
  ∧ ∀ name mf, metadata_dir w' !! name = Some mf →
               metadata_dir w !! name = Some mf.
Proof.
  intros H.
  assert (removes_only (ConversionMetadata.clean_metadata older_than_days)) as Hm.
  { unfold ConversionMetadata.clean_metadata. removes_only.
    apply clean_loop_removes_only. }
  apply Hm in H as (? & ? & ? & ? & ? & Hsub).
  repeat split; try done.
  intros name mf Hname. by eapply lookup_weaken.
Qed.

End cleaning_more.

Section cleaning_exact.
Context `{lib : PyLib}.

(** X6: on a directory of well-typed records [clean_metadata] returns the
    number of files it has removed; it removes the records whose source is
    gone, that are corrupted or that are too old, and keeps every other
    file as it was; no file outside the directory is touched. *)
Theorem clean_metadata_removes_exactly (older_than_days : option Z) (w : world) :
  (∀ name mf, metadata_dir w !! name = Some mf → is_record name = true →
              well_typed (now w) mf) →
  ∃ n w',
    ConversionMetadata.clean_metadata older_than_days w = (Ok n, w')
    ∧ fs w' = fs w
    ∧ size (metadata_dir w') + n = size (metadata_dir w)
    ∧ ∀ name mf,
        metadata_dir w !! name = Some mf →
        (is_record name = true
         ∧ should_remove w (ConversionMetadata.threshold older_than_days)
             (now w) mf →
         metadata_dir w' !! name = None)
        ∧ (¬ (is_record name = true
              ∧ should_remove w (ConversionMetadata.threshold older_than_days)
                  (now w) mf) →
           metadata_dir w' !! name = Some mf).
Proof. apply clean_metadata_spec. Qed.

Lemma should_remove_ext (w w' : world) (in_force : option Z) (now_ : datetime)
    (mf : mfile) :
  cwd w' = cwd w → fs w' = fs w → well_typed now_ mf →
  should_remove w' in_force now_ mf → should_remove w in_force now_ mf.
Proof.
  intros Hc Hf Hmf H. apply removes_spec; [done|].
  rewrite <- (removes_ext w w' in_force now_ mf Hc Hf).
  by apply removes_spec.
Qed.

Lemma world_records_eq (w w' : world) :
  only_removes w w' → metadata_dir w' = metadata_dir w → w' = w.
Proof.
  destruct w, w'. intros (? & ? & ? & ? & ? & _) ?. simpl in *. congruence.
Qed.

(** X7: cleaning is idempotent on a directory of well-typed records: a
    second [clean_metadata] with the same threshold, right after the first,
    removes nothing and returns 0. *)
Theorem clean_metadata_idempotent (older_than_days : option Z) (w w' : world)
    (n : nat) :
  (∀ name mf, metadata_dir w !! name = Some mf → is_record name = true →
              well_typed (now w) mf) →
  ConversionMetadata.clean_metadata older_than_days w = (Ok n, w') →
  ConversionMetadata.clean_metadata older_than_days w' = (Ok 0, w').
Proof.
  intros Htyped Hrun.
  set (D := ConversionMetadata.threshold older_than_days).
  assert (only_removes w w') as Hframe.
  { assert (removes_only (ConversionMetadata.clean_metadata older_than_days)) as Hm.
    { unfold ConversionMetadata.clean_metadata. removes_only.
      apply clean_loop_removes_only. }
    by eapply Hm. }
  destruct Hframe as (Hc & Hf & Hnow & _ & _ & Hsub).
  destruct (clean_metadata_spec older_than_days w Htyped)
    as (n0 & w0 & Hrun0 & _ & _ & Hkeep).
  rewrite Hrun in Hrun0. injection Hrun0 as <- <-.
  assert (∀ name mf, metadata_dir w' !! name = Some mf → is_record name = true →
                     well_typed (now w') mf) as Htyped'.
  { intros name mf Hname Hrec. rewrite Hnow. eapply Htyped; [|done].
    by eapply lookup_weaken. }
  destruct (clean_metadata_spec older_than_days w' Htyped')
    as (n2 & w2 & Hrun2 & _ & Hsize2 & Hkeep2).
  assert (only_removes w' w2) as Hframe2.
  { assert (removes_only (ConversionMetadata.clean_metadata older_than_days)) as Hm.
    { unfold ConversionMetadata.clean_metadata. removes_only.
      apply clean_loop_removes_only. }
    by eapply Hm. }
  assert (metadata_dir w2 = metadata_dir w') as Heq.
  { apply (anti_symm (⊆)); [apply Hframe2|].
    apply map_subseteq_spec. intros name mf Hname.
    apply (Hkeep2 name mf Hname). intros [Hrec Hrm].
    assert (metadata_dir w !! name = Some mf) as Hw by by eapply lookup_weaken.
    destruct (Hkeep name mf Hw) as [Hgone _].
    rewrite Hgone in Hname; [done|]. split; [done|].
    fold D in Hrm. rewrite Hnow in Hrm.
    eapply should_remove_ext; [exact Hc | exact Hf | | exact Hrm].
    by eapply Htyped. }
  rewrite Hrun2. f_equal.
  - f_equal. rewrite Heq in Hsize2. lia.
  - by apply world_records_eq.
Qed.

Lemma clean_step_ill_typed (older_than_days : option Z) (now_ : datetime)
    (name : str) (count : nat) (w : world) (mf : mfile) :
  metadata_dir w !! name = Some mf →
  ill_typed mf →
  ∃ e, ConversionMetadata.clean_step older_than_days now_ name count w
       = (Raise e, w)
       ∧ ((∃ msg, e = AttributeError msg) ∨ (∃ msg, e = TypeError msg)).
Proof.
  intros Hname (v & -> & Hv).
  unfold ConversionMetadata.clean_step, try_except, ConversionMetadata.clean_one,
    bind, ConversionMetadata.load, lift.
  rewrite Hname.
  destruct Hv as [Hv | (items & -> & Hsrc)].
  - destruct v; try (eexists; split; [reflexivity | left; by eexists]).
    by destruct (Hv items).
  - cbn [json_get].
    destruct (dict_get items (py "source") (JStr [])) eqn:Hx;
      try (eexists; split; [reflexivity | right; by eexists]).
    by destruct (Hsrc s).
Qed.

Lemma clean_loop_app (older_than_days : option Z) (now_ : datetime)
    (l1 l2 : list str) :
  ∀ count w,
    ConversionMetadata.clean_loop older_than_days now_ (l1 ++ l2) count w
    = match ConversionMetadata.clean_loop older_than_days now_ l1 count w with
      | (Ok c, w1) => ConversionMetadata.clean_loop older_than_days now_ l2 c w1
      | (Raise e, w1) => (Raise e, w1)
      end.
Proof.
  induction l1 as [|f l1 IH]; intros count w; [done|].
  cbn [app ConversionMetadata.clean_loop]. unfold bind.
  destruct (ConversionMetadata.clean_step older_than_days now_ f count w)
    as [[c|e] w1]; [apply IH | done].
Qed.

(** X8: the [except] clause of [clean_metadata] does not cover every
    damaged record: a [*.json] file that holds JSON other than an object,
    or an object whose source is not a string, makes the call raise
    [AttributeError] or [TypeError]; the file is not removed. *)
Theorem clean_metadata_ill_typed_escapes (older_than_days : option Z)
    (w : world) (name : str) (mf : mfile) :
  metadata_dir w !! name = Some mf →
  is_record name = true →
  ill_typed mf →
  (∀ name' mf', name' ≠ name → metadata_dir w !! name' = Some mf' →
                is_record name' = true → well_typed (now w) mf') →
  ∃ e w',
    ConversionMetadata.clean_metadata older_than_days w = (Raise e, w')
    ∧ ((∃ msg, e = AttributeError msg) ∨ (∃ msg, e = TypeError msg))
    ∧ metadata_dir w' !! name = Some mf.
Proof.
  intros Hname Hrec Hill Htyped.
  assert (NoDup (ConversionMetadata.glob_json w)) as Hnodup.
  { unfold ConversionMetadata.glob_json. apply NoDup_list_filter.
    apply NoDup_fst_map_to_list. }
  assert (∀ x, x ∈ ConversionMetadata.glob_json w →
               is_record x = true ∧ is_Some (metadata_dir w !! x)) as Hglob.
  { intros x. unfold ConversionMetadata.glob_json.
    rewrite list_elem_of_In, filter_In, <- list_elem_of_In.
    fold (is_record x). intros [Hin Hr]. split; [done|].
    apply list_elem_of_fmap in Hin as ([n' mf'] & -> & Hin).
    apply elem_of_map_to_list in Hin. by exists mf'. }
  assert (name ∈ ConversionMetadata.glob_json w) as Hin.
  { unfold ConversionMetadata.glob_json.
    rewrite list_elem_of_In, filter_In, <- list_elem_of_In.
    split; [|done]. apply list_elem_of_fmap. exists (name, mf).
    split; [done|]. by apply elem_of_map_to_list. }
  apply list_elem_of_split in Hin as (l1 & l2 & Hsplit).
  rewrite Hsplit in Hnodup.
  apply NoDup_app in Hnodup as (Hnd1 & Hnot & _).
  assert (name ∉ l1) as Hfresh.
  { intros Hl1. apply (Hnot name Hl1). left. }
  destruct (clean_loop_spec older_than_days (now w) l1 0 w Hnd1)
    as (w1 & Hrun1 & _ & _ & _ & Hlook).
  { intros x Hx.
    destruct (Hglob x) as [Hr [mf' Hmf']].
    { rewrite Hsplit. apply elem_of_app. by left. }
    exists mf'. split; [done|]. eapply Htyped; [|done..].
    intros ->. done. }
  assert (metadata_dir w1 !! name = Some mf) as Hname1.
  { rewrite Hlook. rewrite bool_decide_eq_false_2; done. }
  destruct (clean_step_ill_typed older_than_days (now w) name
              (0 + length (List.filter
                             (removed w (ConversionMetadata.threshold older_than_days)
                                (now w)) l1)) w1 mf Hname1 Hill)
    as (e & Hstep & He).
  exists e, w1. split; [|done].
  unfold ConversionMetadata.clean_metadata, bind, read. rewrite Hsplit.
  rewrite clean_loop_app, Hrun1.
  cbn [ConversionMetadata.clean_loop]. unfold bind. by rewrite Hstep.
Qed.

End cleaning_exact.

Lemma damaged_world_well_typed (name : str) (mf : mfile) :
  metadata_dir damaged_world !! name = Some mf →
  @is_record name = true →
  @well_typed example_lib (now damaged_world) mf.
Proof.
  unfold damaged_world. cbn [metadata_dir now]. intros H _.
  apply lookup_insert_Some in H as [[_ <-] | [_ H]].
  - split; [by eexists|]. eexists. split; [reflexivity|].
    intros t Ht. vm_compute in Ht. by injection Ht as <-.
  - apply lookup_singleton_Some in H as [_ <-]. exact I.
Qed.

Lemma clean_metadata_removes_exactly_witness :
  ∃ n w',
    @ConversionMetadata.clean_metadata example_lib (Some 30%Z) damaged_world
    = (Ok n, w')
    ∧ fs w' = fs damaged_world
    ∧ size (metadata_dir w') + n = size (metadata_dir damaged_world)
    ∧ ∀ name mf,
        metadata_dir damaged_world !! name = Some mf →
        (is_record name = true
         ∧ @should_remove example_lib damaged_world
             (ConversionMetadata.threshold (Some 30%Z)) (now damaged_world) mf →
         metadata_dir w' !! name = None)
        ∧ (¬ (is_record name = true
              ∧ @should_remove example_lib damaged_world
                  (ConversionMetadata.threshold (Some 30%Z))
                  (now damaged_world) mf) →
           metadata_dir w' !! name = Some mf).
Proof.
  apply (@clean_metadata_removes_exactly example_lib (Some 30%Z) damaged_world).
  apply damaged_world_well_typed.
Defined.

Lemma clean_metadata_idempotent_witness :
  let w' := (@ConversionMetadata.clean_metadata example_lib (Some 30%Z)
               damaged_world).2 in
  @ConversionMetadata.clean_metadata example_lib (Some 30%Z) w' = (Ok 0, w').
Proof.
  intros w'.
  apply (@clean_metadata_idempotent example_lib (Some 30%Z) damaged_world w' 1).
  - apply damaged_world_well_typed.
  - vm_compute. reflexivity.
Defined.

Lemma clean_metadata_ill_typed_escapes_witness :
  ∃ e w',
    @ConversionMetadata.clean_metadata example_lib None array_record_world
    = (Raise e, w')
    ∧ ((∃ msg, e = AttributeError msg) ∨ (∃ msg, e = TypeError msg))
    ∧ metadata_dir w' !! py "list.json" = Some (Json (JArr [JNum 1%Q])).
Proof.
  apply (@clean_metadata_ill_typed_escapes example_lib None array_record_world
           (py "list.json") (Json (JArr [JNum 1%Q]))).
  - vm_compute. reflexivity.
  - vm_compute. reflexivity.
  - eexists. split; [reflexivity|]. left. intros items. discriminate.
  - intros name' mf' Hne H _. unfold array_record_world in H.
    cbn [metadata_dir] in H.
    apply lookup_singleton_Some in H as [? _]. congruence.
Defined.

(** ** What a conversion leaves behind *)












Section leaves.
Context `{lib : PyLib}.



Lemma convert_path (self : DocumentConverter.t) (source_path : Path)
    (output : option source) (pattern custom_prompt : option str) (force : bool)
    (w w' : world) (markdown : str) :
  DocumentConverter.convert self (SrcPath source_path) output pattern
    custom_prompt force w = (Ok markdown, w') →
  ∃ output_path,
    parse_output_location w source_path (DocumentConverter.as_path <$> output)
      pattern false = Ok output_path
    ∧ read_text w' output_path = Ok markdown.
Proof.
  intros H. unfold DocumentConverter.convert in H.
  apply bind_Ok_inv in H as (O & w1 & HO & H).
  unfold ask in HO. injection HO as HO <-.
  exists O. split; [done|].
  apply bind_Ok_inv in H as (up_to_date & w1 & Hup & H).
  apply bind_Ok_inv in Hup as (needed & w2 & Hneeded & Hup).
  unfold ask in Hneeded. injection Hneeded as Hneeded <-.
  injection Hup as <- <-.
  destruct needed; cbn [negb] in H.
  - apply bind_Ok_inv in H as (processor & w1 & [= _ <-] & H).
    apply bind_Ok_inv in H as ([] & w1 & [= <-] & H).
    apply bind_Ok_inv in H as (content & w1 & [= _ <-] & H).
    apply bind_Ok_inv in H as (md & w2 & Hmd & H).
    apply bind_Ok_inv in H as ([] & w3 & _ & H).
    apply bind_Ok_inv in H as ([] & w4 & Hwrite & H).
    apply write_text_Ok in Hwrite as (_ & _ & Hfile).
    apply bind_Ok_inv in H as ([] & w5 & [= <-] & H).
    assert (read_text (log (EPrint (py "[green]OK[/green] Saved to " ++ path_str O)) w4) O
            = Ok md) as Hread.
    { unfold read_text.
      change (lookup_path (log _ w4) O) with (lookup_path w4 O).
      by rewrite Hfile. }
    destruct (DocumentConverter.cache_metadata self).
    + apply bind_Ok_inv in H as (metadata & w6 & Hsave & H).
      injection H as <- <-.
      apply save_metadata_Ok in Hsave as (Hc & Hf & _).
      unfold read_text. rewrite (lookup_path_ext _ w6 O Hc Hf). exact Hread.
    + injection H as <- <-. exact Hread.
  - apply bind_Ok_inv in H as ([] & w1 & [= <-] & H).
    unfold ask in H. injection H as H <-. exact H.
Qed.




End leaves.



(** ** The batch entry points *)

Section batch.
Context `{lib : PyLib}.

Lemma batch_convert_one_total (self : DocumentConverter.t) (src : source)
    (output_dir : option source) (pattern custom_prompt : option str)
    (force : bool) (w : world) :
  ∃ markdown w',
    Batch.batch_convert_one self src output_dir pattern custom_prompt force w
    = (Ok markdown, w')
    ∧ (∀ s, src = SrcStr s → DocumentConverter.is_url s = true →
            output_dir = None ∨ output_dir = Some (SrcStr []) →
            markdown = []).
Proof.
  unfold Batch.batch_convert_one.
  set (src' := match src with
               | SrcStr s => if negb (DocumentConverter.is_url s)
                             then SrcPath (parse_path s) else src
               | SrcPath _ => src
               end).
  match goal with |- context [try_except ?m _ _] => set (body := m) end.
  unfold bind at 1, console_print, emit, update.
  set (w0 := log _ w).
  unfold try_except.
  destruct (body w0) as [[md|e] w1] eqn:Hbody.
  - exists md, w1. split; [done|].
    intros s -> Hurl Hout. subst body src'. rewrite Hurl in Hbody.
    cbn [negb] in Hbody. by destruct Hout as [-> | ->].
  - eexists _, _. split; [reflexivity|]. done.
Qed.

(** X11: [batch_convert] never raises: each source is converted inside its
    own [try], so it returns one entry for every source, in order, whatever
    the conversions do; the entry of a source that failed is the empty
    string, as is that of every URL when no output directory is given. *)
Theorem batch_convert_total (self : DocumentConverter.t)
    (sources : list source) (output_dir : option source)
    (pattern custom_prompt : option str) (force : bool) (w : world) :
  ∃ results w',
    Batch.batch_convert self sources output_dir pattern custom_prompt force w
    = (Ok results, w')
    ∧ length results = length sources
    ∧ (output_dir = None ∨ output_dir = Some (SrcStr []) →
       ∀ i s, sources !! i = Some (SrcStr s) →
              DocumentConverter.is_url s = true →
              results !! i = Some []).
Proof.
  revert w. induction sources as [|src rest IH]; intros w.
  - exists [], w. split; [done|]. split; [done|]. intros _ i s Hi. done.
  - cbn [Batch.batch_convert]. unfold bind at 1.
    destruct (batch_convert_one_total self src output_dir pattern custom_prompt
                force w) as (md & w1 & -> & Hurl).
    unfold bind at 1.
    destruct (IH w1) as (rs & w2 & -> & Hlen & Hrest).
    exists (md :: rs), w2. split; [done|]. split; [simpl; lia|].
    intros Hout [|i] s Hi His_url.
    + injection Hi as ->. simpl. f_equal. by eapply Hurl.
    + simpl in *. by eapply Hrest.
Qed.

Lemma convert_recursive_loop_total (self : DocumentConverter.t)
    (output_dir : option Path) (pattern custom_prompt : option str)
    (force : bool) (files : list Path) :
  ∀ c w, ∃ c' w',
    Batch.convert_recursive_loop self files output_dir pattern custom_prompt
      force c w = (Ok c', w')
    ∧ Batch.n_successful c' + Batch.n_failed c' + Batch.n_skipped c'
      = Batch.n_successful c + Batch.n_failed c + Batch.n_skipped c
        + length files
    ∧ Batch.n_successful c ≤ Batch.n_successful c'
    ∧ Batch.n_failed c ≤ Batch.n_failed c'
    ∧ Batch.n_skipped c ≤ Batch.n_skipped c'.
Proof.
  induction files as [|f rest IH]; intros c w.
  - exists c, w. split; [done|]. simpl. lia.
  - cbn [Batch.convert_recursive_loop]. unfold bind at 1.
    assert (∃ c1 w1,
              try_except
                (Batch.convert_recursive_try self f output_dir pattern
                   custom_prompt force c)
                (fun _ => true)
                (fun e =>
                   console_print (py "Failed: " ++ path_name f
                                  ++ py " - " ++ exn_str e) ;;
                   ret (Batch.mkCounters (Batch.n_successful c)
                          (S (Batch.n_failed c)) (Batch.n_skipped c))) w
              = (Ok c1, w1)
              ∧ Batch.n_successful c1 + Batch.n_failed c1 + Batch.n_skipped c1
                = S (Batch.n_successful c + Batch.n_failed c + Batch.n_skipped c)
              ∧ Batch.n_successful c ≤ Batch.n_successful c1
              ∧ Batch.n_failed c ≤ Batch.n_failed c1
              ∧ Batch.n_skipped c ≤ Batch.n_skipped c1) as (c1 & w1 & -> & Hsum & ?).
    { unfold try_except.
      destruct (Batch.convert_recursive_try self f output_dir pattern
                  custom_prompt force c w) as [[c1|e] w1] eqn:Htry.
      - exists c1, w1. split; [done|].
        unfold Batch.convert_recursive_try in Htry.
        apply bind_Ok_inv in Htry as (O & w2 & _ & Htry).
        apply bind_Ok_inv in Htry as (needed & w3 & _ & Htry).
        destruct needed; cbn [negb] in Htry.
        + apply bind_Ok_inv in Htry as (md & w4 & _ & Htry).
          injection Htry as <- <-. simpl. lia.
        + injection Htry as <- <-. simpl. lia.
      - eexists _, _. split; [reflexivity|]. simpl. lia. }
    destruct (IH c1 w1) as (c' & w' & -> & Hsum' & ?).
    exists c', w'. split; [done|]. simpl. lia.
Qed.

(** X12: [convert_recursive] raises [ValueError], and does nothing, when
    the directory is not one; otherwise it returns, whatever the
    conversions of the files do, and its summary counts every discovered
    file once: total = successful + failed + skipped. *)
Theorem convert_recursive_summary (self : DocumentConverter.t)
    (directory : Path) (output_dir : option Path) (pattern : option str)
    (include exclude : option (list str)) (custom_prompt : option str)
    (force : bool) (w : world) :
  (is_dir w directory = false →
   Batch.convert_recursive self directory output_dir pattern include exclude
     custom_prompt force w
   = (Raise (ValueError (py "Not a directory: " ++ path_str directory)), w))
  ∧ (is_dir w directory = true →
     ∃ files summary w',
       AsyncDocumentConverter.discover w directory
         (default (Batch.include_of_processors self) include)
         (default AsyncDocumentConverter.default_exclude exclude)
         (AsyncDocumentConverter.rglob w directory) = Ok files
       ∧ Batch.convert_recursive self directory output_dir pattern include
           exclude custom_prompt force w = (Ok summary, w')
       ∧ Batch.total summary = length files
       ∧ Batch.total summary
         = Batch.successful summary + Batch.failed summary
           + Batch.skipped summary).
Proof.
  unfold Batch.convert_recursive. split; intros Hdir.
  - unfold bind at 1, read. by rewrite Hdir.
  - unfold bind at 1, read. rewrite Hdir. cbn [negb].
    destruct (discover_total w directory
                (default (Batch.include_of_processors self) include)
                (default AsyncDocumentConverter.default_exclude exclude)
                (AsyncDocumentConverter.rglob w directory)) as (files & Hfiles).
    { intros f Hf. by eapply rglob_relative. }
    unfold bind at 1, ask. rewrite Hfiles.
    unfold bind at 1, console_print, emit, update.
    unfold bind at 1.
    destruct (convert_recursive_loop_total self output_dir pattern custom_prompt
                force files (Batch.mkCounters 0 0 0)
                (log (EPrint (py "Found " ++ digits (length files)
                              ++ py " files to process")) w))
      as (c & w1 & -> & Hsum & _).
    eexists files, _, _. split; [done|]. split; [reflexivity|].
    split; [done|]. simpl in *. lia.
Qed.

(** X13: a job of the asynchronous converter that succeeds reports the
    output resolved with the output directory, in batch mode, but the
    Markdown has been written where [convert] resolves the output without
    it; with an output directory and no pattern the report names
    [output_dir/stem.md] while the file written is [stem.md] beside the
    source. *)
Theorem convert_file_async_output_dir (self : AsyncDocumentConverter.t)
    (file_path : Path) (output_dir : option Path)
    (pattern custom_prompt : option str) (force : bool) (w w' : world)
    (r : AsyncDocumentConverter.job_result) :
  AsyncDocumentConverter.convert_file_async self file_path output_dir pattern
    custom_prompt force w = (Ok r, w') →
  AsyncDocumentConverter.status r = py "success" →
  ∃ reported written markdown,
    parse_output_location w file_path output_dir pattern true = Ok reported
    ∧ parse_output_location w file_path None pattern false = Ok written
    ∧ AsyncDocumentConverter.output r = Some (path_str reported)
    ∧ AsyncDocumentConverter.content_ r = Some markdown
    ∧ read_text w' written = Ok markdown
    ∧ (∀ o, output_dir = Some o → pattern = None →
            reported = joinpath_str o (path_stem file_path ++ py ".md")
            ∧ written = joinpath_str (path_parent file_path)
                          (path_stem file_path ++ py ".md")).
Proof.
  intros H Hstatus. unfold AsyncDocumentConverter.convert_file_async, try_except in H.
  destruct (AsyncDocumentConverter.convert_file_try self file_path output_dir
              pattern custom_prompt force w) as [[r1|e] w1] eqn:Htry.
  2: { injection H as <- <-. done. }
  injection H as <- <-.
  unfold AsyncDocumentConverter.convert_file_try in Htry.
  apply bind_Ok_inv in Htry as (O & w2 & HO & Htry).
  unfold ask in HO. injection HO as HO <-.
  apply bind_Ok_inv in Htry as (needed & w3 & Hneeded & Htry).
  unfold ask in Hneeded. injection Hneeded as Hneeded <-.
  destruct needed; cbn [negb] in Htry.
  2: { injection Htry as <- <-. done. }
  apply bind_Ok_inv in Htry as (md & w4 & Hconv & Htry).
  injection Htry as <- <-.
  apply convert_path in Hconv as (written & Hwritten & Hread).
  exists O, written, md. repeat split; try done.
  - subst output_dir pattern.
    assert (parse_output_location w file_path (Some o) None true
            = Ok (joinpath_str o (path_stem file_path ++ py ".md"))) as Heq.
    { unfold parse_output_location. cbn [negb andb]. by rewrite orb_true_r. }
    rewrite Heq in HO. by injection HO.
  - subst output_dir pattern.
    change (parse_output_location w file_path None None false)
      with (Ok (joinpath_str (path_parent file_path)
                  (path_stem file_path ++ py ".md"))) in Hwritten.
    by injection Hwritten.
Qed.

End batch.

Lemma batch_convert_total_witness :
  ∃ results w',
    @Batch.batch_convert example_lib example_converter
      [SrcStr (py "https://docs.google.com/document/d/abc"); SrcPath report_pdf]
      None None None false example_world = (Ok results, w')
    ∧ length results = 2
    ∧ results !! 0 = Some [].
Proof.
  destruct (@batch_convert_total example_lib example_converter
              [SrcStr (py "https://docs.google.com/document/d/abc");
               SrcPath report_pdf]
              None None None false example_world)
    as (results & w' & Hrun & Hlen & Hurl).
  exists results, w'. split; [exact Hrun|]. split; [exact Hlen|].
  apply (Hurl (or_introl eq_refl) 0 (py "https://docs.google.com/document/d/abc")).
  - reflexivity.
  - vm_compute. reflexivity.
Defined.

Lemma convert_recursive_summary_witness :
  ∃ files summary w',
    @AsyncDocumentConverter.discover example_lib batch_world
      (parse_path (py "/docs"))
      (default (Batch.include_of_processors moody_converter) None)
      (default AsyncDocumentConverter.default_exclude None)
      (AsyncDocumentConverter.rglob batch_world (parse_path (py "/docs")))
    = Ok files
    ∧ @Batch.convert_recursive example_lib moody_converter
        (parse_path (py "/docs")) None None None None None false batch_world
      = (Ok summary, w')
    ∧ Batch.total summary = length files
    ∧ Batch.total summary
      = Batch.successful summary + Batch.failed summary + Batch.skipped summary.
Proof.
  apply (proj2 (@convert_recursive_summary example_lib moody_converter
                  (parse_path (py "/docs")) None None None None None false
                  batch_world)).
  vm_compute. reflexivity.
Defined.

Lemma convert_file_async_output_dir_witness :
  let run := @AsyncDocumentConverter.convert_file_async example_lib
               (AsyncDocumentConverter.mk moody_converter 2) report_pdf
               (Some (parse_path (py "/out"))) None None false batch_world in
  ∃ reported written markdown,
    parse_output_location batch_world report_pdf (Some (parse_path (py "/out")))
      None true = Ok reported
    ∧ parse_output_location batch_world report_pdf None None false = Ok written
    ∧ Some (py "/out/report.md") = Some (path_str reported)
    ∧ Some (py "# Report") = Some markdown
    ∧ read_text run.2 written = Ok markdown
    ∧ (∀ o, Some (parse_path (py "/out")) = Some o → @None str = None →
            reported = joinpath_str o (path_stem report_pdf ++ py ".md")
            ∧ written = joinpath_str (path_parent report_pdf)
                          (path_stem report_pdf ++ py ".md")).
Proof.
  intros run.
  apply (@convert_file_async_output_dir example_lib
           (AsyncDocumentConverter.mk moody_converter 2) report_pdf
           (Some (parse_path (py "/out"))) None None false batch_world run.2
           (AsyncDocumentConverter.mkResult (py "success") (py "/docs/report.pdf")
              (Some (py "/out/report.md")) (Some (py "# Report")) None)).
  - vm_compute. reflexivity.
  - reflexivity.
Defined.

Lemma clean_metadata_only_removes_witness :
  let w' := (@ConversionMetadata.clean_metadata example_lib (Some 30%Z)
               damaged_world).2 in
  fs w' = fs damaged_world ∧ cwd w' = cwd damaged_world
  ∧ trace w' = trace damaged_world
  ∧ ∀ name mf, metadata_dir w' !! name = Some mf →
               metadata_dir damaged_world !! name = Some mf.
Proof.
  intros w'.
  apply (@clean_metadata_only_removes example_lib (Some 30%Z) damaged_world w'
           (Ok 1)).
  vm_compute. reflexivity.
Defined.

(** ** Patterns and the output location *)

Lemma parse_output_location_Raise (w : world) (source_path : Path)
    (output : option Path) (pattern : option str) (is_batch : bool) (e : exn) :
  parse_output_location w source_path output pattern is_batch = Raise e
  ↔ match output with
    | Some o => negb is_batch && negb (bool_decide (path_suffix o = []))
    | None => false
    end = false
    ∧ ∃ c t, pattern = Some (c :: t) ∧ OutputPattern.__init__ (c :: t) = Raise e.
Proof.
  unfold parse_output_location.
  destruct output as [o|]; cbn beta iota.
  - destruct (negb is_batch && negb (bool_decide (path_suffix o = []))).
    + split; [done|]. by intros [? _].
    + destruct pattern as [[|c t]|].
      * split; [by destruct (is_dir w o || is_batch)|].
        by intros (_ & c & t & ? & _).
      * destruct (OutputPattern.__init__ (c :: t)) as [obj|e0] eqn:Hinit.
        -- split; [by destruct (is_dir w o)|].
           intros (_ & c' & t' & [= <- <-] & He). congruence.
        -- split.
           ++ intros [= <-]. split; [done|]. by exists c, t.
           ++ intros (_ & c' & t' & [= <- <-] & He). congruence.
      * split; [by destruct (is_dir w o || is_batch)|].
        by intros (_ & c & t & ? & _).
  - destruct pattern as [[|c t]|].
    + split; [done|]. by intros (_ & c & t & ? & _).
    + destruct (OutputPattern.__init__ (c :: t)) as [obj|e0] eqn:Hinit.
      * split; [done|]. intros (_ & c' & t' & [= <- <-] & He). congruence.
      * split.
        -- intros [= <-]. split; [done|]. by exists c, t.
        -- intros (_ & c' & t' & [= <- <-] & He). congruence.
    + split; [done|]. by intros (_ & c & t & ? & _).
Qed.

Lemma explicit_output_file_spec (output : option Path) (is_batch : bool) :
  match output with
  | Some o => negb is_batch && negb (bool_decide (path_suffix o = []))
  | None => false
  end = false
  ↔ ¬ explicit_output_file output is_batch.
Proof.
  unfold explicit_output_file. destruct output as [o|].
  - destruct is_batch; cbn [negb andb].
    + split; [|done]. by intros _ [? _].
    + destruct (bool_decide (path_suffix o = [])) eqn:Hs; cbn [negb].
      * apply bool_decide_eq_true in Hs. split; [|done].
        intros _ (_ & o' & [= <-] & Hne). done.
      * apply bool_decide_eq_false in Hs. split; [done|].
        intros Hno. destruct Hno. split; [done|]. by exists o.
  - split; [|done]. by intros _ (_ & o & ? & _).
Qed.

(** X14: [parse_output_location] fails fast and only on a bad pattern: it
    raises exactly when a pattern with an unknown placeholder is given and
    no explicit output file (non-batch) short-circuits the pattern; what it
    raises is the [ValueError] of the validation. In every other case it
    returns a path. *)
Theorem parse_output_location_raises_iff (w : world) (source_path : Path)
    (output : option Path) (pattern : option str) (is_batch : bool) :
  ((∃ e, parse_output_location w source_path output pattern is_batch = Raise e)
   ↔ (∃ template name,
        pattern = Some template ∧ placeholder_in name template
        ∧ name ∉ OutputPattern.valid_vars)
     ∧ ¬ explicit_output_file output is_batch)
  ∧ (∀ e, parse_output_location w source_path output pattern is_batch = Raise e →
          is_ValueError e = true).
Proof.
  split.
  - split.
    + intros [e He]. apply parse_output_location_Raise in He
        as (Hexp & c & t & -> & Hinit).
      split; [|by apply explicit_output_file_spec].
      destruct (proj1 (init_raises_iff (c :: t))) as (name & Hp & Hn);
        [by exists e|].
      by exists (c :: t), name.
    + intros [(template & name & -> & Hp & Hn) Hexp].
      destruct (proj2 (init_raises_iff template)) as [e He]; [by exists name|].
      exists e. apply parse_output_location_Raise.
      split; [by apply explicit_output_file_spec|].
      destruct template as [|c t]; [|by exists c, t].
      destruct Hp as (_ & _ & b & a & Hp). by destruct b.
  - intros e He. apply parse_output_location_Raise in He
      as (_ & c & t & _ & Hinit).
    unfold OutputPattern.__init__, OutputPattern._validate_pattern in Hinit.
    destruct (filter _ _); [done|]. by injection Hinit as <-.
Qed.

Lemma parse_output_location_raises_iff_witness :
  ∃ e, parse_output_location example_world report_pdf
         (Some (parse_path (py "/out"))) (Some (py "{filename}_{author}.md")) true
       = Raise e.
Proof.
  apply (proj2 (proj1 (parse_output_location_raises_iff example_world report_pdf
                         (Some (parse_path (py "/out")))
                         (Some (py "{filename}_{author}.md")) true))).
  split.
  - exists (py "{filename}_{author}.md"), (py "author").
    split; [reflexivity|]. split.
    + split; [discriminate|]. split; [by repeat constructor|].
      by exists (py "{filename}_"), (py ".md").
    + vm_compute. intros H. repeat (apply elem_of_cons in H as [H|H]; [discriminate|]).
      by apply elem_of_nil in H.
  - intros [H _]. discriminate.
Defined.

Lemma substitute_lits (vals : list (str * str)) (segs : list segment) :
  Forall (fun kv => word_chars kv.1) vals →
  Forall (fun g => ∃ text, g = Lit text ∧ brace_free text) segs →
  OutputPattern.substitute vals (render segs) = render segs.
Proof.
  intros Hvals Hsegs.
  assert (∀ key value, map (subst_segment key value) segs = segs) as Hid.
  { intros key value.
    induction Hsegs as [|g segs' (text & -> & _) Hsegs' IHs]; [done|].
    simpl. by rewrite IHs. }
  induction Hvals as [|[key value] vals Hk Hvals IH]; [done|].
  rewrite substitute_cons, replace_render.
  - by rewrite Hid.
  - done.
  - eapply Forall_impl; [exact Hsegs|]. by intros g (text & -> & ?).
Qed.

Lemma values_word_chars (w : world) (source_path base_dir : Path) :
  Forall (fun kv => word_chars kv.1) (OutputPattern.values w source_path base_dir).
Proof.
  unfold OutputPattern.values.
  repeat (apply Forall_cons; split;
          [cbn [fst]; unfold word_chars, py; cbn [list_ascii_of_string];
           by repeat constructor|]).
  by apply Forall_nil.
Qed.

Lemma brace_free_md : brace_free (py ".md").
Proof.
  split; intros H;
    repeat (apply elem_of_cons in H as [H|H]; [discriminate|]);
    by apply elem_of_nil in H.
Qed.

(** The default pattern expands to the stem with [.md]. *)
Lemma substitute_default_pattern (w : world) (source_path base_dir : Path) :
  brace_free (path_stem source_path) →
  OutputPattern.substitute (OutputPattern.values w source_path base_dir)
    (py "{filename}.md")
  = path_stem source_path ++ py ".md".
Proof.
  intros Hstem.
  pose proof (values_word_chars w source_path base_dir) as Hvals.
  unfold OutputPattern.values in *.
  apply Forall_cons in Hvals as [Hk Hvals].
  rewrite substitute_cons.
  change (py "{filename}.md") with (render [Var (py "filename"); Lit (py ".md")]).
  rewrite (replace_render (py "filename") (path_stem source_path)).
  - change (map _ [Var (py "filename"); Lit (py ".md")])
      with [Lit (path_stem source_path); Lit (py ".md")].
    rewrite substitute_lits.
    + unfold render. cbn [map render_segment concat]. by rewrite app_nil_r.
    + exact Hvals.
    + apply Forall_cons. split; [by eexists|].
      apply Forall_cons. split; [|by apply Forall_nil].
      eexists. split; [reflexivity | exact brace_free_md].
  - exact Hk.
  - apply Forall_cons. split; [exact Hk|].
    apply Forall_cons. split; [exact brace_free_md | by apply Forall_nil].
Qed.

Lemma split_no_sep (sep : ascii) (s : str) :
  sep ∉ s → split sep s = [s].
Proof.
  induction s as [|c s IH]; [done|]. intros Hnot.
  apply not_elem_of_cons in Hnot as [Hne Hnot]. simpl.
  destruct (Ascii.eqb c sep) eqn:Hc; [apply Ascii.eqb_eq in Hc; congruence|].
  by rewrite IH.
Qed.

(** A name without a slash, followed by [.md], is a one-component
    relative path. *)
Lemma parse_path_name_md (stem : str) :
  chr_slash ∉ stem →
  parse_path (stem ++ py ".md") = mkPath [] [stem ++ py ".md"].
Proof.
  intros Hnot.
  assert (chr_slash ∉ stem ++ py ".md") as Hnot'.
  { intros H. apply elem_of_app in H as [H|H]; [done|].
    repeat (apply elem_of_cons in H as [H|H]; [discriminate|]).
    by apply elem_of_nil in H. }
  assert (leading_slashes (stem ++ py ".md") = 0) as Hlead.
  { destruct stem as [|c stem]; [reflexivity|].
    apply not_elem_of_cons in Hnot as [Hne _]. simpl.
    destruct (Ascii.eqb c chr_slash) eqn:Hc; [|done].
    apply Ascii.eqb_eq in Hc. congruence. }
  unfold parse_path. rewrite Hlead, drop_0.
  rewrite split_no_sep by done.
  assert (is_component (stem ++ py ".md") = true) as Hcomp.
  { unfold is_component.
    rewrite !bool_decide_eq_false_2; [done| |].
    - intros H. apply (f_equal length) in H. rewrite length_app in H.
      simpl in H. lia.
    - intros H. apply (f_equal length) in H. rewrite length_app in H.
      simpl in H. lia. }
  unfold List.filter. by rewrite Hcomp.
Qed.

(** X15: the default pattern [{filename}.md] gives the default behaviour:
    for a source whose stem has no brace and no slash, resolving the output
    with that pattern is resolving it with no pattern, when no output is
    given or the output is an existing directory. *)
Theorem default_pattern_is_default (w : world) (source_path : Path)
    (output : option Path) (is_batch : bool) :
  brace_free (path_stem source_path) →
  chr_slash ∉ path_stem source_path →
  output = None ∨ (∃ o, output = Some o ∧ is_dir w o = true) →
  parse_output_location w source_path output (Some (py "{filename}.md")) is_batch
  = parse_output_location w source_path output None is_batch.
Proof.
  intros Hbrace Hslash Hout.
  assert (OutputPattern.__init__ (py "{filename}.md")
          = Ok (OutputPattern.mk (py "{filename}.md"))) as Hinit
    by (vm_compute; reflexivity).
  assert (OutputPattern.apply (OutputPattern.mk (py "{filename}.md")) w
            source_path None
          = joinpath_str (path_parent source_path)
              (path_stem source_path ++ py ".md")) as Happly.
  { unfold OutputPattern.apply. cbn [OutputPattern.pattern].
    rewrite substitute_default_pattern by done.
    rewrite parse_path_name_md by done.
    change (is_absolute (mkPath [] _)) with false. cbn [negb].
    change (contains (py "{filename}.md") (py "{path}")) with false.
    unfold joinpath_str. by rewrite parse_path_name_md. }
  assert (path_name (joinpath_str (path_parent source_path)
                       (path_stem source_path ++ py ".md"))
          = path_stem source_path ++ py ".md") as Hname.
  { unfold joinpath_str. rewrite parse_path_name_md by done.
    unfold joinpath. change (is_absolute (mkPath [] _)) with false.
    cbn [negb]. unfold path_name. cbn [parts]. by rewrite List.last_last. }
  unfold parse_output_location.
  change (py "{filename}.md") with ("{"%char :: py "filename}.md") at 1.
  cbn beta iota.
  change ("{"%char :: py "filename}.md") with (py "{filename}.md").
  rewrite Hinit, Happly, Hname.
  destruct Hout as [-> | (o & -> & Hdir)]; [done|].
  rewrite Hdir. cbn [orb].
  by destruct (negb is_batch && negb (bool_decide (path_suffix o = []))).
Qed.

Lemma default_pattern_is_default_witness :
  parse_output_location example_world report_pdf
    (Some (parse_path (py "/out"))) (Some (py "{filename}.md")) true
  = parse_output_location example_world report_pdf
      (Some (parse_path (py "/out"))) None true.
Proof.
  apply default_pattern_is_default.
  - split; intros H; vm_compute in H;
      repeat (apply elem_of_cons in H as [H|H]; [discriminate|]);
      by apply elem_of_nil in H.
  - intros H; vm_compute in H;
      repeat (apply elem_of_cons in H as [H|H]; [discriminate|]);
      by apply elem_of_nil in H.
  - right. exists (parse_path (py "/out")). split; [reflexivity|].
    vm_compute. reflexivity.
Defined.

Lemma common_segments_render :
  map (fun kv => (kv.1, render kv.2)) common_segments = common_patterns.
Proof. reflexivity. Qed.

Lemma common_segments_recognized (name : str) (segs : list segment) :
  (name, segs) ∈ common_segments → Forall recognized_segment segs.
Proof.
  intros H. unfold common_segments in H.
  repeat (apply elem_of_cons in H as [H|H];
          [injection H as _ ->;
           repeat (apply Forall_cons; split;
                   [by (unfold recognized_segment, brace_free;
                        apply (bool_decide_unpack _); vm_compute)|]);
           by apply Forall_nil|]).
  by apply elem_of_nil in H.
Qed.

(** X16: every pattern of [common_patterns] is accepted by
    [OutputPattern], and for a source and a base directory without braces
    it expands to a path in which no brace is left. *)
Theorem common_patterns_expand (name template : str) (w : world)
    (source_path : Path) (base_dir : option Path) :
  (name, template) ∈ common_patterns →
  path_brace_free source_path →
  path_brace_free (default (cwd w) base_dir) →
  OutputPattern.__init__ template = Ok (OutputPattern.mk template)
  ∧ brace_free (path_str (OutputPattern.apply (OutputPattern.mk template) w
                            source_path base_dir)).
Proof.
  intros Hin Hs Hb. rewrite <- common_segments_render in Hin.
  apply list_elem_of_fmap in Hin as ([k segs] & [= -> ->] & Hin).
  assert (only_recognized (render segs)) as Hrec.
  { exists segs. split; [|done]. by eapply common_segments_recognized. }
  split; [by apply only_recognized_init | by apply apply_brace_free].
Qed.

Lemma common_patterns_expand_witness :
  OutputPattern.__init__ (py "{path}/.documark/{filename}.md")
  = Ok (OutputPattern.mk (py "{path}/.documark/{filename}.md"))
  ∧ brace_free (path_str (OutputPattern.apply
                            (OutputPattern.mk (py "{path}/.documark/{filename}.md"))
                            example_world report_pdf None)).
Proof.
  apply (common_patterns_expand (py "nested")).
  - apply (bool_decide_unpack _). vm_compute. exact I.
  - unfold path_brace_free, brace_free. apply (bool_decide_unpack _). vm_compute. exact I.
  - unfold path_brace_free, brace_free. apply (bool_decide_unpack _). vm_compute. exact I.
Defined.

(** ** Discovery *)

Section discovery.
Context `{lib : PyLib}.

Lemma discover_filter (w : world) (directory : Path) (include exclude : list str)
    (candidates : list Path) :
  ∀ files,
    AsyncDocumentConverter.discover w directory include exclude candidates
    = Ok files →
    files = List.filter (selected w directory include exclude) candidates.
Proof.
  induction candidates as [|f rest IH]; intros files H.
  - by injection H as <-.
  - cbn [AsyncDocumentConverter.discover List.filter] in *. unfold selected at 1.
    destruct (is_file w f); cbn [negb andb] in *; [|by apply IH].
    destruct (relative_to f directory) as [rel|]; [|done].
    destruct (existsb (fun pat => fnmatch (path_str rel) pat) include);
      cbn [negb andb] in *; [|by apply IH].
    destruct (existsb (fun pat => fnmatch (path_str rel) pat) exclude);
      cbn [negb] in *; [by apply IH|].
    destruct (AsyncDocumentConverter.discover w directory include exclude rest)
      as [l|e]; [|done].
    injection H as <-. f_equal. by apply IH.
Qed.

(** X17: the discovery loop is a filter: whenever it returns, the files it
    returns are the candidates, in their order, that are files and whose
    path relative to the directory matches some include pattern and no
    exclude pattern; over [directory.rglob] it always returns. *)
Theorem discover_selects (w : world) (directory : Path)
    (include exclude : list str) :
  (∀ candidates files,
     AsyncDocumentConverter.discover w directory include exclude candidates
     = Ok files →
     files = List.filter (selected w directory include exclude) candidates)
  ∧ ∃ files,
      AsyncDocumentConverter.discover w directory include exclude
        (AsyncDocumentConverter.rglob w directory) = Ok files
      ∧ ∀ f, f ∈ files ↔
             f ∈ AsyncDocumentConverter.rglob w directory
             ∧ is_file w f = true
             ∧ ∃ rel, relative_to f directory = Some rel
                      ∧ existsb (fun pat => fnmatch (path_str rel) pat) include
                        = true
                      ∧ existsb (fun pat => fnmatch (path_str rel) pat) exclude
                        = false.
Proof.
  split; [intros candidates files; apply discover_filter|].
  destruct (discover_total w directory include exclude
              (AsyncDocumentConverter.rglob w directory)) as (files & Hfiles).
  { intros f Hf. by eapply rglob_relative. }
  exists files. split; [done|]. intros f.
  rewrite (discover_filter _ _ _ _ _ _ Hfiles).
  rewrite list_elem_of_In, filter_In, <- list_elem_of_In. unfold selected.
  split.
  - intros [Hin Hsel]. split; [done|].
    apply andb_true_iff in Hsel as [Hfile Hsel]. split; [done|].
    destruct (relative_to f directory) as [rel|]; [|done].
    exists rel. split; [done|].
    apply andb_true_iff in Hsel as [Hinc Hexc].
    split; [done|]. by apply negb_true_iff.
  - intros (Hin & Hfile & rel & -> & Hinc & Hexc). split; [done|].
    by rewrite Hfile, Hinc, Hexc.
Qed.

End discovery.

(** ** The run of the jobs under the semaphore *)

Section run.
Import Semaphore.

Lemma steps_left_insert (l : list phase) (i : nat) (p p' : phase) :
  l !! i = Some p →
  sum_list (map steps_left (<[i := p']> l)) + steps_left p
  = sum_list (map steps_left l) + steps_left p'.
Proof.
  revert i. induction l as [|q l IH]; intros [|i] Hi; try done.
  - injection Hi as ->. simpl. lia.
  - simpl in *. specialize (IH i Hi). lia.
Qed.

Lemma step_remaining (s s' : state) :
  step s s' → remaining s' < remaining s.
Proof.
  unfold remaining.
  intros [s0 i Hi Hpos | s0 i Hi | s0 i Hi | s0 i Hi | s0 i Hi | s0 i Hi];
    cbn [jobs];
    match goal with
    | |- context [<[i := ?p']> _] =>
        pose proof (steps_left_insert (jobs s0) i _ p' Hi) as Hsum
    end; cbn [steps_left] in Hsum; lia.
Qed.

Lemma remaining_init (max_workers files : nat) :
  remaining (init max_workers files) = 3 * files.
Proof.
  unfold remaining, init. cbn [jobs].
  induction files as [|n IH]; [done|]. simpl in *. lia.
Qed.

Lemma step_keeps_finished (s s' : state) (i : nat) (status : str) :
  step s s' → jobs s !! i = Some (Finished status) →
  jobs s' !! i = Some (Finished status).
Proof.
  intros [s0 j Hj Hpos | s0 j Hj | s0 j Hj | s0 j Hj | s0 j Hj | s0 j Hj] Hi;
    cbn [jobs];
    (destruct (decide (i = j)) as [-> | Hne];
     [congruence | by rewrite list_lookup_insert_ne]).
Qed.

(** X18: with at least one worker the jobs never deadlock: in every state
    of a run in which some job has not finished, a step can be taken. *)
Theorem semaphore_progress (max_workers files : nat) (s : state) (i : nat)
    (p : phase) :
  0 < max_workers →
  reachable max_workers files s →
  jobs s !! i = Some p →
  ¬ is_finished p →
  ∃ s', step s s'.
Proof.
  intros Hpos Hreach Hi Hnot.
  destruct (decide (Checking ∈ jobs s)) as [Hc | Hno_c].
  { apply list_elem_of_lookup in Hc as [j Hj]. eexists. by apply (submit s j). }
  destruct (decide (Rendering ∈ jobs s)) as [Hr | Hno_r].
  { apply list_elem_of_lookup in Hr as [j Hj]. eexists. by apply (converted s j). }
  assert (∀ q, q ∉ jobs s → count q s = 0) as Hzero.
  { intros q Hq. unfold count.
    destruct (List.filter (fun x => bool_decide (x = q)) (jobs s)) as [|x l] eqn:Hf;
      [done|].
    assert (In x (List.filter (fun x => bool_decide (x = q)) (jobs s))) as Hin
      by (rewrite Hf; by left).
    apply filter_In in Hin as [Hin Hx]. apply bool_decide_eq_true in Hx as ->.
    by apply list_elem_of_In in Hin. }
  destruct (invariant_reachable max_workers files s Hreach) as [Hval _].
  unfold holding in Hval.
  rewrite (Hzero Checking Hno_c), (Hzero Rendering Hno_r) in Hval.
  destruct p as [| | |status].
  - eexists. apply (acquire s i); [done | lia].
  - destruct Hno_c. by eapply list_elem_of_lookup_2.
  - destruct Hno_r. by eapply list_elem_of_lookup_2.
  - destruct Hnot. by exists status.
Qed.

(** X19: a run ends: from the start, no sequence of steps is longer than
    three per file (acquire, check, convert), and a job that has finished
    keeps its result. *)
Theorem semaphore_run_bounded (max_workers files n : nat) (s : state) :
  nsteps step n (init max_workers files) s →
  n + remaining s ≤ 3 * files
  ∧ ∀ s' i status, step s s' → jobs s !! i = Some (Finished status) →
                   jobs s' !! i = Some (Finished status).
Proof.
  intros Hrun. split; [|intros s' i status; apply step_keeps_finished].
  rewrite <- (remaining_init max_workers files).
  induction Hrun as [s0 | n0 s0 s1 s2 Hstep Hrun IH]; [lia|].
  apply step_remaining in Hstep. lia.
Qed.

End run.

Lemma semaphore_progress_witness : ∃ s', Semaphore.step Semaphore.two_rendering s'.
Proof.
  apply (semaphore_progress 2 10 Semaphore.two_rendering 2 Semaphore.Queued).
  - lia.
  - apply two_rendering_reachable.
  - reflexivity.
  - intros [status H]. discriminate.
Defined.

Lemma semaphore_run_bounded_witness :
  1 + remaining (Semaphore.mkState 1 (<[0 := Semaphore.Checking]>
                                        (replicate 10 Semaphore.Queued)))
  ≤ 3 * 10.
Proof.
  apply (semaphore_run_bounded 2 10 1).
  apply (nsteps_l _ _ _ _ _ (Semaphore.acquire (Semaphore.init 2 10) 0
                               eq_refl (le_S 1 1 (le_n 1)))).
  apply nsteps_O.
Defined.

Lemma discover_selects_witness :
  ∃ files,
    @AsyncDocumentConverter.discover example_lib batch_world
      (parse_path (py "/docs")) AsyncDocumentConverter.default_include
      AsyncDocumentConverter.default_exclude
      (AsyncDocumentConverter.rglob batch_world (parse_path (py "/docs")))
    = Ok files
    ∧ ∀ f, f ∈ files ↔
           f ∈ AsyncDocumentConverter.rglob batch_world (parse_path (py "/docs"))
           ∧ is_file batch_world f = true
           ∧ ∃ rel, relative_to f (parse_path (py "/docs")) = Some rel
                    ∧ existsb (fun pat => @fnmatch example_lib (path_str rel) pat)
                        AsyncDocumentConverter.default_include = true
                    ∧ existsb (fun pat => @fnmatch example_lib (path_str rel) pat)
                        AsyncDocumentConverter.default_exclude = false.
Proof.
  apply (proj2 (@discover_selects example_lib batch_world (parse_path (py "/docs"))
                  AsyncDocumentConverter.default_include
                  AsyncDocumentConverter.default_exclude)).
Defined.

(** ** The response of the model *)

Section response.
Context `{lib : PyLib}.

(** X20: what [_convert_with_llm] makes of a text response: a JSON object
    whose [markdown_content] is a string gives that string, stripped, and
    no warning; a response that is not JSON, or an object without the
    field, gives the whole response, stripped, after a warning. Nothing
    but the trace changes. *)
Theorem extraction_of_text_response (self : DocumentConverter.t)
    (images : list str) (filename : str) (custom_prompt : option str)
    (w : world) (text : str) :
  DocumentConverter.completion self (DocumentConverter.model self)
    DocumentConverter.system_prompt (user_prompt filename custom_prompt) images
  = Ok (Some text) →
  (∀ items markdown,
     json_loads text = Some (JObj items) →
     dict_find items (py "markdown_content") = Some (JStr markdown) →
     DocumentConverter._convert_with_llm self images filename custom_prompt w
     = (Ok (strip markdown),
        log (ECompletion (user_prompt filename custom_prompt) images) w))
  ∧ (json_loads text = None
     ∨ (∃ items, json_loads text = Some (JObj items)
                 ∧ dict_find items (py "markdown_content") = None) →
     ∃ e,
       DocumentConverter._convert_with_llm self images filename custom_prompt w
       = (Ok (strip text),
          log (EPrint (warning_message e))
            (log (ECompletion (user_prompt filename custom_prompt) images) w))).
Proof.
  intros Hresp. split.
  - intros items markdown Hjson Hfind.
    unfold DocumentConverter._convert_with_llm, try_except, bind, emit, update,
      lift, console_print, emit, update.
    fold (user_prompt filename custom_prompt). rewrite Hresp.
    unfold DocumentConverter.loads, DocumentConverter.subscript.
    by rewrite Hjson, Hfind.
  - destruct (extraction_falls_back self images filename custom_prompt w text
                Hresp) as [Hnot Hmissing].
    intros [Hjson | (items & Hjson & Hfind)].
    + exists JSONDecodeError. by apply Hnot.
    + exists (KeyError (py "markdown_content")). by eapply Hmissing.
Qed.

End response.

Lemma extraction_of_text_response_witness :
  ∃ e,
    @DocumentConverter._convert_with_llm example_lib plain_converter
      [py "page-1"] (py "report.pdf") None example_world
    = (Ok (py "# Title"),
       log (EPrint (warning_message e))
         (log (ECompletion (user_prompt (py "report.pdf") None) [py "page-1"])
            example_world)).
Proof.
  apply (proj2 (@extraction_of_text_response example_lib plain_converter
                  [py "page-1"] (py "report.pdf") None example_world
                  (py "  # Title ") eq_refl)).
  left. vm_compute. reflexivity.
Defined.

(** ** The processors of a converter *)

Section dispatch.
Context `{lib : PyLib}.
Variables (pdf_process docx_process image_process : world → Path → result (list str)).
Variable google : Processor.
Variable self : DocumentConverter.t.
Hypothesis processors_self :
  DocumentConverter.processors self
  = default_processors pdf_process docx_process image_process google.
Hypothesis google_extensions : supported_extensions google = None.

Lemma supported_types_message :
  join (py ", ")
    (DocumentConverter.sorted_set
       (pdf_extensions ++ docx_extensions ++ image_extensions ++ []))
  = py ".bmp, .doc, .docx, .gif, .jpeg, .jpg, .pdf, .png, .tif, .tiff, .webp".
Proof. vm_compute. reflexivity. Qed.

(** [_get_processor] with the processors of [__init__], as one equation. *)
Lemma get_processor_default (src : source) :
  DocumentConverter._get_processor self src
  = let suffix := lower (path_suffix (DocumentConverter.as_path src)) in
    if bool_decide (suffix ∈ pdf_extensions) then Ok (PDFProcessor pdf_process)
    else if bool_decide (suffix ∈ docx_extensions)
    then Ok (DocxProcessor docx_process)
    else if bool_decide (suffix ∈ image_extensions)
    then Ok (ImageProcessor image_process)
    else if can_process google src then Ok google
    else Raise (ValueError (no_processor_message src)).
Proof using All.
  unfold DocumentConverter._get_processor. rewrite processors_self.
  unfold default_processors. cbn [List.find map concat].
  change (can_process (PDFProcessor pdf_process) src)
    with (bool_decide (lower (path_suffix (DocumentConverter.as_path src))
                       ∈ pdf_extensions)).
  change (can_process (DocxProcessor docx_process) src)
    with (bool_decide (lower (path_suffix (DocumentConverter.as_path src))
                       ∈ docx_extensions)).
  change (can_process (ImageProcessor image_process) src)
    with (bool_decide (lower (path_suffix (DocumentConverter.as_path src))
                       ∈ image_extensions)).
  cbn zeta.
  destruct (bool_decide (_ ∈ pdf_extensions)); [done|].
  destruct (bool_decide (_ ∈ docx_extensions)); [done|].
  destruct (bool_decide (_ ∈ image_extensions)); [done|].
  destruct (can_process google src); [done|].
  rewrite google_extensions.
  change (default [] (supported_extensions (PDFProcessor pdf_process)))
    with pdf_extensions.
  change (default [] (supported_extensions (DocxProcessor docx_process)))
    with docx_extensions.
  change (default [] (supported_extensions (ImageProcessor image_process)))
    with image_extensions.
  change (default [] None) with (@nil str).
  rewrite app_nil_r.
  unfold no_processor_message. by rewrite <- supported_types_message.
Qed.

(** X21: with the processors of [DocumentConverter.__init__], a source is
    dispatched by the lower-cased suffix of [Path(source)], to the PDF, the
    Word and the image processor in this order, before the last processor
    is asked; this holds for URL strings too, so a URL that ends in [.pdf]
    goes to the PDF processor. When no processor accepts the source, the
    [ValueError] lists the eleven file extensions and nothing of the last
    processor. *)
Theorem default_processor_dispatch (src : source) :
  let suffix := lower (path_suffix (DocumentConverter.as_path src)) in
  (suffix ∈ pdf_extensions →
   DocumentConverter._get_processor self src = Ok (PDFProcessor pdf_process))
  ∧ (suffix ∈ docx_extensions →
     DocumentConverter._get_processor self src = Ok (DocxProcessor docx_process))
  ∧ (suffix ∈ image_extensions →
     DocumentConverter._get_processor self src = Ok (ImageProcessor image_process))
  ∧ (suffix ∉ pdf_extensions ++ docx_extensions ++ image_extensions →
     DocumentConverter._get_processor self src
     = if can_process google src then Ok google
       else Raise (ValueError (no_processor_message src))).
Proof using All.
  intros suffix. rewrite get_processor_default. fold suffix. cbn zeta.
  assert (∀ x, x ∈ pdf_extensions → (x ∉ docx_extensions) ∧ (x ∉ image_extensions))
    as Hpdf.
  { intros x Hx. apply list_elem_of_singleton in Hx as ->.
    split; apply (bool_decide_unpack _); by vm_compute. }
  assert (∀ x, x ∈ docx_extensions → x ∉ image_extensions) as Hdocx.
  { intros x Hx. unfold docx_extensions in Hx.
    apply elem_of_cons in Hx as [-> | Hx];
      [|apply list_elem_of_singleton in Hx as ->];
      apply (bool_decide_unpack _); by vm_compute. }
  repeat split.
  - intros H. by rewrite bool_decide_eq_true_2.
  - intros H. rewrite bool_decide_eq_false_2.
    + by rewrite bool_decide_eq_true_2.
    + intros H'. by destruct (Hpdf _ H').
  - intros H. rewrite bool_decide_eq_false_2.
    + rewrite bool_decide_eq_false_2; [by rewrite bool_decide_eq_true_2|].
      intros H'. by destruct (Hdocx _ H').
    + intros H'. by destruct (Hpdf _ H').
  - intros H. rewrite !elem_of_app in H.
    rewrite !bool_decide_eq_false_2; [done|..]; intros H'; apply H; auto.
Qed.

(** X22: [convert] on an [http(s)] URL whose path ends in the extension
    of a file processor (any case) does not download it: the file processor
    is chosen, looks for a local file of that name, and [convert] raises the
    "File not found" error, having written nothing. *)
Theorem convert_url_with_file_suffix (url : str) (output : source)
    (pattern custom_prompt : option str) (force : bool) (w : world) :
  DocumentConverter.is_url url = true →
  lower (path_suffix (parse_path url))
  ∈ pdf_extensions ++ docx_extensions ++ image_extensions →
  DocumentConverter.nonempty output = true →
  path_exists w (parse_path url) = false →
  DocumentConverter.convert self (SrcStr url) (Some output) pattern
    custom_prompt force w
  = (Raise (OSError (py "File not found: " ++ path_str (parse_path url))),
     log (EGetContent (SrcStr url)) w).
Proof using All.
  intros Hurl Hsuffix Hout Hmissing.
  assert (∃ exts process,
            DocumentConverter._get_processor self (SrcStr url)
            = Ok (FileProcessor.make exts process)) as (exts & process & Hproc).
  { rewrite get_processor_default. cbn zeta.
    change (DocumentConverter.as_path (SrcStr url)) with (parse_path url).
    destruct (bool_decide (_ ∈ pdf_extensions)) eqn:H1; [by eexists _, _|].
    destruct (bool_decide (_ ∈ docx_extensions)) eqn:H2; [by eexists _, _|].
    destruct (bool_decide (_ ∈ image_extensions)) eqn:H3; [by eexists _, _|].
    apply bool_decide_eq_false in H1, H2, H3.
    rewrite !elem_of_app in Hsuffix. tauto. }
  unfold DocumentConverter.convert. rewrite Hurl. cbn [negb].
  rewrite Hout. unfold bind at 1, ret. unfold bind at 1, ret. cbn [negb].
  unfold bind at 1, lift. rewrite Hproc.
  unfold bind at 1, emit, update. unfold bind at 1, ask.
  cbn [get_content FileProcessor.make].
  unfold FileProcessor.get_content, FileProcessor.validate_file.
  change (DocumentConverter.as_path (SrcStr url)) with (parse_path url).
  change (path_exists (log (EGetContent (SrcStr url)) w) (parse_path url))
    with (path_exists w (parse_path url)).
  by rewrite Hmissing.
Qed.

End dispatch.

Lemma default_processor_dispatch_witness :
  DocumentConverter._get_processor default_converter (SrcStr pdf_url)
  = Ok (PDFProcessor one_page).
Proof.
  apply (proj1 (default_processor_dispatch (lib := example_lib) one_page one_page one_page
                  example_google default_converter eq_refl eq_refl
                  (SrcStr pdf_url))).
  apply (bool_decide_unpack _). vm_compute. exact I.
Defined.

Lemma convert_url_with_file_suffix_witness :
  @DocumentConverter.convert example_lib default_converter (SrcStr pdf_url)
    (Some (SrcStr (py "/out/report.md"))) None None false example_world
  = (Raise (OSError (py "File not found: " ++ path_str (parse_path pdf_url))),
     log (EGetContent (SrcStr pdf_url)) example_world).
Proof.
  apply (convert_url_with_file_suffix (lib := example_lib) one_page one_page one_page
           example_google default_converter eq_refl eq_refl).
  - vm_compute. reflexivity.
  - apply (bool_decide_unpack _). vm_compute. exact I.
  - vm_compute. reflexivity.
  - vm_compute. reflexivity.
Defined.

(** ** Google Docs sources *)

Section google.
Import GoogleDocsProcessor.

Lemma startswith_app (p s : str) : startswith (p ++ s) p = true.
Proof.
  induction p as [|c p IH]; [done|]. simpl.
  by rewrite IH, Ascii.eqb_refl.
Qed.

Lemma span_id_app (doc_id rest : str) :
  forallb id_char doc_id = true →
  match rest with [] => True | c :: _ => id_char c = false end →
  span_id (doc_id ++ rest) = doc_id.
Proof.
  intros Hid Hrest. induction doc_id as [|c doc_id IH].
  - destruct rest as [|c rest]; [done|]. simpl. by rewrite Hrest.
  - simpl in *. apply andb_true_iff in Hid as [Hc Hid].
    by rewrite Hc, IH.
Qed.

Lemma match_kind_same (kind doc_id rest : str) :
  doc_id ≠ [] →
  forallb id_char doc_id = true →
  match rest with [] => True | c :: _ => id_char c = false end →
  match_kind (kind ++ py "/d/" ++ doc_id ++ rest) kind = Some doc_id.
Proof.
  intros Hne Hid Hrest. unfold match_kind.
  rewrite (app_assoc kind (py "/d/")).
  rewrite startswith_app, drop_app_length, span_id_app by done.
  by destruct doc_id.
Qed.

Lemma search_skip (c : ascii) (s : str) :
  c ≠ "d"%char → search (c :: s) = search s.
Proof.
  intros Hc. cbn [search]. unfold match_here.
  change (startswith (c :: s) (py "docs.google.com/"))
    with (Ascii.eqb c "d"%char && startswith s (py "ocs.google.com/")).
  by rewrite (proj2 (Ascii.eqb_neq c "d"%char) Hc).
Qed.

Lemma search_https (s : str) : search (py "https://" ++ s) = search s.
Proof.
  unfold py. cbn [list_ascii_of_string app].
  by rewrite !search_skip by discriminate.
Qed.

Lemma build_export_url_kind (doc_id kind format : str) :
  kind ∈ kinds →
  _build_export_url doc_id kind format
  = py "https://" ++ py "docs.google.com/" ++ kind ++ py "/d/" ++ doc_id
    ++ py "/export?format=" ++ format.
Proof.
  intros Hkind. unfold kinds, EXPORT_FORMATS in Hkind. cbn [map fst] in Hkind.
  repeat (apply elem_of_cons in Hkind as [-> | Hkind]; [reflexivity|]).
  by apply elem_of_nil in Hkind.
Qed.

Lemma match_here_export (doc_id kind rest : str) :
  kind ∈ kinds →
  doc_id ≠ [] →
  forallb id_char doc_id = true →
  match rest with [] => True | c :: _ => id_char c = false end →
  match_here (py "docs.google.com/" ++ kind ++ py "/d/" ++ doc_id ++ rest)
  = Some doc_id.
Proof.
  intros Hkind Hne Hid Hrest. unfold match_here.
  rewrite startswith_app.
  change 16 with (length (py "docs.google.com/")). rewrite drop_app_length.
  unfold kinds, EXPORT_FORMATS in Hkind. cbn [map fst] in Hkind.
  apply elem_of_cons in Hkind as [-> | Hkind].
  { by rewrite match_kind_same. }
  apply elem_of_cons in Hkind as [-> | Hkind].
  { change (match_kind (py "spreadsheets" ++ py "/d/" ++ doc_id ++ rest)
              (py "document")) with (@None str).
    by rewrite match_kind_same. }
  apply elem_of_cons in Hkind as [-> | Hkind]; [|by apply elem_of_nil in Hkind].
  change (match_kind (py "presentation" ++ py "/d/" ++ doc_id ++ rest)
            (py "document")) with (@None str).
  change (match_kind (py "presentation" ++ py "/d/" ++ doc_id ++ rest)
            (py "spreadsheets")) with (@None str).
  by rewrite match_kind_same.
Qed.

Lemma search_export_url (doc_id kind format : str) :
  kind ∈ kinds →
  doc_id ≠ [] →
  forallb id_char doc_id = true →
  search (_build_export_url doc_id kind format) = Some doc_id.
Proof.
  intros Hkind Hne Hid.
  rewrite build_export_url_kind, search_https by done.
  assert (match_here (py "docs.google.com/" ++ kind ++ py "/d/" ++ doc_id
                      ++ py "/export?format=" ++ format) = Some doc_id) as Hm
    by by apply match_here_export.
  destruct (py "docs.google.com/" ++ kind ++ py "/d/" ++ doc_id
            ++ py "/export?format=" ++ format) as [|c s] eqn:Hs;
    cbn [search]; by rewrite Hm.
Qed.

(** X23: the export URL that [_build_export_url] makes for a non-empty id
    over the characters of the pattern, and one of the three kinds, is a
    source the processor accepts, and [extract_document_id] gives the id
    back, whatever the export format. *)
Theorem export_url_round_trip `{lib : PyLib} (repr : json → str) (w : world)
    (doc_id kind format : str) :
  kind ∈ kinds →
  doc_id ≠ [] →
  forallb id_char doc_id = true →
  can_process (SrcStr (_build_export_url doc_id kind format)) = true
  ∧ extract_document_id repr w (SrcStr (_build_export_url doc_id kind format))
    = Ok doc_id.
Proof.
  intros Hkind Hne Hid.
  pose proof (search_export_url doc_id kind format Hkind Hne Hid) as Hsearch.
  unfold can_process, extract_document_id. by rewrite Hsearch.
Qed.

End google.

Lemma export_url_round_trip_witness :
  GoogleDocsProcessor.can_process
    (SrcStr (py "https://docs.google.com/presentation/d/1aB-c_9/export?format=pdf"))
  = true
  ∧ @GoogleDocsProcessor.extract_document_id example_lib (fun _ => []) example_world
      (SrcStr (py "https://docs.google.com/presentation/d/1aB-c_9/export?format=pdf"))
    = Ok (py "1aB-c_9").
Proof.
  apply (@export_url_round_trip example_lib (fun _ => []) example_world
           (py "1aB-c_9") (py "presentation") (py "pdf")).
  - apply (bool_decide_unpack _). vm_compute. exact I.
  - discriminate.
  - vm_compute. reflexivity.
Defined.

Section doc_type.
Import GoogleDocsProcessor.

Lemma startswith_app_sep (l : str) (c : ascii) (q w : str) :
  c ∉ w → startswith (l ++ c :: q) w = startswith l w.
Proof.
  revert l. induction w as [|a w IH]; intros l Hc; [done|].
  apply not_elem_of_cons in Hc as [Hne Hc].
  destruct l as [|x l]; simpl.
  - by rewrite (proj2 (Ascii.eqb_neq c a) Hne).
  - by rewrite IH.
Qed.

Lemma contains_nil (w : str) : w ≠ [] → contains [] w = false.
Proof. by destruct w. Qed.

Lemma contains_sep (p : str) (c : ascii) (s w : str) :
  w ≠ [] → c ∉ w →
  contains (p ++ c :: s) w = contains p w || contains s w.
Proof.
  intros Hw Hc. induction p as [|x p IH].
  - rewrite contains_nil by done. cbn [app contains orb].
    destruct w as [|a w]; [done|].
    apply not_elem_of_cons in Hc as [Hne _]. simpl.
    by rewrite (proj2 (Ascii.eqb_neq c a) Hne).
  - change ((x :: p) ++ c :: s) with (x :: (p ++ c :: s)).
    cbn [contains]. rewrite IH.
    change (x :: (p ++ c :: s)) with ((x :: p) ++ c :: s).
    rewrite startswith_app_sep by done.
    by rewrite !orb_assoc.
Qed.

Lemma no_slash_spreadsheets : chr_slash ∉ py "spreadsheets".
Proof. apply (bool_decide_unpack _). by vm_compute. Qed.

Lemma no_slash_presentation : chr_slash ∉ py "presentation".
Proof. apply (bool_decide_unpack _). by vm_compute. Qed.

(** A word without a slash occurs in the export URL where it occurs in the
    head of the URL or in the id. *)
Lemma contains_export_url (head doc_id word : str) :
  word ≠ [] → chr_slash ∉ word →
  contains (head ++ py "/" ++ doc_id ++ py "/export?format=pdf") word
  = contains head word || contains doc_id word
    || contains (py "export?format=pdf") word.
Proof.
  intros Hw Hc.
  change (py "/" ++ doc_id ++ py "/export?format=pdf")
    with (chr_slash :: (doc_id ++ chr_slash :: py "export?format=pdf")).
  rewrite !contains_sep by done. by rewrite orb_assoc.
Qed.

Lemma export_url_split (doc_id kind : str) :
  kind ∈ kinds →
  _build_export_url doc_id kind (py "pdf")
  = (py "https://docs.google.com/" ++ kind ++ py "/d") ++ py "/" ++ doc_id
    ++ py "/export?format=pdf".
Proof.
  intros Hkind. unfold kinds, EXPORT_FORMATS in Hkind. cbn [map fst] in Hkind.
  repeat (apply elem_of_cons in Hkind as [-> | Hkind]; [reflexivity|]).
  by apply elem_of_nil in Hkind.
Qed.

Lemma endswith_export_url (head : str) :
  endswith (head ++ py "/export?format=pdf") (py ".gsheet") = false
  ∧ endswith (head ++ py "/export?format=pdf") (py ".gslides") = false.
Proof. unfold endswith. rewrite rev_app_distr. by split. Qed.

(** The type read off an export URL. *)
Lemma determine_doc_type_export (doc_id kind : str) :
  kind ∈ kinds →
  _determine_doc_type (SrcStr (_build_export_url doc_id kind (py "pdf")))
  = if contains doc_id (py "spreadsheets")
       || bool_decide (kind = py "spreadsheets")
    then py "spreadsheets"
    else if contains doc_id (py "presentation")
            || bool_decide (kind = py "presentation")
    then py "presentation"
    else py "document".
Proof.
  intros Hkind. unfold _determine_doc_type. cbn [DocumentConverter.source_str].
  rewrite export_url_split by done.
  set (head := py "https://docs.google.com/" ++ kind ++ py "/d").
  assert (endswith (head ++ py "/" ++ doc_id ++ py "/export?format=pdf")
            (py ".gsheet") = false
          ∧ endswith (head ++ py "/" ++ doc_id ++ py "/export?format=pdf")
              (py ".gslides") = false) as [-> ->].
  { rewrite !app_assoc. apply endswith_export_url. }
  rewrite !contains_export_url
    by (first [discriminate | apply no_slash_spreadsheets
              | apply no_slash_presentation]).
  subst head.
  change (contains (py "export?format=pdf") (py "spreadsheets")) with false.
  change (contains (py "export?format=pdf") (py "presentation")) with false.
  rewrite !orb_false_r.
  unfold kinds, EXPORT_FORMATS in Hkind. cbn [map fst] in Hkind.
  apply elem_of_cons in Hkind as [-> | Hkind].
  { change (contains (py "https://docs.google.com/" ++ py "document" ++ py "/d") _)
      with false.
    change (bool_decide (py "document" = py "spreadsheets")) with false.
    change (bool_decide (py "document" = py "presentation")) with false.
    by rewrite !orb_false_r. }
  apply elem_of_cons in Hkind as [-> | Hkind].
  { change (contains (py "https://docs.google.com/" ++ py "spreadsheets" ++ py "/d")
              (py "spreadsheets")) with true.
    change (bool_decide (py "spreadsheets" = py "spreadsheets")) with true.
    by rewrite orb_true_r. }
  apply elem_of_cons in Hkind as [-> | Hkind]; [|by apply elem_of_nil in Hkind].
  change (contains (py "https://docs.google.com/" ++ py "presentation" ++ py "/d")
            (py "spreadsheets")) with false.
  change (contains (py "https://docs.google.com/" ++ py "presentation" ++ py "/d")
            (py "presentation")) with true.
  change (bool_decide (py "presentation" = py "spreadsheets")) with false.
  change (bool_decide (py "presentation" = py "presentation")) with true.
  by rewrite !orb_false_r, orb_true_r.
Qed.

End doc_type.

Section export.
Import GoogleDocsProcessor.
Context `{lib : PyLib}.

(** X24: for an export URL as source, [get_content] downloads that very
    URL when the id contains neither [spreadsheets] nor [presentation]: the
    type read off the URL is the kind it was built with. The type is read by
    substring, so an id that contains [spreadsheets] makes any document a
    spreadsheet, and the spreadsheet export of that id is what is
    downloaded. *)
Theorem export_url_doc_type (repr : json → str)
    (requests_get : str → result str) (pdf_pages : str → result (list str))
    (w : world) (doc_id kind : str) :
  kind ∈ kinds →
  doc_id ≠ [] →
  forallb id_char doc_id = true →
  (contains doc_id (py "spreadsheets") = false →
   contains doc_id (py "presentation") = false →
   _determine_doc_type (SrcStr (_build_export_url doc_id kind (py "pdf"))) = kind
   ∧ get_content repr requests_get pdf_pages w
       (SrcStr (_build_export_url doc_id kind (py "pdf")))
     = download_export requests_get pdf_pages
         (_build_export_url doc_id kind (py "pdf")))
  ∧ (contains doc_id (py "spreadsheets") = true →
     _determine_doc_type (SrcStr (_build_export_url doc_id kind (py "pdf")))
     = py "spreadsheets"
     ∧ get_content repr requests_get pdf_pages w
         (SrcStr (_build_export_url doc_id kind (py "pdf")))
       = download_export requests_get pdf_pages
           (_build_export_url doc_id (py "spreadsheets") (py "pdf"))).
Proof.
  intros Hkind Hne Hid.
  pose proof (search_export_url doc_id kind (py "pdf") Hkind Hne Hid) as Hsearch.
  pose proof (determine_doc_type_export doc_id kind Hkind) as Htype.
  assert (extract_document_id repr w
            (SrcStr (_build_export_url doc_id kind (py "pdf"))) = Ok doc_id)
    as Hextract.
  { unfold extract_document_id. by rewrite Hsearch. }
  split.
  - intros Hs Hp. rewrite Hs, Hp in Htype. cbn [orb] in Htype.
    assert (_determine_doc_type
              (SrcStr (_build_export_url doc_id kind (py "pdf"))) = kind) as Hk.
    { rewrite Htype. unfold kinds, EXPORT_FORMATS in Hkind.
      cbn [map fst] in Hkind.
      repeat (apply elem_of_cons in Hkind as [-> | Hkind]; [reflexivity|]).
      by apply elem_of_nil in Hkind. }
    split; [done|].
    unfold get_content. by rewrite Hextract, Hk.
  - intros Hs. rewrite Hs in Htype. cbn [orb] in Htype.
    split; [done|].
    unfold get_content. by rewrite Hextract, Htype.
Qed.

End export.

Lemma export_url_doc_type_witness :
  GoogleDocsProcessor._determine_doc_type
    (SrcStr (GoogleDocsProcessor._build_export_url (py "1aB-c_9")
               (py "presentation") (py "pdf")))
  = py "presentation"
  ∧ @GoogleDocsProcessor.get_content example_lib (fun _ => [])
      (fun _ => Ok (py "%PDF-1.7")) (fun _ => Ok [py "page-1"]) example_world
      (SrcStr (GoogleDocsProcessor._build_export_url (py "1aB-c_9")
                 (py "presentation") (py "pdf")))
    = download_export (fun _ => Ok (py "%PDF-1.7")) (fun _ => Ok [py "page-1"])
        (GoogleDocsProcessor._build_export_url (py "1aB-c_9")
           (py "presentation") (py "pdf")).
Proof.
  apply (proj1 (@export_url_doc_type example_lib (fun _ => [])
                  (fun _ => Ok (py "%PDF-1.7")) (fun _ => Ok [py "page-1"])
                  example_world (py "1aB-c_9") (py "presentation")
                  ltac:(apply (bool_decide_unpack _); vm_compute; exact I)
                  ltac:(discriminate) eq_refl)).
  - vm_compute. reflexivity.
  - vm_compute. reflexivity.
Defined.
